(** * gradio/flagging.py: the flag-recording callbacks

    A shallow embedding of [SimpleCSVLogger], [CSVLogger] and
    [HuggingFaceDatasetSaver] together with the parts of the Python runtime
    they rest on: the [csv] writer and reader, text-mode file access and
    [os.path.join].  Python [str] values are modelled as [string] (one
    [ascii] per character), Python exceptions as values of [PyError]. *)

From Stdlib Require Import Ascii String DecimalString ZArith.
From stdpp Require Import gmap strings list fin_maps.

Local Open Scope Z_scope.

(** ** Python runtime: exceptions, results, a few builtins *)

Inductive PyError : Type :=
| ValueError
| IndexError
| TypeError
| FileNotFoundError
| ImportError
| CsvError.

Inductive result (A : Type) : Type :=
| Ok (a : A)
| Raise (e : PyError).
Arguments Ok {A} a.
Arguments Raise {A} e.

Definition rbind {A B : Type} (r : result A) (k : A → result B) : result B :=
  match r with
  | Ok a => k a
  | Raise e => Raise e
  end.

Declare Scope result_scope.
Delimit Scope result_scope with res.
Notation "x ← y ; z" := (rbind y (λ x : _, z))
  (at level 20, y at level 100, z at level 200, only parsing) : result_scope.
Notation "' x ← y ; z" := (rbind y (λ x : _, z))
  (at level 20, x pattern, y at level 100, z at level 200, only parsing)
  : result_scope.

Module Py.

Definition CR : ascii := "013"%char.
Definition LF : ascii := "010"%char.
Definition COMMA : ascii := ","%char.
Definition APOSTROPHE : ascii := "'"%char.
Definition DQUOTE : ascii := "034"%char.

Definition char_eqb (a b : ascii) : bool := Ascii.eqb a b.

Fixpoint char_in (c : ascii) (s : string) : bool :=
  match s with
  | EmptyString => false
  | String x s' => char_eqb c x || char_in c s'
  end.

(** [str(n)] for an [int]. *)
Definition str_int (n : Z) : string := NilZero.string_of_int (Z.to_int n).

(** [str(n)] for a non-negative index, as in [f"component {idx}"]. *)
Definition str_nat (n : nat) : string := NilZero.string_of_uint (Nat.to_uint n).

(** Truthiness of an [Optional[str]]: [None] and the empty string are falsy. *)
Definition truthy (s : option string) : bool :=
  match s with
  | None => false
  | Some EmptyString => false
  | Some _ => true
  end.

(** [a or b] on an optional string with a string fallback. *)
Definition or_else (a : option string) (b : string) : string :=
  match a with
  | Some (String c s) => String c s
  | _ => b
  end.

Fixpoint ends_with_slash (s : string) : bool :=
  match s with
  | EmptyString => false
  | String c EmptyString => char_eqb c "/"%char
  | String _ s' => ends_with_slash s'
  end.

(** [os.path.join(a, b)] (posixpath). *)
Definition path_join (a b : string) : string :=
  match b with
  | String "/"%char _ => b
  | _ =>
      match a with
      | EmptyString => b
      | _ => if ends_with_slash a then a +:+ b else a +:+ "/" +:+ b
      end
  end.

Arguments path_join : simpl never.

(** Universal-newline translation done by a text-mode file opened without
    a [newline] argument: CR LF and a lone CR both read as LF. *)
Fixpoint universal_newlines (s : string) : string :=
  match s with
  | EmptyString => EmptyString
  | String c s' =>
      if char_eqb c CR then
        match s' with
        | String c' s'' =>
            if char_eqb c' LF then String LF (universal_newlines s'')
            else String LF (universal_newlines s')
        | EmptyString => String LF EmptyString
        end
      else String c (universal_newlines s')
  end.

(** Iterating a text stream: lines are cut after each LF and keep it; a
    last line without LF is yielded as it is. [cur] is the line being
    collected, in reverse. *)
Fixpoint iter_lines_from (cur : list ascii) (s : string) : list string :=
  match s with
  | EmptyString =>
      match cur with
      | [] => []
      | _ => [string_of_list_ascii (rev cur)]
      end
  | String c s' =>
      if char_eqb c LF
      then string_of_list_ascii (rev (c :: cur)) :: iter_lines_from [] s'
      else iter_lines_from (c :: cur) s'
  end.

Definition iter_lines (s : string) : list string := iter_lines_from [] s.

(** [l[i]] with Python's negative indices; [IndexError] out of range. *)
Definition getitem {A : Type} (l : list A) (i : Z) : result (nat * A) :=
  let n := Z.of_nat (length l) in
  let j := if i <? 0 then i + n else i in
  if (j <? 0) || (n <=? j) then Raise IndexError
  else match l !! Z.to_nat j with
       | Some x => Ok (Z.to_nat j, x)
       | None => Raise IndexError
       end.

(** [l.index(x)]: position of the first equal element, else [ValueError]. *)
Fixpoint index (l : list string) (x : string) : result nat :=
  match l with
  | [] => Raise ValueError
  | y :: l' =>
      if String.eqb y x then Ok 0%nat
      else rbind (index l' x) (λ k, Ok (S k))
  end.

(** [l[i] = x] for a non-negative [i]: [IndexError] when out of range. *)
Definition setitem {A : Type} (l : list A) (i : nat) (x : A) : result (list A) :=
  if (i <? length l)%nat then Ok (<[i:=x]> l) else Raise IndexError.

End Py.

(** ** The [csv] module

    Cells handed to a writer are Python strings or [None] ([option string]);
    the Sample Serializer is taken to return strings, so the numeric branch
    of [QUOTE_NONNUMERIC] (a cell of numeric type is written bare) is never
    taken and every cell written under that mode is quoted.  No dialect of
    this program sets [escapechar], [skipinitialspace] or [strict], and all
    keep [doublequote=True]; the model fixes these. *)

Module csv.
Import Py.

Inductive Quoting : Type := QUOTE_MINIMAL | QUOTE_NONNUMERIC.

Record Dialect : Type := {
  delimiter : ascii;
  quotechar : ascii;
  lineterminator : string;
  quoting : Quoting
}.

(** The default dialect, [excel]. *)
Definition excel : Dialect :=
  {| delimiter := COMMA; quotechar := DQUOTE;
     lineterminator := String CR (String LF EmptyString);
     quoting := QUOTE_MINIMAL |}.

(** [csv.writer(f, quoting=csv.QUOTE_NONNUMERIC, quotechar=APOSTROPHE)]. *)
Definition nonnumeric_apostrophe : Dialect :=
  {| delimiter := COMMA; quotechar := APOSTROPHE;
     lineterminator := String CR (String LF EmptyString);
     quoting := QUOTE_NONNUMERIC |}.

(** *** Writer *)

Definition special (d : Dialect) (c : ascii) : bool :=
  char_eqb c (delimiter d) || char_eqb c (quotechar d)
  || char_in c (lineterminator d).

Fixpoint has_special (d : Dialect) (s : string) : bool :=
  match s with
  | EmptyString => false
  | String c s' => special d c || has_special d s'
  end.

(** The copy loop of [join_append_data]: a quote character is doubled. *)
Fixpoint copy_field (d : Dialect) (s : string) : string :=
  match s with
  | EmptyString => EmptyString
  | String c s' =>
      if char_eqb c (quotechar d)
      then String c (String c (copy_field d s'))
      else String c (copy_field d s')
  end.

(** [join_append]: add one field to the record text [rec], which holds
    [num_fields] fields so far. *)
Definition join_append (d : Dialect) (num_fields : nat) (rec : string)
    (field : option string) (quoted : bool) : string :=
  let data := default EmptyString field in
  let quoted := quoted || has_special d data in
  let sep := match num_fields with
             | O => EmptyString
             | S _ => String (delimiter d) EmptyString
             end in
  let q := String (quotechar d) EmptyString in
  rec +:+ sep +:+ (if quoted then q +:+ copy_field d data +:+ q
                   else copy_field d data).

Definition initially_quoted (d : Dialect) (field : option string) : bool :=
  match quoting d with
  | QUOTE_NONNUMERIC => true   (* not PyNumber_Check(field) *)
  | QUOTE_MINIMAL => false
  end.

Fixpoint join_fields (d : Dialect) (num_fields : nat) (rec : string)
    (row : list (option string)) : nat * string :=
  match row with
  | [] => (num_fields, rec)
  | f :: row' =>
      join_fields d (S num_fields)
        (join_append d num_fields rec f (initially_quoted d f)) row'
  end.

(** [writer.writerow(row)]: the text added to the stream.  A record of
    one field that rendered empty is written as a pair of quotes. *)
Definition writerow (d : Dialect) (row : list (option string)) : string :=
  let '(num_fields, rec) := join_fields d 0 EmptyString row in
  let rec :=
    match num_fields, rec with
    | S n, EmptyString => join_append d n EmptyString None true
    | _, _ => rec
    end in
  rec +:+ lineterminator d.

Fixpoint writerows (d : Dialect) (rows : list (list (option string))) : string :=
  match rows with
  | [] => EmptyString
  | r :: rows' => writerow d r +:+ writerows d rows'
  end.

(** *** Reader *)

Inductive ParserState : Type :=
| START_RECORD
| START_FIELD
| IN_FIELD
| IN_QUOTED_FIELD
| QUOTE_IN_QUOTED_FIELD
| EAT_CRNL.

Definition state_eqb (a b : ParserState) : bool :=
  match a, b with
  | START_RECORD, START_RECORD | START_FIELD, START_FIELD
  | IN_FIELD, IN_FIELD | IN_QUOTED_FIELD, IN_QUOTED_FIELD
  | QUOTE_IN_QUOTED_FIELD, QUOTE_IN_QUOTED_FIELD | EAT_CRNL, EAT_CRNL => true
  | _, _ => false
  end.

(** The reader object: parser state, the field being collected (in
    reverse) with its length, and the fields of the current record (in
    reverse). *)
Record Reader : Type := {
  state : ParserState;
  field : list ascii;
  field_len : N;
  fields : list string
}.

(** [csv.field_size_limit()], at its default. *)
Definition field_limit : N := 131072%N.

Definition parse_reset : Reader :=
  {| state := START_RECORD; field := []; field_len := 0; fields := [] |}.

Definition set_state (r : Reader) (s : ParserState) : Reader :=
  {| state := s; field := field r; field_len := field_len r; fields := fields r |}.

Definition parse_save_field (r : Reader) : Reader :=
  {| state := state r; field := []; field_len := 0;
     fields := string_of_list_ascii (rev (field r)) :: fields r |}.

Definition parse_add_char (r : Reader) (c : ascii) : result Reader :=
  if (field_limit <=? field_len r)%N then Raise CsvError
  else Ok {| state := state r; field := c :: field r;
             field_len := N.succ (field_len r); fields := fields r |}.

(** One input unit of the parser: a character of the line or the
    end-of-line marker fed after each line. *)
Inductive Input : Type := Ch (c : ascii) | EOL.

Definition is_newline (i : Input) : bool :=
  match i with
  | Ch c => char_eqb c LF || char_eqb c CR
  | EOL => false
  end.

Definition start_field (d : Dialect) (r : Reader) (i : Input) : result Reader :=
  match i with
  | EOL => Ok (set_state (parse_save_field r) START_RECORD)
  | Ch c =>
      if is_newline i then Ok (set_state (parse_save_field r) EAT_CRNL)
      else if char_eqb c (quotechar d) then Ok (set_state r IN_QUOTED_FIELD)
      else if char_eqb c (delimiter d) then Ok (parse_save_field r)
      else rbind (parse_add_char r c) (λ r', Ok (set_state r' IN_FIELD))
  end.

Definition parse_process_char (d : Dialect) (r : Reader) (i : Input)
    : result Reader :=
  match state r with
  | START_RECORD =>
      match i with
      | EOL => Ok r
      | Ch _ =>
          if is_newline i then Ok (set_state r EAT_CRNL)
          else start_field d (set_state r START_FIELD) i
      end
  | START_FIELD => start_field d r i
  | IN_FIELD =>
      match i with
      | EOL => Ok (set_state (parse_save_field r) START_RECORD)
      | Ch c =>
          if is_newline i then Ok (set_state (parse_save_field r) EAT_CRNL)
          else if char_eqb c (delimiter d)
          then Ok (set_state (parse_save_field r) START_FIELD)
          else parse_add_char r c
      end
  | IN_QUOTED_FIELD =>
      match i with
      | EOL => Ok r
      | Ch c =>
          if char_eqb c (quotechar d) then Ok (set_state r QUOTE_IN_QUOTED_FIELD)
          else parse_add_char r c
      end
  | QUOTE_IN_QUOTED_FIELD =>
      match i with
      | EOL => Ok (set_state (parse_save_field r) START_RECORD)
      | Ch c =>
          if char_eqb c (quotechar d)
          then rbind (parse_add_char r c) (λ r', Ok (set_state r' IN_QUOTED_FIELD))
          else if char_eqb c (delimiter d)
          then Ok (set_state (parse_save_field r) START_FIELD)
          else if is_newline i then Ok (set_state (parse_save_field r) EAT_CRNL)
          else rbind (parse_add_char r c) (λ r', Ok (set_state r' IN_FIELD))
      end
  | EAT_CRNL =>
      match i with
      | EOL => Ok (set_state r START_RECORD)
      | Ch _ => if is_newline i then Ok r else Raise CsvError
      end
  end.

Fixpoint parse_line (d : Dialect) (r : Reader) (line : string) : result Reader :=
  match line with
  | EmptyString => parse_process_char d r EOL
  | String c line' =>
      rbind (parse_process_char d r (Ch c)) (λ r', parse_line d r' line')
  end.

(** [list(csv.reader(lines))]: [Reader_iternext] called until the input
    is exhausted.  [r] is the reader at the point where the next line is
    fetched: freshly reset at the start of a record, or in the middle of a
    quoted field that runs over a line end. *)
Fixpoint read_records (d : Dialect) (r : Reader) (lines : list string)
    : result (list (list string)) :=
  match lines with
  | [] =>
      if negb (field_len r =? 0)%N || state_eqb (state r) IN_QUOTED_FIELD
      then Ok [rev (fields (parse_save_field r))]
      else Ok []
  | line :: lines' =>
      rbind (parse_line d r line) (λ r',
        if state_eqb (state r') START_RECORD
        then rbind (read_records d parse_reset lines')
                   (λ rows, Ok (rev (fields r') :: rows))
        else read_records d r' lines')
  end.

Definition reader (d : Dialect) (lines : list string)
    : result (list (list string)) :=
  read_records d parse_reset lines.

End csv.

(** ** The world a callback runs in

    Files are a finite map from path to content (directories are implicit);
    every mutation of the world and every call to a collaborator (the Sample
    Serializer, the dataset repository) is also recorded, in order, in a
    trace of events. *)

Inductive OpenMode : Type := mode_r | mode_w | mode_a | mode_rb | mode_wb.

Definition is_binary (m : OpenMode) : bool :=
  match m with
  | mode_rb | mode_wb => true
  | _ => false
  end.

(** The classes [file_preview_types] tells apart; [Other] is any other
    component class. *)
Inductive ComponentClass : Type :=
| InputsAudio | OutputsAudio | InputsImage | OutputsImage | Other.

Definition class_eqb (a b : ComponentClass) : bool :=
  match a, b with
  | InputsAudio, InputsAudio | OutputsAudio, OutputsAudio
  | InputsImage, InputsImage | OutputsImage, OutputsImage | Other, Other => true
  | _, _ => false
  end.

(** A component: its label, its class and its Sample Serializer
    [save_flagged(dir, label, data, encryption_key)].  The serializer is
    defined in gradio/components.py and is left abstract, a field of the
    component; the specification gives its result as a reference string. *)
Record Component (Sample : Type) : Type := {
  label : option string;
  cls : ComponentClass;
  save_flagged : string → option string → option Sample → option string → string
}.
Arguments label {Sample} _.
Arguments cls {Sample} _.
Arguments save_flagged {Sample} _ _ _ _ _.

Inductive Event (Sample : Type) : Type :=
| EvSaveFlagged (c : Component Sample) (dir : string) (lbl : option string)
    (sample : option Sample) (key : option string)
| EvOpen (path : string) (mode : OpenMode)
| EvWrite (path : string) (data : string)
| EvCreateRepo (name : string) (private : bool)
| EvClone (local_dir : string) (clone_from : string)
| EvGitPull (lfs : bool)
| EvPushToHub (commit_message : string).
Arguments EvSaveFlagged {Sample} _ _ _ _ _.
Arguments EvOpen {Sample} _ _.
Arguments EvWrite {Sample} _ _.
Arguments EvCreateRepo {Sample} _ _.
Arguments EvClone {Sample} _ _.
Arguments EvGitPull {Sample} _.
Arguments EvPushToHub {Sample} _.

Record World (Sample : Type) : Type := {
  fs : gmap string string;
  trace : list (Event Sample)
}.
Arguments fs {Sample} _.
Arguments trace {Sample} _.

(** State and exceptions: an exception keeps the effects done before it. *)
Definition IO (Sample A : Type) : Type := World Sample → result A * World Sample.

Declare Scope io_scope.
Delimit Scope io_scope with io.

Section IO.
Context {Sample : Type}.

Definition ret {A : Type} (a : A) : IO Sample A := λ w, (Ok a, w).

Definition bind {A B : Type} (m : IO Sample A) (k : A → IO Sample B)
    : IO Sample B := λ w,
  match m w with
  | (Ok a, w') => k a w'
  | (Raise e, w') => (Raise e, w')
  end.

Notation "x ← y ; z" := (bind y (λ x : _, z))
  (at level 20, y at level 100, z at level 200, only parsing) : io_scope.
Notation "' x ← y ; z" := (bind y (λ x : _, z))
  (at level 20, x pattern, y at level 100, z at level 200, only parsing)
  : io_scope.
Notation "y ;; z" := (bind y (λ _, z))
  (at level 100, z at level 200, only parsing, right associativity) : io_scope.
Local Open Scope io_scope.

Definition raise {A : Type} (e : PyError) : IO Sample A := λ w, (Raise e, w).

Definition lift {A : Type} (r : result A) : IO Sample A := λ w, (r, w).

Definition emit (e : Event Sample) : IO Sample unit := λ w,
  (Ok (), {| fs := fs w; trace := trace w ++ [e] |}).

(** [os.path.exists(path)]. *)
Definition os_path_exists (path : string) : IO Sample bool := λ w,
  (Ok (match fs w !! path with Some _ => true | None => false end), w).

(** What an event does to the files. *)
Definition apply_event (e : Event Sample) (files : gmap string string)
    : gmap string string :=
  match e with
  | EvOpen path mode_w | EvOpen path mode_wb => <[path := EmptyString]> files
  | EvOpen path mode_a =>
      match files !! path with
      | Some _ => files
      | None => <[path := EmptyString]> files
      end
  | EvWrite path data =>
      <[path := default EmptyString (files !! path) +:+ data]> files
  | _ => files
  end.

Definition mutate (e : Event Sample) : IO Sample unit := λ w,
  (Ok (), {| fs := apply_event e (fs w); trace := trace w ++ [e] |}).

(** [open(path, mode, encoding=...)]: a binary mode with an encoding is
    refused before the file is touched; reading a missing file fails;
    [w] truncates or creates, [a] creates when missing. *)
Definition py_open (path : string) (mode : OpenMode) (encoding : option string)
    : IO Sample unit :=
  if is_binary mode && bool_decide (is_Some encoding) then raise ValueError
  else match mode with
       | mode_r | mode_rb =>
           found ← os_path_exists path;
           if found : bool then ret () else raise FileNotFoundError
       | _ => mutate (EvOpen path mode)
       end.

(** [f.read()] on a text-mode file opened with the default [newline]. *)
Definition file_read_text (path : string) : IO Sample string := λ w,
  match fs w !! path with
  | Some s => (Ok (Py.universal_newlines s), w)
  | None => (Raise FileNotFoundError, w)
  end.

(** [f.read()] on a binary-mode file. *)
Definition file_read_bytes (path : string) : IO Sample string := λ w,
  match fs w !! path with
  | Some s => (Ok s, w)
  | None => (Raise FileNotFoundError, w)
  end.

(** [f.write(data)] on a file opened with [newline=""] or in binary mode:
    nothing is translated. *)
Definition file_write (path : string) (data : string) : IO Sample unit :=
  mutate (EvWrite path data).

(** [component.save_flagged(dir, label, sample, key)]. *)
Definition call_save_flagged (c : Component Sample) (dir : string)
    (lbl : option string) (sample : option Sample) (key : option string)
    : IO Sample string :=
  emit (EvSaveFlagged c dir lbl sample key);;
  ret (save_flagged c dir lbl sample key).

(** [len([None for row in csv.reader(csvfile)]) - 1] on the file at
    [path], opened for reading in text mode. *)
Definition line_count (path : string) (encoding : option string)
    : IO Sample Z :=
  py_open path mode_r encoding;;
  text ← file_read_text path;
  rows ← lift (csv.reader csv.excel (Py.iter_lines text));
  ret (Z.of_nat (length rows) - 1).

End IO.

Notation "x ← y ; z" := (bind y (λ x : _, z))
  (at level 20, y at level 100, z at level 200, only parsing) : io_scope.
Notation "' x ← y ; z" := (bind y (λ x : _, z))
  (at level 20, x pattern, y at level 100, z at level 200, only parsing)
  : io_scope.
Notation "y ;; z" := (bind y (λ _, z))
  (at level 100, z at level 200, only parsing, right associativity) : io_scope.
Local Open Scope io_scope.

(** ** Reading a trace *)

Section Traces.
Context {Sample : Type}.

Definition is_serializer_call (e : Event Sample) : bool :=
  match e with
  | EvSaveFlagged _ _ _ _ _ => true
  | _ => false
  end.

(** Events local to the machine: serializer calls and file events, as
    opposed to the exchanges with the remote repository. *)
Definition is_local_event (e : Event Sample) : bool :=
  match e with
  | EvSaveFlagged _ _ _ _ _ | EvOpen _ _ | EvWrite _ _ => true
  | _ => false
  end.

(** The files after a run of events. *)
Definition replay (events : list (Event Sample)) (files : gmap string string)
    : gmap string string :=
  fold_left (λ files e, apply_event e files) events files.

(** The contents the disk can be found in when a run of events is
    interrupted: after none of them, after the first, ..., after all. *)
Definition crash_states (events : list (Event Sample))
    (files : gmap string string) : list (gmap string string) :=
  (λ k, replay (take k events) files) <$> seq 0 (S (length events)).

(** A computation that adds local events only, the files following
    them. *)
Definition local_run {A : Type} (m : IO Sample A) : Prop :=
  ∀ w r w', m w = (r, w') →
    ∃ events,
      trace w' = trace w ++ events
      ∧ forallb is_local_event events = true
      ∧ fs w' = replay events (fs w).

(** A computation that adds local events and then, when it returns [n]
    and only then, one push whose message carries [n], the rows of [log] as
    it is left being [n + 1] to the reader. *)
Definition pushes_on_return (log : string) (m : IO Sample Z) : Prop :=
  ∀ w r w', m w = (r, w') →
    ∃ local,
      trace w'
      = trace w ++ local
        ++ match r with
           | Ok n => [EvPushToHub ("Flagged sample #" +:+ Py.str_int n)]
           | Raise _ => []
           end
      ∧ forallb is_local_event local = true
      ∧ fs w' = replay local (fs w)
      ∧ ∀ n, r = Ok n →
          ∃ content rows,
            fs w' !! log = Some content
            ∧ csv.reader csv.excel (Py.iter_lines (Py.universal_newlines content))
              = Ok rows
            ∧ n = Z.of_nat (length rows) - 1.

End Traces.

(** [enumerate(zip(components, flag_data))], starting at [idx]. *)
Fixpoint enumerate_zip {A B : Type} (idx : nat) (xs : list A) (ys : list B)
    : list (nat * (A * B)) :=
  match xs, ys with
  | x :: xs', y :: ys' => (idx, (x, y)) :: enumerate_zip (S idx) xs' ys'
  | _, _ => []
  end.

(** [component.label or f"component {idx}"]. *)
Definition label_or_default {Sample : Type} (idx : nat) (c : Component Sample)
    : string :=
  Py.or_else (label c) ("component " +:+ Py.str_nat idx).

(** ** SimpleCSVLogger *)

Module SimpleCSVLogger.
Section SimpleCSVLogger.
Context {Sample : Type}.

Record t : Type := {
  components : list (Component Sample);
  flagging_dir : string
}.

(** [setup]; [os.makedirs(flagging_dir, exist_ok=True)] only makes the
    directory, which the file map leaves implicit. *)
Definition setup (components : list (Component Sample)) (flagging_dir : string)
    : t :=
  {| components := components; flagging_dir := flagging_dir |}.

Fixpoint serialize (dir : string)
    (pairs : list (Component Sample * option Sample)) : IO Sample (list string) :=
  match pairs with
  | [] => ret []
  | (component, sample) :: pairs' =>
      cell ← call_save_flagged component dir (label component) sample None;
      cells ← serialize dir pairs';
      ret (cell :: cells)
  end.

Definition flag (self : t) (flag_data : list (option Sample))
    (flag_option : option string) (flag_index : option Z)
    (username : option string) : IO Sample Z :=
  let flagging_dir := flagging_dir self in
  let log_filepath := Py.path_join flagging_dir "log.csv" in
  csv_data ← serialize flagging_dir (zip (components self) flag_data);
  py_open log_filepath mode_a None;;
  file_write log_filepath
    (csv.writerow csv.nonnumeric_apostrophe (Some <$> csv_data));;
  line_count log_filepath None.

End SimpleCSVLogger.
End SimpleCSVLogger.

(** ** CSVLogger *)

Module CSVLogger.
Section CSVLogger.
Context {Sample : Type}.
(** [encryptor.encrypt(key, data)] and [encryptor.decrypt(key, data)],
    from gradio/encryptor.py. *)
Variables encrypt decrypt : string → string → string.

Record t : Type := {
  components : list (Component Sample);
  flagging_dir : string;
  encryption_key : option string
}.

Definition setup (components : list (Component Sample)) (flagging_dir : string)
    (encryption_key : option string) : t :=
  {| components := components; flagging_dir := flagging_dir;
     encryption_key := encryption_key |}.

(** The loop that fills [csv_data]: a sample that is [None] gives an
    empty cell without any call to the serializer. *)
Fixpoint serialize (dir : string) (key : option string)
    (items : list (nat * (Component Sample * option Sample)))
    : IO Sample (list string) :=
  match items with
  | [] => ret []
  | (idx, (component, sample)) :: items' =>
      cell ← match sample with
             | Some _ =>
                 call_save_flagged component dir
                   (Some (label_or_default idx component)) sample key
             | None => ret EmptyString
             end;
      cells ← serialize dir key items';
      ret (cell :: cells)
  end.

(** One turn of that loop, read off its body: the cell it appends and
    the serializer call it makes, if any. *)
Definition cell (dir : string) (key : option string)
    (item : nat * (Component Sample * option Sample)) : string :=
  let '(idx, (component, sample)) := item in
  match sample with
  | Some _ =>
      save_flagged component dir (Some (label_or_default idx component))
        sample key
  | None => EmptyString
  end.

Definition call (dir : string) (key : option string)
    (item : nat * (Component Sample * option Sample))
    : option (Event Sample) :=
  let '(idx, (component, sample)) := item in
  match sample with
  | Some _ =>
      Some (EvSaveFlagged component dir
              (Some (label_or_default idx component)) sample key)
  | None => None
  end.

Fixpoint enumerate {A : Type} (idx : nat) (xs : list A) : list (nat * A) :=
  match xs with
  | [] => []
  | x :: xs' => (idx, x) :: enumerate (S idx) xs'
  end.

Definition headers (self : t) : list string :=
  ((λ '(idx, component), label_or_default idx component)
     <$> enumerate 0 (components self))
  ++ ["flag"; "username"; "timestamp"].

(** The closure [replace_flag_at_index(file_content)], with the
    [flag_index] and [flag_option] it captures. *)
Definition replace_flag_at_index (flag_index : Z) (flag_option : option string)
    (file_content : string) : result string :=
  (content ← csv.reader csv.excel (Py.iter_lines file_content);
   '(_, header) ← Py.getitem content 0;
   flag_col_index ← Py.index header "flag";
   '(row_index, row) ← Py.getitem content flag_index;
   row ← Py.setitem (Some <$> row) flag_col_index flag_option;
   let content := <[row_index := row]> (fmap (M:=list) Some <$> content) in
   Ok (csv.writerows csv.nonnumeric_apostrophe content))%res.

(** The codec as the logger uses it.  Encoding is what the append path
    writes: the header row, then one row per record, through the
    apostrophe-quoting writer.  Decoding is what [replace_flag_at_index]
    does with the text of the file: the default reader, whose first row
    is the header. *)
Definition encodeAll (header : list string) (rows : list (list string))
    : string :=
  csv.writerow csv.nonnumeric_apostrophe (Some <$> header)
  +:+ csv.writerows csv.nonnumeric_apostrophe (fmap (M:=list) Some <$> rows).

Definition decodeAll (text : string)
    : result (list string * list (list string)) :=
  (content ← csv.reader csv.excel (Py.iter_lines text);
   match content with
   | [] => Raise IndexError
   | header :: rows => Ok (header, rows)
   end)%res.

(** [flag]; [now] is the reading of [str(datetime.datetime.now())].  On
    the update path ([flag_index] given) Python leaves [csv_data] and
    [headers] unbound; they are not used there. *)
Definition flag (self : t) (flag_data : list (option Sample))
    (flag_option : option string) (flag_index : option Z)
    (username : option string) (now : string) : IO Sample Z :=
  let flagging_dir := flagging_dir self in
  let log_filepath := Py.path_join flagging_dir "log.csv" in
  found ← os_path_exists log_filepath;
  let is_new := negb found in
  csv_data ←
    match flag_index with
    | None =>
        cells ← serialize flagging_dir (encryption_key self)
                  (enumerate_zip 0 (components self) flag_data);
        ret ((Some <$> cells)
              ++ [Some (default EmptyString flag_option);
                  Some (default EmptyString username);
                  Some now])
    | Some _ => ret []
    end;
  let headers : list (option string) := Some <$> headers self in
  let writerow := csv.writerow csv.nonnumeric_apostrophe in
  (if Py.truthy (encryption_key self) then
     let key := default EmptyString (encryption_key self) in
     output ←
       (if is_new then ret EmptyString
        else
          py_open log_filepath mode_rb (Some "utf-8");;
          encrypted_csv ← file_read_bytes log_filepath;
          let decrypted_csv := decrypt key encrypted_csv in
          let file_content := decrypted_csv in
          match flag_index with
          | Some i => lift (replace_flag_at_index i flag_option file_content)
          | None => ret file_content
          end);
     let output :=
       match flag_index with
       | None =>
           output +:+ (if is_new then writerow headers else EmptyString)
                  +:+ writerow csv_data
       | Some _ => output
       end in
     py_open log_filepath mode_wb (Some "utf-8");;
     file_write log_filepath (encrypt key output)
   else
     match flag_index with
     | None =>
         py_open log_filepath mode_a (Some "utf-8");;
         (if is_new then file_write log_filepath (writerow headers)
          else ret ());;
         file_write log_filepath (writerow csv_data)
     | Some i =>
         py_open log_filepath mode_r (Some "utf-8");;
         file_content ← file_read_text log_filepath;
         file_content ← lift (replace_flag_at_index i flag_option file_content);
         py_open log_filepath mode_w (Some "utf-8");;
         file_write log_filepath file_content
     end);;
  line_count log_filepath (Some "utf-8").

End CSVLogger.
End CSVLogger.

(** ** HuggingFaceDatasetSaver *)

Module HuggingFaceDatasetSaver.
Section HuggingFaceDatasetSaver.
Context {Sample : Type}.

(** One entry of [infos["flagged"]["features"]]. *)
Record Feature : Type := {
  dtype : option string;
  _type : string
}.

(** [infos["flagged"]["features"]]: a dict keeps its keys in the order
    they were first set. *)
Definition Features : Type := list (option string * Feature).

(** [json.dumps] of the document with the given features. *)
Variable json_dumps : Features → string.

(** The module [huggingface_hub] as [import huggingface_hub] finds it:
    [None] when the package cannot be imported, otherwise its
    [create_repo], which returns the repository's URL.  The module's
    [Repository] and its methods are recorded as events. *)
Variable huggingface_hub : option (string → string → bool → string).

(** What [__init__] stores. *)
Record init : Type := {
  hf_token : string;
  dataset_name : string;
  organization_name : option string;
  dataset_private : bool
}.

(** The instance after [setup]. *)
Record t : Type := {
  config : init;
  path_to_dataset_repo : string;
  components : list (Component Sample);
  flagging_dir : string;
  dataset_dir : string;
  log_file : string;
  infos_file : string
}.

(** [setup]: when [huggingface_hub] cannot be imported the call raises
    [ImportError] before anything else is done.  The exchanges with the hub
    ([create_repo], the clone made by [Repository], [git_pull]) are recorded
    in the trace; the files a clone or a pull brings into the mirror depend
    on the remote and are not modelled. *)
Definition setup (self : init) (components : list (Component Sample))
    (flagging_dir : string) : IO Sample t :=
  match huggingface_hub with
  | None => raise ImportError
  | Some create_repo =>
      emit (EvCreateRepo (dataset_name self) (dataset_private self));;
      let path_to_dataset_repo :=
        create_repo (dataset_name self) (hf_token self) (dataset_private self) in
      let dataset_dir := Py.path_join flagging_dir (dataset_name self) in
      emit (EvClone dataset_dir path_to_dataset_repo);;
      emit (EvGitPull false);;
      ret {| config := self;
             path_to_dataset_repo := path_to_dataset_repo;
             components := components;
             flagging_dir := flagging_dir;
             dataset_dir := dataset_dir;
             log_file := Py.path_join dataset_dir "data.csv";
             infos_file := Py.path_join dataset_dir "dataset_infos.json" |}
  end.

Definition file_preview_types : list (ComponentClass * string) :=
  [(InputsAudio, "Audio"); (OutputsAudio, "Audio");
   (InputsImage, "Image"); (OutputsImage, "Image")].

Definition isinstance (component : Component Sample) (k : ComponentClass) : bool :=
  class_eqb (cls component) k.

(** [isinstance(component, tuple(file_preview_types))]. *)
Definition is_file_preview (component : Component Sample) : bool :=
  existsb (isinstance component) (fst <$> file_preview_types).

(** The inner loop: the [_type] of the first matching class. *)
Definition preview_type (component : Component Sample) : option string :=
  snd <$> find (λ kt, isinstance component (fst kt)) file_preview_types.

(** [d[k] = v]. *)
Fixpoint dict_set (k : option string) (v : Feature) (d : Features) : Features :=
  match d with
  | [] => [(k, v)]
  | (k', v') :: d' =>
      if decide (k' = k) then (k, v) :: d' else (k', v') :: dict_set k v d'
  end.

(** [label + " file"]: a [TypeError] when the label is [None]. *)
Definition label_file (lbl : option string) : result string :=
  match lbl with
  | Some s => Ok (s +:+ " file")
  | None => Raise TypeError
  end.

Definition string_value : Feature :=
  {| dtype := Some "string"; _type := "Value" |}.

(** The loop that generates the headers and the features on a new file. *)
Fixpoint generate_headers (pairs : list (Component Sample * option Sample))
    (headers : list (option string)) (features : Features)
    : result (list (option string) * Features) :=
  match pairs with
  | [] => Ok (headers, features)
  | (component, sample) :: pairs' =>
      let headers := headers ++ [label component] in
      let headers := headers ++ [label component] in
      let features := dict_set (label component) string_value features in
      if is_file_preview component then
        (name ← label_file (label component);
         let headers := headers ++ [Some name] in
         let features :=
           match preview_type component with
           | Some ty => dict_set (Some name) {| dtype := None; _type := ty |} features
           | None => features
           end in
         generate_headers pairs' headers features)%res
      else generate_headers pairs' headers features
  end.

(** The loop that generates the row of the flagged sample. *)
Fixpoint serialize (self : t) (pairs : list (Component Sample * option Sample))
    : IO Sample (list string) :=
  match pairs with
  | [] => ret []
  | (component, sample) :: pairs' =>
      filepath ← call_save_flagged component (dataset_dir self)
                   (label component) sample None;
      let cells :=
        if is_file_preview component
        then [filepath;
              path_to_dataset_repo self +:+ "/resolve/main/" +:+ filepath]
        else [filepath] in
      rest ← serialize self pairs';
      ret (cells ++ rest)
  end.

(** One turn of that loop, read off its body: the cells it appends and
    the serializer call it makes. *)
Definition cells (self : t) (pair : Component Sample * option Sample)
    : list string :=
  let '(component, sample) := pair in
  let filepath :=
    save_flagged component (dataset_dir self) (label component) sample None in
  if is_file_preview component
  then [filepath; path_to_dataset_repo self +:+ "/resolve/main/" +:+ filepath]
  else [filepath].

Definition call (self : t) (pair : Component Sample * option Sample)
    : Event Sample :=
  let '(component, sample) := pair in
  EvSaveFlagged component (dataset_dir self) (label component) sample None.

Definition flag (self : t) (flag_data : list (option Sample))
    (flag_option : option string) (flag_index : option Z)
    (username : option string) : IO Sample Z :=
  emit (EvGitPull true);;
  found ← os_path_exists (log_file self);
  let is_new := negb found in
  py_open (log_file self) mode_a (Some "utf-8");;
  infos ←
    (if is_new then
       '(headers, features) ←
         lift (generate_headers (zip (components self) flag_data) [] []);
       let headers := headers ++ [Some "flag"] in
       let features := dict_set (Some "flag") string_value features in
       file_write (log_file self) (csv.writerow csv.excel headers);;
       ret features
     else ret []);
  csv_data ← serialize self (zip (components self) flag_data);
  let csv_data :=
    (Some <$> csv_data) ++ [Some (default EmptyString flag_option)] in
  file_write (log_file self) (csv.writerow csv.excel csv_data);;
  (if is_new then
     py_open (infos_file self) mode_w None;;
     file_write (infos_file self) (json_dumps infos)
   else ret ());;
  line_count ← line_count (log_file self) (Some "utf-8");
  emit (EvPushToHub ("Flagged sample #" +:+ Py.str_int line_count));;
  ret line_count.

End HuggingFaceDatasetSaver.
End HuggingFaceDatasetSaver.

(** ** Text the apostrophe-quoting writer wrote

    Vocabulary for statements about logs written by the loggers
    themselves.  A cell is plain when it holds no comma, carriage return or
    line feed, and short when, quoted, it fits the reader's field limit. *)

Definition plain_char (c : ascii) : bool :=
  negb (Py.char_eqb c Py.COMMA || Py.char_eqb c Py.CR || Py.char_eqb c Py.LF).

Fixpoint plain (s : string) : bool :=
  match s with
  | EmptyString => true
  | String c s' => plain_char c && plain s'
  end.

Fixpoint line_plain (s : string) : bool :=
  match s with
  | EmptyString => true
  | String c s' =>
      negb (Py.char_eqb c Py.CR || Py.char_eqb c Py.LF) && line_plain s'
  end.

(** A cell as the writer renders it: between apostrophes, its own
    apostrophes doubled. *)
Definition quoted (s : string) : string :=
  String Py.APOSTROPHE
    (csv.copy_field csv.nonnumeric_apostrophe s
     +:+ String Py.APOSTROPHE EmptyString).

Definition short (s : string) : bool :=
  (N.of_nat (String.length (quoted s)) <=? csv.field_limit)%N.

Definition cells_ok (cells : list string) : bool :=
  forallb plain cells && forallb short cells.

(** The text of the cells of one row, [num_fields] cells being already
    written on the line. *)
Fixpoint fields_text (num_fields : nat) (cells : list string) : string :=
  match cells with
  | [] => EmptyString
  | c :: cells' =>
      match num_fields with
      | O => EmptyString
      | S _ => String Py.COMMA EmptyString
      end +:+ quoted c +:+ fields_text (S num_fields) cells'
  end.

(** Rows of strings as the writer writes them. *)
Definition written (rows : list (list string)) : string :=
  csv.writerows csv.nonnumeric_apostrophe (fmap (M:=list) Some <$> rows).

(** Feeding the characters of a string to the parser, without the
    end-of-line marker. *)
Fixpoint feed (d : csv.Dialect) (r : csv.Reader) (s : string)
    : result csv.Reader :=
  match s with
  | EmptyString => Ok r
  | String c s' =>
      rbind (csv.parse_process_char d r (csv.Ch c)) (λ r', feed d r' s')
  end.

(** The reader inside an unquoted field, and at the start of one. *)
Definition in_field (acc : list string) (cur : list ascii) : csv.Reader :=
  {| csv.state := csv.IN_FIELD; csv.field := cur;
     csv.field_len := N.of_nat (length cur); csv.fields := acc |}.

Definition at_start (st : csv.ParserState) (acc : list string) : csv.Reader :=
  {| csv.state := st; csv.field := []; csv.field_len := 0; csv.fields := acc |}.

(** The header line of the default logger, and the worlds whose log begins
    with it. *)
Definition header_line {Sample : Type} (self : @CSVLogger.t Sample) : string :=
  csv.writerow csv.nonnumeric_apostrophe (Some <$> CSVLogger.headers self).

Definition logged {Sample : Type} (self : @CSVLogger.t Sample)
    (w : World Sample) : Prop :=
  ∃ rest,
    fs w !! Py.path_join (CSVLogger.flagging_dir self) "log.csv"
    = Some (header_line self +:+ rest).

(** The cell the simple logger records for one (component, sample) pair. *)
Definition simple_cell {Sample : Type} (dir : string)
    (pair : Component Sample * option Sample) : string :=
  save_flagged pair.1 dir (label pair.1) pair.2 None.

(** The serializer call the simple logger makes for one pair: the
    component's own label, the value as it is, no key. *)
Definition simple_call {Sample : Type} (dir : string)
    (pair : Component Sample * option Sample) : Event Sample :=
  EvSaveFlagged pair.1 dir (label pair.1) pair.2 None.

(** ** Text the default writer wrote

    Vocabulary for statements about the log of the remote saver, which is
    written with the default dialect.  A cell is bare when the writer
    leaves it unquoted: it holds no comma, double quote, carriage return or
    line feed. *)

Definition bare (s : string) : bool := negb (csv.has_special csv.excel s).

Definition fits (s : string) : bool :=
  (N.of_nat (String.length s) <=? csv.field_limit)%N.

Definition bare_ok (cells : list string) : bool :=
  forallb bare cells && forallb fits cells.

(** The text of the cells of one row, [num_fields] cells being already
    written on the line. *)
Fixpoint bare_text (num_fields : nat) (cells : list string) : string :=
  match cells with
  | [] => EmptyString
  | c :: cells' =>
      match num_fields with
      | O => EmptyString
      | S _ => String Py.COMMA EmptyString
      end +:+ c +:+ bare_text (S num_fields) cells'
  end.

(** Rows of strings as the default writer writes them. *)
Definition written_excel (rows : list (list string)) : string :=
  csv.writerows csv.excel (fmap (M:=list) Some <$> rows).

(** The reader after the characters of an unquoted cell. *)
Definition after_cell (acc : list string) (c : string) : csv.Reader :=
  match c with
  | EmptyString => at_start csv.START_FIELD acc
  | _ => in_field acc (rev (list_ascii_of_string c))
  end.

(** ** Reading the remote saver's loops

    The end of [HuggingFaceDatasetSaver.flag]: the recount of the log, the
    push whose message carries it, and the return. *)
Definition count_and_push {Sample : Type} (log : string) : IO Sample Z :=
  line_count ← line_count log (Some "utf-8");
  emit (EvPushToHub ("Flagged sample #" +:+ Py.str_int line_count));;
  ret line_count.

(** One turn of the header loop, read off its body when it does not
    raise: the label twice, then the label followed by file for an audio or
    image component. *)
Definition header_cells {Sample : Type}
    (pair : Component Sample * option Sample) : list (option string) :=
  [label pair.1; label pair.1]
  ++ if HuggingFaceDatasetSaver.is_file_preview pair.1
     then [Some (default EmptyString (label pair.1) +:+ " file")]
     else [].

(** The turn that raises: an audio or image component whose label is
    [None]. *)
Definition unlabelled_preview {Sample : Type}
    (pair : Component Sample * option Sample) : bool :=
  HuggingFaceDatasetSaver.is_file_preview pair.1
  && match label pair.1 with Some _ => false | None => true end.

(** The number of pairs whose component is an audio or image one. *)
Definition previews {Sample : Type}
    (pairs : list (Component Sample * option Sample)) : nat :=
  length (List.filter (λ pair, HuggingFaceDatasetSaver.is_file_preview pair.1) pairs).

(** ** A concrete installation used by the examples below

    One text component labelled [prompt] whose serializer returns the
    sample itself, logging under the directory [flagged]. *)

Module Demo.

Definition text_component (lbl : option string) : Component string :=
  {| label := lbl; cls := Other;
     save_flagged := λ _ _ sample _, default EmptyString sample |}.

Definition prompt : Component string := text_component (Some "prompt").

Definition no_cipher (key data : string) : string := data.

Definition fresh : World string := {| fs := ∅; trace := [] |}.

Definition on_disk (path content : string) : World string :=
  {| fs := {[ path := content ]}; trace := [] |}.

Definition logger : CSVLogger.t := CSVLogger.setup [prompt] "flagged" None.

Definition log_filepath : string := "flagged/log.csv".

Definition append (sample lbl now : string) (w : World string)
    : result Z * World string :=
  CSVLogger.flag no_cipher no_cipher logger [Some sample] (Some lbl) None
    (Some "alice") now w.

Definition update (i : Z) (lbl : string) (w : World string)
    : result Z * World string :=
  CSVLogger.flag no_cipher no_cipher logger [] (Some lbl) (Some i) None
    "t9" w.

(** The store after appending [r0], [r1], [r2]. *)
Definition after3 : World string :=
  snd (append "r2" "c" "t2" (snd (append "r1" "b" "t1"
    (snd (append "r0" "a" "t0" fresh))))).

Definition nl : string := String Py.CR (String Py.LF EmptyString).
Definition lf : string := String Py.LF EmptyString.

(** A log with the same table written by hand, cells bare. *)
Definition bare3 : string :=
  "prompt,flag" +:+ lf +:+ "r0,a" +:+ lf +:+ "r1,b" +:+ lf +:+ "r2,c" +:+ lf.

(** A remote saver over the same component and one audio input. *)
Definition audio : Component string :=
  {| label := Some "clip"; cls := InputsAudio;
     save_flagged := λ _ _ sample _, default EmptyString sample |}.

Definition json_dumps (features : HuggingFaceDatasetSaver.Features) : string :=
  "{}".

Definition create_repo (name token : string) (private : bool) : string :=
  "https://hub/" +:+ name.

Definition remote_init : HuggingFaceDatasetSaver.init :=
  {| HuggingFaceDatasetSaver.hf_token := "token";
     HuggingFaceDatasetSaver.dataset_name := "flags";
     HuggingFaceDatasetSaver.organization_name := None;
     HuggingFaceDatasetSaver.dataset_private := false |}.

Definition remote : HuggingFaceDatasetSaver.t :=
  {| HuggingFaceDatasetSaver.config := remote_init;
     HuggingFaceDatasetSaver.path_to_dataset_repo := "https://hub/flags";
     HuggingFaceDatasetSaver.components := [prompt; audio];
     HuggingFaceDatasetSaver.flagging_dir := "flagged";
     HuggingFaceDatasetSaver.dataset_dir := "flagged/flags";
     HuggingFaceDatasetSaver.log_file := "flagged/flags/data.csv";
     HuggingFaceDatasetSaver.infos_file := "flagged/flags/dataset_infos.json" |}.

Definition remote_flag (w : World string) : result Z * World string :=
  HuggingFaceDatasetSaver.flag json_dumps remote [Some "hello"; Some "a.wav"]
    (Some "good") None None w.

End Demo.

(** A remote saver over one image input without a label, and a log the
    reader refuses. *)
Module RemoteDemo.

Definition image : Component string :=
  {| label := None; cls := InputsImage;
     save_flagged := λ _ _ sample _, default EmptyString sample |}.

Definition unlabelled : HuggingFaceDatasetSaver.t :=
  {| HuggingFaceDatasetSaver.config := Demo.remote_init;
     HuggingFaceDatasetSaver.path_to_dataset_repo := "https://hub/flags";
     HuggingFaceDatasetSaver.components := [image];
     HuggingFaceDatasetSaver.flagging_dir := "flagged";
     HuggingFaceDatasetSaver.dataset_dir := "flagged/flags";
     HuggingFaceDatasetSaver.log_file := "flagged/flags/data.csv";
     HuggingFaceDatasetSaver.infos_file := "flagged/flags/dataset_infos.json" |}.

(** A cell one character longer than the reader's field limit. *)
Definition long_cell : string :=
  N.iter (N.succ csv.field_limit) (String "a"%char) EmptyString.

End RemoteDemo.

(** * Properties *)

(** ** The csv writer and reader on small inputs *)

Example writerow_apostrophe :
  csv.writerow csv.nonnumeric_apostrophe [Some "a,b"; None; Some "it's"]
  = "'a,b','','it''s'" +:+ Demo.nl.
Proof. reflexivity. Qed.

Example writerow_excel :
  csv.writerow csv.excel [Some "a,b"; None; Some "it's"]
  = String Py.DQUOTE ("a,b" +:+ String Py.DQUOTE (",,it's" +:+ Demo.nl)).
Proof. reflexivity. Qed.

Example writerow_single_empty :
  csv.writerow csv.excel [Some EmptyString]
  = String Py.DQUOTE (String Py.DQUOTE Demo.nl).
Proof. reflexivity. Qed.

Example reader_keeps_apostrophes :
  csv.reader csv.excel
    (Py.iter_lines (Py.universal_newlines ("'a','flag'" +:+ Demo.nl)))
  = Ok [["'a'"; "'flag'"]].
Proof. vm_compute. reflexivity. Qed.

Example str_int_samples :
  Py.str_int 0 = "0" ∧ Py.str_int 12 = "12" ∧ Py.str_int (-1) = "-1"
  ∧ Py.str_nat 10 = "10".
Proof. repeat split; reflexivity. Qed.

Example path_join_samples :
  Py.path_join "flagged" "log.csv" = "flagged/log.csv"
  ∧ Py.path_join "a/" "b" = "a/b" ∧ Py.path_join "" "b" = "b"
  ∧ Py.path_join "a" "/b" = "/b".
Proof. repeat split; reflexivity. Qed.

Example after3_on_disk :
  fs Demo.after3 !! Demo.log_filepath
  = Some ("'prompt','flag','username','timestamp'" +:+ Demo.nl
          +:+ "'r0','a','alice','t0'" +:+ Demo.nl
          +:+ "'r1','b','alice','t1'" +:+ Demo.nl
          +:+ "'r2','c','alice','t2'" +:+ Demo.nl).
Proof. vm_compute. reflexivity. Qed.

Example after3_count :
  fst (Demo.append "r2" "c" "t2" (snd (Demo.append "r1" "b" "t1"
         (snd (Demo.append "r0" "a" "t0" Demo.fresh))))) = Ok 3.
Proof. vm_compute. reflexivity. Qed.

Example try_update_logged :
  Demo.update 1 "bad" Demo.after3 = (Raise ValueError, Demo.after3).
Proof. vm_compute. reflexivity. Qed.

(** ** The reader raises nothing but its own error *)

Section ReaderErrors.
Import csv.

Lemma parse_add_char_error r c e : parse_add_char r c = Raise e → e = CsvError.
Proof. unfold parse_add_char. case_match; congruence. Qed.

Lemma start_field_error d r i e : start_field d r i = Raise e → e = CsvError.
Proof.
  unfold start_field. destruct i as [c|]; [|done].
  repeat case_match; try done.
  destruct (parse_add_char r c) eqn:P; simpl; [done|].
  intros [= <-]. by apply parse_add_char_error in P.
Qed.

Lemma parse_process_char_error d r i e :
  parse_process_char d r i = Raise e → e = CsvError.
Proof.
  unfold parse_process_char.
  destruct (state r), i as [c|]; repeat case_match; try done;
    eauto using start_field_error, parse_add_char_error;
    try congruence;
    destruct (parse_add_char r c) eqn:P; simpl; try done;
    intros [= <-]; by apply parse_add_char_error in P.
Qed.

Lemma parse_line_error d line r e : parse_line d r line = Raise e → e = CsvError.
Proof.
  revert r. induction line as [|c line IH]; intros r; simpl.
  - apply parse_process_char_error.
  - destruct (parse_process_char d r (Ch c)) eqn:P; simpl; [apply IH|].
    intros [= <-]. by apply parse_process_char_error in P.
Qed.

Lemma read_records_error d lines r e :
  read_records d r lines = Raise e → e = CsvError.
Proof.
  revert r. induction lines as [|line lines IH]; intros r; simpl.
  - by case_match.
  - destruct (parse_line d r line) as [r'|e'] eqn:P; simpl.
    + case_match; [|apply IH].
      destruct (read_records d parse_reset lines) eqn:R; simpl; [done|].
      intros [= <-]. by apply IH in R.
    + intros [= <-]. by apply parse_line_error in P.
Qed.

Lemma reader_error d lines e : reader d lines = Raise e → e = CsvError.
Proof. apply read_records_error. Qed.

End ReaderErrors.

(** ** Running the callbacks symbolically *)

Section Runs.
Context {Sample : Type}.
Implicit Types w : World Sample.

Lemma world_eta w : {| fs := fs w; trace := trace w |} = w.
Proof. by destruct w. Qed.

Lemma bind_run {A B : Type} (m : IO Sample A) (k : A → IO Sample B) w :
  bind m k w = match m w with
               | (Ok a, w') => k a w'
               | (Raise e, w') => (Raise e, w')
               end.
Proof. reflexivity. Qed.

(** Counting the rows reads the file and touches nothing. *)
Lemma line_count_world path enc w : snd (line_count path enc w) = w.
Proof.
  unfold line_count, py_open, file_read_text, os_path_exists, lift, raise, ret, bind.
  destruct enc; simpl; destruct (fs w !! path) eqn:E; simpl;
    try rewrite E; simpl; try done;
    by destruct (csv.reader _ _).
Qed.

Lemma line_count_found path enc w content :
  fs w !! path = Some content →
  fst (line_count path enc w)
  = rbind (csv.reader csv.excel (Py.iter_lines (Py.universal_newlines content)))
          (λ rows, Ok (Z.of_nat (length rows) - 1)).
Proof.
  intros E.
  unfold line_count, py_open, file_read_text, os_path_exists, lift, raise, ret, bind.
  destruct enc; simpl; repeat (rewrite E; simpl);
    unfold rbind; by destruct (csv.reader _ _).
Qed.

Lemma serialize_run dir key items w :
  CSVLogger.serialize dir key items w
  = (Ok (CSVLogger.cell dir key <$> items),
     {| fs := fs w;
        trace := trace w ++ omap (CSVLogger.call dir key) items |}).
Proof.
  revert w. induction items as [|[idx [c s]] items IH]; intros w; simpl.
  - unfold ret. by rewrite app_nil_r, world_eta.
  - destruct s as [s|]; rewrite !bind_run.
    + unfold call_save_flagged, emit. rewrite bind_run. simpl.
      rewrite bind_run, IH. simpl. by rewrite <- app_assoc.
    + unfold ret at 1. rewrite bind_run, IH. done.
Qed.

Lemma enumerate_zip_lookup {A B : Type} (xs : list A) (ys : list B) n i :
  enumerate_zip n xs ys !! i
  = match xs !! i, ys !! i with
    | Some x, Some y => Some ((n + i)%nat, (x, y))
    | _, _ => None
    end.
Proof.
  revert ys n i. induction xs as [|x xs IH]; intros [|y ys] n [|i]; simpl;
    try done.
  - by destruct (xs !! i).
  - by rewrite Nat.add_0_r.
  - rewrite IH. by rewrite Nat.add_succ_r.
Qed.

Lemma enumerate_zip_length {A B : Type} (xs : list A) (ys : list B) n :
  length (enumerate_zip n xs ys) = (length xs `min` length ys)%nat.
Proof.
  revert ys n. induction xs as [|x xs IH]; intros [|y ys] n; simpl; try done.
  by rewrite IH.
Qed.

Lemma enumerate_length {A : Type} (xs : list A) n :
  length (CSVLogger.enumerate n xs) = length xs.
Proof. revert n. induction xs as [|x xs IH]; intros n; simpl; by rewrite ?IH. Qed.

Lemma headers_length (self : @CSVLogger.t Sample) :
  length (CSVLogger.headers self)
  = (length (CSVLogger.components self) + 3)%nat.
Proof.
  unfold CSVLogger.headers.
  by rewrite length_app, length_fmap, enumerate_length.
Qed.

(** The append path of the default logger, run from any world: the
    serializer calls, then either the refusal of the binary open (a key
    is set) or the writes followed by the recount. *)
Lemma flag_append_run (encrypt decrypt : string → string → string)
    (self : @CSVLogger.t Sample) flag_data flag_option username now w :
  let dir := CSVLogger.flagging_dir self in
  let key := CSVLogger.encryption_key self in
  let path := Py.path_join dir "log.csv" in
  let items := enumerate_zip 0 (CSVLogger.components self) flag_data in
  let csv_data :=
    (Some <$> (CSVLogger.cell dir key <$> items))
    ++ [Some (default EmptyString flag_option);
        Some (default EmptyString username); Some now] in
  let writerow := csv.writerow csv.nonnumeric_apostrophe in
  let headers := writerow (Some <$> CSVLogger.headers self) in
  let calls := omap (CSVLogger.call dir key) items in
  let io :=
    EvOpen path mode_a
    :: match fs w !! path with
       | Some _ => []
       | None => [EvWrite path headers]
       end ++ [EvWrite path (writerow csv_data)] in
  let written :=
    match fs w !! path with Some old => old | None => headers end
    +:+ writerow csv_data in
  CSVLogger.flag encrypt decrypt self flag_data flag_option None username now w
  = if Py.truthy key
    then (Raise ValueError, {| fs := fs w; trace := trace w ++ calls |})
    else line_count path (Some "utf-8")
           {| fs := <[path := written]> (fs w);
              trace := trace w ++ calls ++ io |}.
Proof.
  intros dir key path items csv_data writerow headers calls io written.
  unfold CSVLogger.flag. fold dir key path.
  rewrite bind_run. unfold os_path_exists. simpl.
  rewrite !bind_run, serialize_run. fold items calls. simpl.
  rewrite bind_run. fold writerow headers csv_data.
  destruct (Py.truthy key) eqn:K.
  - rewrite !bind_run. destruct (fs w !! path) eqn:E; simpl; done.
  - rewrite !bind_run. simpl. subst io written.
    destruct (fs w !! path) as [old|] eqn:E; simpl.
    + rewrite E. simpl. by rewrite <- !app_assoc.
    + rewrite !lookup_insert_eq. simpl.
      change (EmptyString +:+ headers) with headers.
      rewrite !insert_insert_eq. by rewrite <- !app_assoc.
Qed.

End Runs.

(** ** Reading back what the writer wrote *)

Section Strings.

Lemma append_nil_l t : EmptyString +:+ t = t.
Proof. reflexivity. Qed.

Lemma append_cons c s t : String c s +:+ t = String c (s +:+ t).
Proof. reflexivity. Qed.

Lemma append_nil_r s : s +:+ EmptyString = s.
Proof. induction s as [|c s IH]; [done|]. by rewrite append_cons, IH. Qed.

Lemma append_assoc s t u : (s +:+ t) +:+ u = s +:+ (t +:+ u).
Proof. induction s as [|c s IH]; [done|]. by rewrite !append_cons, IH. Qed.
End Strings.

Section Writer.
Import csv.

Lemma join_append_quoted n rec c :
  join_append nonnumeric_apostrophe n rec (Some c) true
  = rec +:+ match n with O => EmptyString | S _ => String Py.COMMA EmptyString end
        +:+ quoted c.
Proof. reflexivity. Qed.

Lemma join_fields_text cells n rec :
  join_fields nonnumeric_apostrophe n rec (Some <$> cells)
  = ((n + length cells)%nat, rec +:+ fields_text n cells).
Proof.
  revert n rec. induction cells as [|c cells IH]; intros n rec; simpl.
  - by rewrite Nat.add_0_r, append_nil_r.
  - rewrite IH. f_equal; [lia|].
    change (initially_quoted nonnumeric_apostrophe (Some c)) with true.
    rewrite join_append_quoted. by rewrite !append_assoc.
Qed.

Lemma writerow_text cells :
  writerow nonnumeric_apostrophe (Some <$> cells)
  = fields_text 0 cells +:+ lineterminator nonnumeric_apostrophe.
Proof.
  unfold writerow. rewrite join_fields_text. rewrite append_nil_l.
  destruct cells as [|c cells]; done.
Qed.

End Writer.

Section Reader.
Import csv.

Lemma parse_line_app d r s t :
  parse_line d r (s +:+ t) = rbind (feed d r s) (λ r', parse_line d r' t).
Proof.
  revert r. induction s as [|c s IH]; intros r; [done|].
  rewrite append_cons. simpl.
  destruct (parse_process_char d r (Ch c)); simpl; [apply IH|done].
Qed.

Lemma rbind_ok {A B : Type} (a : A) (k : A → result B) : rbind (Ok a) k = k a.
Proof. reflexivity. Qed.

Lemma parse_line_cons d r c s :
  parse_line d r (String c s)
  = rbind (parse_process_char d r (Ch c)) (λ r', parse_line d r' s).
Proof. reflexivity. Qed.

Lemma feed_app d r s t :
  feed d r (s +:+ t) = rbind (feed d r s) (λ r', feed d r' t).
Proof.
  revert r. induction s as [|c s IH]; intros r; [done|].
  rewrite append_cons. simpl.
  destruct (parse_process_char d r (Ch c)); simpl; [apply IH|done].
Qed.

(** Inside an unquoted field, plain characters are collected. *)
Lemma feed_in_field s acc cur :
  plain s = true →
  (N.of_nat (length cur + String.length s) <=? field_limit)%N = true →
  feed excel (in_field acc cur) s
  = Ok (in_field acc (rev (list_ascii_of_string s) ++ cur)).
Proof.
  revert cur. induction s as [|c s IH]; intros cur Hp Hlen; [done|].
  simpl in Hp. apply andb_prop in Hp as [Hc Hp].
  unfold plain_char in Hc. apply negb_true_iff in Hc.
  apply orb_false_elim in Hc as [Hc Hlf]. apply orb_false_elim in Hc as [Hcomma Hcr].
  simpl. unfold parse_process_char. simpl. rewrite Hlf, Hcr. simpl.
  change (delimiter excel) with Py.COMMA. rewrite Hcomma.
  unfold parse_add_char. simpl.
  apply N.leb_le in Hlen. simpl in Hlen.
  destruct (N.leb_spec field_limit (N.of_nat (length cur))); [lia|]. simpl.
  replace (N.succ (N.of_nat (length cur)))
    with (N.of_nat (length (c :: cur))) by (simpl; lia).
  fold (in_field acc (c :: cur)).
  rewrite IH; [|done|apply N.leb_le; simpl; lia].
  simpl. by rewrite <- app_assoc.
Qed.

Lemma plain_app s t : plain (s +:+ t) = plain s && plain t.
Proof.
  induction s as [|c s IH]; [done|].
  rewrite append_cons. simpl. by rewrite IH, andb_assoc.
Qed.

Lemma plain_copy_field s :
  plain s = true → plain (copy_field nonnumeric_apostrophe s) = true.
Proof.
  induction s as [|c s IH]; [done|]. simpl.
  intros [Hc Hs]%andb_prop. destruct (Py.char_eqb c _); simpl;
    rewrite ?Hc, IH; done.
Qed.

Lemma plain_quoted_tail s :
  plain s = true →
  plain (copy_field nonnumeric_apostrophe s +:+ String Py.APOSTROPHE EmptyString)
  = true.
Proof. intros H. by rewrite plain_app, plain_copy_field. Qed.

Lemma string_of_rev_rev s :
  string_of_list_ascii (rev (rev (list_ascii_of_string s))) = s.
Proof. by rewrite rev_involutive, string_of_list_ascii_of_string. Qed.

(** A quoted cell read from the start of a field. *)
Lemma feed_quoted st acc c :
  st = START_RECORD ∨ st = START_FIELD →
  plain c = true → short c = true →
  feed excel (at_start st acc) (quoted c)
  = Ok (in_field acc (rev (list_ascii_of_string (quoted c)))).
Proof.
  intros Hst Hp Hs. unfold quoted at 1.
  assert (feed excel (at_start st acc)
            (String Py.APOSTROPHE
               (copy_field nonnumeric_apostrophe c
                +:+ String Py.APOSTROPHE EmptyString))
          = feed excel (in_field acc [Py.APOSTROPHE])
              (copy_field nonnumeric_apostrophe c
               +:+ String Py.APOSTROPHE EmptyString)) as ->.
  { destruct Hst as [-> | ->]; reflexivity. }
  rewrite feed_in_field.
  - reflexivity.
  - by apply plain_quoted_tail.
  - exact Hs.
Qed.

Lemma in_field_comma acc cur :
  parse_process_char excel (in_field acc cur) (Ch Py.COMMA)
  = Ok (at_start START_FIELD (string_of_list_ascii (rev cur) :: acc)).
Proof. reflexivity. Qed.

Lemma in_field_line_end acc cur :
  parse_line excel (in_field acc cur) (String Py.LF EmptyString)
  = Ok (at_start START_RECORD (string_of_list_ascii (rev cur) :: acc)).
Proof. reflexivity. Qed.

(** The cells that follow the first one, up to the end of the line. *)
Lemma parse_more_fields cells n acc cur :
  forallb plain cells = true → forallb short cells = true →
  parse_line excel (in_field acc cur)
    (fields_text (S n) cells +:+ String Py.LF EmptyString)
  = Ok (at_start START_RECORD
          (rev (quoted <$> cells) ++ string_of_list_ascii (rev cur) :: acc)).
Proof.
  revert n acc cur. induction cells as [|c cells IH]; intros n acc cur Hp Hs.
  - apply in_field_line_end.
  - simpl in Hp, Hs. apply andb_prop in Hp as [Hc Hp].
    apply andb_prop in Hs as [Hcs Hs].
    simpl fields_text. rewrite append_cons, append_nil_l, append_cons.
    rewrite parse_line_cons, in_field_comma. rewrite rbind_ok.
    rewrite append_assoc, parse_line_app, feed_quoted by auto. rewrite rbind_ok.
    rewrite IH by done. rewrite string_of_rev_rev.
    simpl. by rewrite <- app_assoc.
Qed.

(** A whole line the apostrophe-quoting writer wrote, read from the start
    of a record. *)
Lemma parse_written_line cells :
  forallb plain cells = true → forallb short cells = true →
  parse_line excel parse_reset
    (fields_text 0 cells +:+ String Py.LF EmptyString)
  = Ok (at_start START_RECORD (rev (quoted <$> cells))).
Proof.
  intros Hp Hs. destruct cells as [|c cells]; [reflexivity|].
  simpl in Hp, Hs. apply andb_prop in Hp as [Hc Hp].
  apply andb_prop in Hs as [Hcs Hs].
  simpl fields_text. rewrite append_nil_l, append_assoc, parse_line_app.
  change parse_reset with (at_start START_RECORD []).
  rewrite feed_quoted by auto. rewrite rbind_ok.
  rewrite parse_more_fields by done. by rewrite string_of_rev_rev.
Qed.

End Reader.

Section Lines.
Import csv.

Lemma line_plain_app s t : line_plain (s +:+ t) = line_plain s && line_plain t.
Proof.
  induction s as [|c s IH]; [done|].
  rewrite append_cons. simpl. by rewrite IH, andb_assoc.
Qed.

Lemma plain_line_plain s : plain s = true → line_plain s = true.
Proof.
  induction s as [|c s IH]; [done|]. simpl.
  intros [Hc Hs]%andb_prop. rewrite IH by done.
  unfold plain_char in Hc. apply negb_true_iff in Hc.
  apply orb_false_elim in Hc as [Hc Hlf]. apply orb_false_elim in Hc as [_ Hcr].
  by rewrite Hcr, Hlf.
Qed.

Lemma line_plain_quoted c : plain c = true → line_plain (quoted c) = true.
Proof.
  intros H. unfold quoted. simpl.
  by rewrite plain_line_plain by (by apply plain_quoted_tail).
Qed.

Lemma line_plain_fields_text cells n :
  forallb plain cells = true → line_plain (fields_text n cells) = true.
Proof.
  revert n. induction cells as [|c cells IH]; intros n; [done|]. simpl.
  intros [Hc Hp]%andb_prop.
  rewrite !line_plain_app, line_plain_quoted, IH by done.
  by destruct n.
Qed.

Lemma universal_newlines_line s t :
  line_plain s = true →
  Py.universal_newlines (s +:+ String Py.CR (String Py.LF t))
  = s +:+ String Py.LF (Py.universal_newlines t).
Proof.
  induction s as [|c s IH]; [done|]. simpl.
  intros [Hc Hs]%andb_prop. apply negb_true_iff in Hc.
  apply orb_false_elim in Hc as [Hcr _].
  rewrite !append_cons. simpl. rewrite Hcr. by rewrite IH.
Qed.

Lemma string_of_snoc l c s :
  string_of_list_ascii (l ++ [c]) +:+ s = string_of_list_ascii l +:+ String c s.
Proof. induction l as [|x l IH]; [done|]. simpl. by rewrite !append_cons, IH. Qed.

Lemma iter_lines_from_line cur s t :
  line_plain s = true →
  Py.iter_lines_from cur (s +:+ String Py.LF t)
  = (string_of_list_ascii (rev cur) +:+ s +:+ String Py.LF EmptyString)
    :: Py.iter_lines t.
Proof.
  revert cur. induction s as [|c s IH]; intros cur.
  - intros _. rewrite append_nil_l. simpl.
    by rewrite <- (append_nil_r (string_of_list_ascii (rev cur ++ [Py.LF]))),
      string_of_snoc.
  - simpl. intros [Hc Hs]%andb_prop. apply negb_true_iff in Hc.
    apply orb_false_elim in Hc as [_ Hlf].
    rewrite !append_cons. simpl. rewrite Hlf, IH by done.
    simpl. by rewrite string_of_snoc.
Qed.

Lemma iter_lines_line s t :
  line_plain s = true →
  Py.iter_lines (s +:+ String Py.LF t)
  = (s +:+ String Py.LF EmptyString) :: Py.iter_lines t.
Proof. intros H. unfold Py.iter_lines at 1. by rewrite iter_lines_from_line. Qed.

(** Reading back, from a text-mode file, one row the apostrophe-quoting
    writer wrote: the cells come out with their quoting. *)
Lemma reader_written_row cells rest :
  forallb plain cells = true → forallb short cells = true →
  reader excel (Py.iter_lines (Py.universal_newlines
    (writerow nonnumeric_apostrophe (Some <$> cells) +:+ rest)))
  = rbind (reader excel (Py.iter_lines (Py.universal_newlines rest)))
      (λ rows, Ok ((quoted <$> cells) :: rows)).
Proof.
  intros Hp Hs. rewrite writerow_text. simpl lineterminator.
  rewrite append_assoc, !append_cons, append_nil_l.
  rewrite universal_newlines_line by (by apply line_plain_fields_text).
  rewrite iter_lines_line by (by apply line_plain_fields_text).
  unfold reader at 1. simpl read_records.
  rewrite parse_written_line by done. rewrite rbind_ok. simpl.
  by rewrite rev_involutive.
Qed.

End Lines.

Section WrittenRows.
Import csv.

Lemma written_app rows1 rows2 :
  written (rows1 ++ rows2) = written rows1 +:+ written rows2.
Proof.
  unfold written. induction rows1 as [|r rows1 IH]; [done|].
  rewrite <- app_comm_cons, !fmap_cons. simpl writerows.
  by rewrite IH, append_assoc.
Qed.

Lemma written_one cells :
  written [cells] = writerow nonnumeric_apostrophe (Some <$> cells).
Proof. unfold written. simpl. by rewrite append_nil_r. Qed.

(** Reading back rows the apostrophe-quoting writer wrote, followed by
    any other text. *)
Lemma reader_written rows rest :
  forallb cells_ok rows = true →
  reader excel (Py.iter_lines (Py.universal_newlines (written rows +:+ rest)))
  = rbind (reader excel (Py.iter_lines (Py.universal_newlines rest)))
      (λ more, Ok ((fmap (M:=list) quoted <$> rows) ++ more)).
Proof.
  induction rows as [|r rows IH].
  - intros _. unfold written. simpl. rewrite append_nil_l.
    by destruct (reader excel _).
  - simpl. intros [[Hp Hs]%andb_prop Hrows]%andb_prop.
    unfold written. rewrite fmap_cons. simpl writerows.
    fold (written rows). rewrite append_assoc.
    rewrite reader_written_row, IH by done.
    unfold rbind.
    by destruct (reader excel (Py.iter_lines (Py.universal_newlines rest))).
Qed.

Lemma reader_written_only rows :
  forallb cells_ok rows = true →
  reader excel (Py.iter_lines (Py.universal_newlines (written rows)))
  = Ok (fmap (M:=list) quoted <$> rows).
Proof.
  intros H. rewrite <- (append_nil_r (written rows)), reader_written by done.
  simpl. by rewrite app_nil_r.
Qed.

End WrittenRows.

(** ** The codec round trip *)

Section RoundTrip.
Import csv.

Lemma length_copy_field s :
  (String.length s <= String.length (copy_field nonnumeric_apostrophe s))%nat.
Proof.
  induction s as [|c s IH]; [done|]. simpl.
  destruct (Py.char_eqb c _); simpl; lia.
Qed.

Lemma length_append s t :
  String.length (s +:+ t) = (String.length s + String.length t)%nat.
Proof. induction s as [|c s IH]; [done|]. rewrite append_cons. simpl. by rewrite IH. Qed.

Lemma quoted_neq c : quoted c ≠ c.
Proof.
  intros H. apply (f_equal String.length) in H. unfold quoted in H.
  simpl in H. rewrite length_append in H. simpl in H.
  pose proof (length_copy_field c). lia.
Qed.

(** What the codec gives back for cells without separators: every cell
    with the apostrophes the writer put around it. *)
Lemma round_trip_gives_quoted header rows :
  cells_ok header = true → forallb cells_ok rows = true →
  CSVLogger.decodeAll (Py.universal_newlines (CSVLogger.encodeAll header rows))
  = Ok (quoted <$> header, fmap (M:=list) quoted <$> rows).
Proof.
  intros Hh Hrows. unfold CSVLogger.decodeAll, CSVLogger.encodeAll.
  fold (written rows). rewrite <- written_one, <- written_app.
  rewrite reader_written_only; [done|].
  simpl. by rewrite Hh, Hrows.
Qed.

Lemma round_trip_fails header rows :
  cells_ok header = true → forallb cells_ok rows = true → header ≠ [] →
  CSVLogger.decodeAll (Py.universal_newlines (CSVLogger.encodeAll header rows))
  ≠ Ok (header, rows).
Proof.
  intros Hh Hrows Hne. rewrite round_trip_gives_quoted by done.
  destruct header as [|c header]; [done|].
  intros [= H _ _]. by apply quoted_neq in H.
Qed.

End RoundTrip.

Example demo_round_trip_fails :
  CSVLogger.decodeAll
    (Py.universal_newlines
       (CSVLogger.encodeAll ["prompt"; "flag"] [["hello"; "good"]]))
  ≠ Ok (["prompt"; "flag"], [["hello"; "good"]]).
Proof. apply round_trip_fails; [vm_compute; reflexivity..|done]. Qed.

(** C2 (codec round trip), evaluated on the code.  Encoding a header and
    one record and decoding the text, directly or as read back from the file,
    gives cells that still carry their apostrophes, not the cells that went
    in; a cell holding a line feed comes back as two rows. *)
Theorem C2_round_trip_on_code :
  CSVLogger.decodeAll (CSVLogger.encodeAll ["flag"] [["good"]])
  = Ok (["'flag'"], [["'good'"]])
  ∧ CSVLogger.decodeAll
      (Py.universal_newlines (CSVLogger.encodeAll ["flag"] [["good"]]))
    = Ok (["'flag'"], [["'good'"]])
  ∧ CSVLogger.decodeAll (CSVLogger.encodeAll ["flag"] [["good"]])
    ≠ Ok (["flag"], [["good"]])
  ∧ CSVLogger.decodeAll
      (CSVLogger.encodeAll ["flag"] [["a" +:+ Demo.lf +:+ "b"]])
    = Ok (["'flag'"], [["'a"]; ["b'"]]).
Proof. repeat split; try (vm_compute; reflexivity). vm_compute. discriminate. Qed.

(** ** Row counts *)

Section Counts.
Context {Sample : Type} (encrypt decrypt : string → string → string).
Import csv.

Lemma simple_serialize_run dir pairs (w : World Sample) :
  ∃ t, SimpleCSVLogger.serialize dir pairs w
       = (Ok (simple_cell dir <$> pairs), {| fs := fs w; trace := t |}).
Proof.
  revert w. induction pairs as [|[c s] pairs IH]; intros w; simpl.
  - exists (trace w). unfold ret. by rewrite world_eta.
  - rewrite bind_run. unfold call_save_flagged, emit. rewrite bind_run. simpl.
    rewrite bind_run.
    destruct (IH {| fs := fs w;
                    trace := trace w ++ [EvSaveFlagged c dir (label c) s None] |})
      as [t ->].
    by exists t.
Qed.

(** The simple logger returns the number of rows the log held before the
    call: the Nth call on a fresh store returns N - 1. *)
Lemma simple_flag_counts_previous_rows (self : @SimpleCSVLogger.t Sample)
    flag_data flag_option flag_index username (w : World Sample) rows :
  let dir := SimpleCSVLogger.flagging_dir self in
  let path := Py.path_join dir "log.csv" in
  let cells := simple_cell dir <$> zip (SimpleCSVLogger.components self) flag_data in
  let out := SimpleCSVLogger.flag self flag_data flag_option flag_index
               username w in
  default EmptyString (fs w !! path) = written rows →
  forallb cells_ok rows = true → cells_ok cells = true →
  fst out = Ok (Z.of_nat (length rows))
  ∧ fs (snd out) !! path = Some (written (rows ++ [cells])).
Proof.
  intros dir path cells out Hold Hrows Hcells. subst out.
  unfold SimpleCSVLogger.flag. fold dir path. rewrite bind_run.
  destruct (simple_serialize_run dir
              (zip (SimpleCSVLogger.components self) flag_data) w) as [t ->].
  fold cells. rewrite !bind_run. simpl.
  assert (∀ files : gmap string string,
            files = match fs w !! path with
                    | Some _ => fs w
                    | None => <[path := EmptyString]> (fs w)
                    end →
            <[path := default EmptyString (files !! path)
                      +:+ writerow nonnumeric_apostrophe (Some <$> cells)]> files
            = <[path := written (rows ++ [cells])]> (fs w)) as Hfiles.
  { intros files ->. rewrite written_app, written_one, <- Hold.
    destruct (fs w !! path) eqn:E; simpl.
    - by rewrite E.
    - by rewrite lookup_insert_eq, insert_insert_eq. }
  rewrite bind_run. unfold file_write, mutate. simpl.
  rewrite Hfiles by done.
  split.
  - erewrite line_count_found by (simpl; apply lookup_insert_eq).
    rewrite reader_written_only.
    + simpl. rewrite length_fmap, length_app. simpl. f_equal. lia.
    + rewrite forallb_app. simpl. by rewrite Hrows, Hcells.
  - rewrite line_count_world. simpl. apply lookup_insert_eq.
Qed.

(** The default logger without a key, on cells without separators: the
    call returns the number of records the log holds after it, so the Nth
    call on a fresh store returns N. *)
Lemma flag_counts_records (components : list (Component Sample)) dir
    flag_data flag_option username now (w : World Sample) rows :
  let self := CSVLogger.setup components dir None in
  let path := Py.path_join dir "log.csv" in
  let record :=
    (CSVLogger.cell dir None <$> enumerate_zip 0 components flag_data)
    ++ [default EmptyString flag_option; default EmptyString username; now] in
  let out := CSVLogger.flag encrypt decrypt self flag_data flag_option None
               username now w in
  (fs w !! path = None ∧ rows = [])
  ∨ fs w !! path = Some (written (CSVLogger.headers self :: rows)) →
  cells_ok (CSVLogger.headers self) = true →
  forallb cells_ok rows = true → cells_ok record = true →
  fst out = Ok (Z.of_nat (length rows) + 1)
  ∧ fs (snd out) !! path
    = Some (written (CSVLogger.headers self :: rows ++ [record])).
Proof.
  intros self path record out Hw Hh Hrows Hrec. subst out.
  pose proof (flag_append_run encrypt decrypt self flag_data flag_option
                username now w) as Hrun.
  simpl in Hrun. fold path in Hrun. rewrite Hrun. clear Hrun.
  assert ((Some <$> (CSVLogger.cell dir None
                       <$> enumerate_zip 0 components flag_data))
          ++ [Some (default EmptyString flag_option);
              Some (default EmptyString username); Some now]
          = Some <$> record) as ->.
  { unfold record. by rewrite fmap_app. }
  assert (match fs w !! path with
          | Some old => old
          | None => writerow nonnumeric_apostrophe
                      (Some <$> CSVLogger.headers self)
          end +:+ writerow nonnumeric_apostrophe (Some <$> record)
          = written (CSVLogger.headers self :: rows ++ [record])) as ->.
  { rewrite app_comm_cons, written_app, written_one. f_equal.
    destruct Hw as [[-> ->] | ->]; [|done]. by rewrite written_one. }
  split.
  - erewrite line_count_found by (simpl; apply lookup_insert_eq).
    rewrite reader_written_only.
    + simpl. rewrite length_fmap, length_app. simpl. f_equal. lia.
    + simpl. rewrite Hh, forallb_app. simpl. by rewrite Hrows, Hrec.
  - rewrite line_count_world. simpl. apply lookup_insert_eq.
Qed.

End Counts.

Example demo_simple_third_call_returns_2 :
  let simple := SimpleCSVLogger.setup [Demo.prompt] "flagged" in
  let w := Demo.on_disk Demo.log_filepath (written [["r0"]; ["r1"]]) in
  fst (SimpleCSVLogger.flag simple [Some "r2"] None None None w) = Ok 2.
Proof.
  intros simple w.
  apply (simple_flag_counts_previous_rows simple [Some "r2"] None None None w
           [["r0"]; ["r1"]]); vm_compute; reflexivity.
Qed.

Example demo_default_third_call_returns_3 :
  fst (Demo.append "r2" "c" "t2"
         (snd (Demo.append "r1" "b" "t1"
                 (snd (Demo.append "r0" "a" "t0" Demo.fresh))))) = Ok 3.
Proof.
  apply (flag_counts_records Demo.no_cipher Demo.no_cipher [Demo.prompt]
           "flagged" [Some "r2"] (Some "c") (Some "alice") "t2" _
           [["r0"; "a"; "alice"; "t0"]; ["r1"; "b"; "alice"; "t1"]]);
    [right|..]; vm_compute; reflexivity.
Qed.

(** C4 (append monotonicity), evaluated on the code.  On a fresh store
    the simple logger, which writes no header but still subtracts one,
    returns 0 on its first call and 1 on its second; the default logger
    returns 2 on its first call when a cell holds a line feed, because the
    count is taken with the reader that does not know the apostrophe
    quoting. *)
Theorem C4_row_count_on_code :
  let simple := SimpleCSVLogger.setup [Demo.prompt] "flagged" in
  let first := SimpleCSVLogger.flag simple [Some "r0"] None None None Demo.fresh in
  let second := SimpleCSVLogger.flag simple [Some "r1"] None None None (snd first) in
  fst first = Ok 0
  ∧ fst second = Ok 1
  ∧ fs (snd second) !! Demo.log_filepath
    = Some ("'r0'" +:+ Demo.nl +:+ "'r1'" +:+ Demo.nl)
  ∧ fst (Demo.append ("a" +:+ Demo.lf +:+ "b") "x" "t0" Demo.fresh) = Ok 2.
Proof. repeat split; vm_compute; reflexivity. Qed.

(** ** The update path *)

Section UpdatePath.
Context {Sample : Type} (encrypt decrypt : string → string → string).

(** The update path of the default logger without a key, run from any
    world: a missing log and a failed replacement leave the world as it
    was; otherwise the log is truncated, the new text written, and the
    rows counted again.  Values, user and time play no part. *)
Lemma flag_update_run (components : list (Component Sample)) dir
    flag_data flag_option i username now (w : World Sample) :
  let self := CSVLogger.setup components dir None in
  let path := Py.path_join dir "log.csv" in
  CSVLogger.flag encrypt decrypt self flag_data flag_option (Some i)
    username now w
  = match fs w !! path with
    | None => (Raise FileNotFoundError, w)
    | Some old =>
        match CSVLogger.replace_flag_at_index i flag_option
                (Py.universal_newlines old) with
        | Raise e => (Raise e, w)
        | Ok new =>
            line_count path (Some "utf-8")
              {| fs := <[path := new]> (fs w);
                 trace := trace w ++ [EvOpen path mode_w; EvWrite path new] |}
        end
    end.
Proof.
  intros self path. unfold CSVLogger.flag. simpl. fold path.
  rewrite bind_run. unfold os_path_exists. simpl.
  rewrite bind_run. unfold ret at 1. simpl.
  rewrite !bind_run. unfold py_open. simpl. rewrite bind_run.
  unfold os_path_exists. simpl.
  destruct (fs w !! path) as [old|] eqn:E; simpl; [|done].
  rewrite bind_run. unfold file_read_text. rewrite E. simpl.
  rewrite bind_run. unfold lift at 1.
  destruct (CSVLogger.replace_flag_at_index _ _ _) as [new|e]; [|done].
  rewrite bind_run. simpl. rewrite lookup_insert_eq. simpl.
  change (EmptyString +:+ new) with new.
  by rewrite insert_insert_eq, <- app_assoc.
Qed.

End UpdatePath.

Lemma replace_flag_keeps_rows i flag_option text new :
  CSVLogger.replace_flag_at_index i flag_option text = Ok new →
  ∃ (content : list (list string)) (rows : list (list (option string))),
    csv.reader csv.excel (Py.iter_lines text) = Ok content
    ∧ new = csv.writerows csv.nonnumeric_apostrophe rows
    ∧ length rows = length content.
Proof.
  unfold CSVLogger.replace_flag_at_index, rbind.
  destruct (csv.reader _ _) as [content|]; [|done].
  destruct (Py.getitem content 0) as [[? header]|]; [|done].
  destruct (Py.index header "flag") as [col|]; [|done].
  destruct (Py.getitem content i) as [[row_index row]|]; [|done].
  destruct (Py.setitem _ _ _) as [row'|]; [|done].
  intros [= <-]. eexists content, _. split_and!; [done..|].
  by rewrite length_insert, length_fmap.
Qed.

(** ** Row updates on a log the logger wrote itself *)

Section WrittenLogs.
Context {Sample : Type} (encrypt decrypt : string → string → string).
Import csv.

Lemma index_cons x l y :
  Py.index (x :: l) y
  = if String.eqb x y then Ok 0%nat else rbind (Py.index l y) (λ k, Ok (S k)).
Proof. reflexivity. Qed.

Lemma index_quoted cells : Py.index (quoted <$> cells) "flag" = Raise ValueError.
Proof.
  induction cells as [|c cells IH]; [done|].
  rewrite fmap_cons, index_cons, IH. reflexivity.
Qed.

Lemma getitem_first {A : Type} (x : A) (l : list A) :
  Py.getitem (x :: l) 0 = Ok (0%nat, x).
Proof.
  unfold Py.getitem. cbv zeta.
  change (0 <? 0) with false. cbv iota.
  destruct (Z.leb_spec (Z.of_nat (length (x :: l))) 0) as [H|H];
    [simpl in H; lia|done].
Qed.

(** On a text whose first line is a header the logger wrote, the search
    for the flag column fails (unless reading the rest fails first). *)
Lemma replace_flag_on_written_header i flag_option hdr rest :
  forallb plain hdr = true → forallb short hdr = true →
  CSVLogger.replace_flag_at_index i flag_option
    (Py.universal_newlines
       (writerow nonnumeric_apostrophe (Some <$> hdr) +:+ rest))
  = match reader excel (Py.iter_lines (Py.universal_newlines rest)) with
    | Ok _ => Raise ValueError
    | Raise e => Raise e
    end.
Proof.
  intros Hp Hs. unfold CSVLogger.replace_flag_at_index.
  rewrite reader_written_row by done.
  destruct (reader excel _) as [rows|e]; [|done].
  rewrite !rbind_ok, getitem_first, rbind_ok, index_quoted. done.
Qed.

(** An append on a store without a log, or with a log that begins with
    the header line, leaves a log that begins with the header line. *)
Lemma append_gives_logged (self : @CSVLogger.t Sample)
    flag_data flag_option username now w :
  Py.truthy (CSVLogger.encryption_key self) = false →
  fs w !! Py.path_join (CSVLogger.flagging_dir self) "log.csv" = None
  ∨ logged self w →
  logged self (snd (CSVLogger.flag encrypt decrypt self flag_data flag_option
                      None username now w)).
Proof.
  intros K Hw.
  pose proof (flag_append_run encrypt decrypt self flag_data flag_option
                username now w) as Hrun.
  simpl in Hrun. rewrite K in Hrun. rewrite Hrun, line_count_world.
  unfold logged. simpl. rewrite lookup_insert_eq.
  destruct Hw as [-> | [rest ->]].
  - by eexists.
  - eexists. by rewrite append_assoc.
Qed.

(** No row can be updated in a log that begins with the header line: the
    call raises ValueError (or the reader's error) and changes nothing. *)
Lemma update_on_logged_raises (components : list (Component Sample)) dir
    flag_data flag_option i username now w :
  let self := CSVLogger.setup components dir None in
  forallb plain (CSVLogger.headers self) = true →
  forallb short (CSVLogger.headers self) = true →
  logged self w →
  ∃ e, CSVLogger.flag encrypt decrypt self flag_data flag_option (Some i)
         username now w = (Raise e, w)
       ∧ (e = ValueError ∨ e = CsvError).
Proof.
  intros self Hp Hs [rest Hlog]. subst self.
  rewrite flag_update_run. simpl in Hlog. rewrite Hlog.
  fold (header_line (CSVLogger.setup components dir None)).
  unfold header_line. rewrite replace_flag_on_written_header by done.
  destruct (reader excel _) as [rows|e] eqn:R.
  - exists ValueError. auto.
  - exists e. split; [done|]. right. by apply reader_error in R.
Qed.

End WrittenLogs.

Example demo_update_raises_whatever_the_index (i : Z) :
  ∃ e, Demo.update i "bad" Demo.after3 = (Raise e, Demo.after3)
       ∧ (e = ValueError ∨ e = CsvError).
Proof.
  apply (update_on_logged_raises Demo.no_cipher Demo.no_cipher [Demo.prompt]
           "flagged" [] (Some "bad") i None "t9" Demo.after3);
    [vm_compute; reflexivity..|].
  eexists. vm_compute. reflexivity.
Qed.

(** Where the decoded header does hold the cell flag, an index past the
    last row (or before the first, counting from the end) raises
    IndexError. *)
Lemma replace_flag_out_of_range i flag_option text content header col :
  csv.reader csv.excel (Py.iter_lines text) = Ok content →
  content !! 0%nat = Some header →
  Py.index header "flag" = Ok col →
  (Z.of_nat (length content) <= i ∨ i < - Z.of_nat (length content)) →
  CSVLogger.replace_flag_at_index i flag_option text = Raise IndexError.
Proof.
  intros Hread Hheader Hcol Hrange.
  unfold CSVLogger.replace_flag_at_index. rewrite Hread. simpl.
  assert (Py.getitem content 0 = Ok (0%nat, header)) as ->.
  { destruct content as [|h content]; [done|].
    injection Hheader as ->. done. }
  simpl. rewrite Hcol. simpl.
  assert (Py.getitem content i = Raise IndexError) as ->; [|done].
  unfold Py.getitem. cbv zeta.
  destruct (Z.ltb_spec i 0).
  - destruct (Z.ltb_spec (i + Z.of_nat (length content)) 0); [done|lia].
  - destruct (Z.ltb_spec i 0); [lia|]. simpl.
    destruct (Z.leb_spec (Z.of_nat (length content)) i); [done|lia].
Qed.




(** C7 (out-of-range update), evaluated on the code.  On the log of three
    appended rows the update of row 5 raises ValueError, not IndexError: the
    search for the flag column fails first.  The file is left as it was.  On
    the same table written bare the call raises IndexError and the file is
    left as it was. *)
Theorem C7_out_of_range_update_on_code :
  Demo.update 5 "x" Demo.after3 = (Raise ValueError, Demo.after3)
  ∧ Demo.update 5 "x" (Demo.on_disk Demo.log_filepath Demo.bare3)
    = (Raise IndexError, Demo.on_disk Demo.log_filepath Demo.bare3).
Proof. split; vm_compute; reflexivity. Qed.

(** ** How the update replaces the file *)

(** C6 does not hold as the specification states it: the update of row 1
    on a bare log of three rows succeeds through two file events, both on
    the log itself, the first of which truncates it; a run interrupted
    between the two leaves the log empty, which is neither its previous
    content nor the new one. *)
Lemma C6_counterexample :
  let w := Demo.on_disk Demo.log_filepath Demo.bare3 in
  let out := Demo.update 1 "bad" w in
  ∃ new st,
    fst out = Ok 3
    ∧ trace (snd out)
      = [EvOpen Demo.log_filepath mode_w; EvWrite Demo.log_filepath new]
    ∧ fs (snd out) !! Demo.log_filepath = Some new
    ∧ crash_states (trace (snd out)) (fs w) !! 1%nat = Some st
    ∧ st !! Demo.log_filepath = Some EmptyString
    ∧ EmptyString ≠ Demo.bare3
    ∧ EmptyString ≠ new.
Proof.
  eexists _, _. split_and!; try (vm_compute; reflexivity);
    vm_compute; discriminate.
Qed.

(** C6 as amended: the row-update path of the default local logger (no
    key) re-encodes the whole file and rewrites the log in place: it opens
    the log itself for writing, which truncates it, then writes the new text
    in one piece.  These are the only two file events, no other path is
    touched, and the disk passes through the state in which the log is
    empty. *)
Theorem C6_update_rewrites_in_place {Sample : Type}
    (encrypt decrypt : string → string → string)
    (components : list (Component Sample)) (dir : string)
    (flag_data : list (option Sample)) (flag_option : option string) (i : Z)
    (username : option string) (now : string) (w : World Sample)
    (old new : string) :
  let self := CSVLogger.setup components dir None in
  let path := Py.path_join dir "log.csv" in
  let out := CSVLogger.flag encrypt decrypt self flag_data flag_option (Some i)
               username now w in
  let events : list (Event Sample) :=
    [EvOpen path mode_w; EvWrite path new] in
  fs w !! path = Some old →
  CSVLogger.replace_flag_at_index i flag_option (Py.universal_newlines old)
  = Ok new →
  trace (snd out) = trace w ++ events
  ∧ fs (snd out) = replay events (fs w)
  ∧ crash_states events (fs w)
    = [fs w; <[path := EmptyString]> (fs w); <[path := new]> (fs w)].
Proof.
  intros self path out events Hold Hnew. subst out events self path.
  rewrite flag_update_run, Hold, Hnew, line_count_world.
  unfold crash_states, replay. simpl. rewrite lookup_insert_eq. simpl.
  change (EmptyString +:+ new) with new. by rewrite insert_insert_eq.
Qed.

Lemma C6_update_rewrites_in_place_witness :
  let w := Demo.on_disk Demo.log_filepath Demo.bare3 in
  let new := "'prompt','flag'" +:+ Demo.nl +:+ "'r0','bad'" +:+ Demo.nl
             +:+ "'r1','b'" +:+ Demo.nl +:+ "'r2','c'" +:+ Demo.nl in
  let events : list (Event string) :=
    [EvOpen Demo.log_filepath mode_w; EvWrite Demo.log_filepath new] in
  trace (snd (Demo.update 1 "bad" w)) = trace w ++ events
  ∧ fs (snd (Demo.update 1 "bad" w)) = replay events (fs w)
  ∧ crash_states events (fs w)
    = [fs w; <[Demo.log_filepath := EmptyString]> (fs w);
       <[Demo.log_filepath := new]> (fs w)].
Proof.
  apply (C6_update_rewrites_in_place Demo.no_cipher Demo.no_cipher
           [Demo.prompt] "flagged" [] (Some "bad") 1 None "t9"
           (Demo.on_disk Demo.log_filepath Demo.bare3) Demo.bare3);
    vm_compute; reflexivity.
Defined.

(** ** Dispatch on the row index *)

(** C8 does not hold as the specification states it: the simple logger
    called with a row index appends a row, serializing the values it was
    given. *)
Lemma C8_counterexample :
  let simple := SimpleCSVLogger.setup [Demo.prompt] "flagged" in
  let w1 := snd (SimpleCSVLogger.flag simple [Some "r0"] (Some "a") None None
                   Demo.fresh) in
  let out := SimpleCSVLogger.flag simple [Some "r1"] (Some "bad") (Some 0) None w1 in
  fs w1 !! Demo.log_filepath = Some ("'r0'" +:+ Demo.nl)
  ∧ fs (snd out) !! Demo.log_filepath
    = Some ("'r0'" +:+ Demo.nl +:+ "'r1'" +:+ Demo.nl)
  ∧ fst out = Ok 1
  ∧ EvSaveFlagged Demo.prompt "flagged" (Some "prompt") (Some "r1") None
    ∈ trace (snd out).
Proof.
  split_and!; try (vm_compute; reflexivity).
  apply list_elem_of_lookup. exists 3%nat. vm_compute. reflexivity.
Qed.

(** C8 as amended: only the default local logger dispatches on the row
    index.  Without a key and with a row index, it calls no serializer and
    ignores values, user and time: a missing log or a failed replacement
    raises and leaves the world as it was, otherwise the log is rewritten
    with the text of replace_flag_at_index, which holds as many rows as were
    read, and the rows are counted again for the result.  The simple and the
    remote logger ignore the row index: they do what they do without one. *)
Theorem C8_update_dispatch {Sample : Type}
    (encrypt decrypt : string → string → string)
    (json_dumps : HuggingFaceDatasetSaver.Features → string)
    (components : list (Component Sample)) (dir : string)
    (simple : @SimpleCSVLogger.t Sample)
    (remote : @HuggingFaceDatasetSaver.t Sample)
    (flag_data : list (option Sample)) (flag_option : option string) (i : Z)
    (username : option string) (now : string) (w : World Sample) :
  let self := CSVLogger.setup components dir None in
  let path := Py.path_join dir "log.csv" in
  let update := CSVLogger.flag encrypt decrypt self flag_data flag_option
                  (Some i) username now w in
  update
  = match fs w !! path with
    | None => (Raise FileNotFoundError, w)
    | Some old =>
        match CSVLogger.replace_flag_at_index i flag_option
                (Py.universal_newlines old) with
        | Raise e => (Raise e, w)
        | Ok new =>
            line_count path (Some "utf-8")
              {| fs := <[path := new]> (fs w);
                 trace := trace w ++ [EvOpen path mode_w; EvWrite path new] |}
        end
    end
  ∧ (∀ flag_data' username' now',
       CSVLogger.flag encrypt decrypt self flag_data' flag_option (Some i)
         username' now' w = update)
  ∧ (∃ events, trace (snd update) = trace w ++ events
       ∧ forallb (λ e, negb (is_serializer_call e)) events = true)
  ∧ (∀ text new,
       CSVLogger.replace_flag_at_index i flag_option text = Ok new →
       ∃ content rows,
         csv.reader csv.excel (Py.iter_lines text) = Ok content
         ∧ new = csv.writerows csv.nonnumeric_apostrophe rows
         ∧ length rows = length content)
  ∧ SimpleCSVLogger.flag simple flag_data flag_option (Some i) username w
    = SimpleCSVLogger.flag simple flag_data flag_option None username w
  ∧ HuggingFaceDatasetSaver.flag json_dumps remote flag_data flag_option
      (Some i) username w
    = HuggingFaceDatasetSaver.flag json_dumps remote flag_data flag_option
        None username w.
Proof.
  intros self path update. subst update self path.
  split_and!; [apply flag_update_run| | |apply replace_flag_keeps_rows|done..].
  - intros. by rewrite !flag_update_run.
  - rewrite flag_update_run.
    destruct (fs w !! _) as [old|]; [|by exists []; rewrite app_nil_r].
    destruct (CSVLogger.replace_flag_at_index _ _ _) as [new|];
      [|by exists []; rewrite app_nil_r].
    rewrite line_count_world. by eexists.
Qed.

(** ** The encrypted variant *)

(** C5 (encrypted round trip), on the code.  With an encryption key set
    (any non-empty key), every call of flag, append or update, on a new or an
    existing log, raises ValueError and leaves every file as it was: the log
    is opened in a binary mode together with an encoding, which open refuses
    before it touches the file.  Nothing is ever encrypted or decrypted. *)
Theorem C5_encrypted_flag_on_code {Sample : Type}
    (encrypt decrypt : string → string → string)
    (components : list (Component Sample)) (dir : string)
    (c : ascii) (key : string)
    (flag_data : list (option Sample)) (flag_option : option string)
    (flag_index : option Z) (username : option string) (now : string)
    (w : World Sample) :
  let self := CSVLogger.setup components dir (Some (String c key)) in
  let out := CSVLogger.flag encrypt decrypt self flag_data flag_option
               flag_index username now w in
  fst out = Raise ValueError ∧ fs (snd out) = fs w.
Proof.
  intros self out. subst out. unfold CSVLogger.flag.
  rewrite bind_run. unfold os_path_exists. simpl.
  destruct flag_index as [i|]; rewrite bind_run.
  - unfold ret at 1. simpl. rewrite !bind_run.
    destruct (fs w !! Py.path_join dir "log.csv") eqn:E; simpl.
    + done.
    + done.
  - rewrite bind_run, serialize_run. simpl. rewrite !bind_run.
    destruct (fs w !! Py.path_join dir "log.csv") eqn:E; simpl.
    + done.
    + done.
Qed.

(** ** Cardinality of header and records *)

(** C3 does not hold as the specification states it: with two components
    and one value the default logger returns normally, and the log it
    leaves decodes to a header of five cells and a record of four. *)
Lemma C3_counterexample :
  let two := CSVLogger.setup [Demo.prompt; Demo.text_component None] "flagged" None in
  let out := CSVLogger.flag Demo.no_cipher Demo.no_cipher two [Some "hello"]
               (Some "good") None (Some "alice") "t0" Demo.fresh in
  fst out = Ok 1
  ∧ ∃ text header record,
      fs (snd out) !! Demo.log_filepath = Some text
      ∧ CSVLogger.decodeAll (Py.universal_newlines text) = Ok (header, [record])
      ∧ length header = 5%nat
      ∧ length record = 4%nat.
Proof.
  split; [vm_compute; reflexivity|].
  eexists _, _, _. split; [vm_compute; reflexivity|].
  split; [vm_compute; reflexivity|]. split; reflexivity.
Qed.

(** C3 as amended: in the append path of the default local logger without
    a key, the header (written when the log is new) has one cell per
    component plus three, and the record appended has one cell per
    (component, value) pair plus three, that is min(components, values) + 3
    cells: the two agree when at least as many values as components are
    given.  Nothing checks the cardinality: the record is written whatever
    its length, and the only exception the call can raise is the reader's,
    from the recount. *)
Theorem C3_cardinality_of_appended_record {Sample : Type}
    (encrypt decrypt : string → string → string)
    (components : list (Component Sample)) (dir : string)
    (flag_data : list (option Sample)) (flag_option username : option string)
    (now : string) (w : World Sample) :
  let self := CSVLogger.setup components dir None in
  let path := Py.path_join dir "log.csv" in
  let writerow := csv.writerow csv.nonnumeric_apostrophe in
  let out := CSVLogger.flag encrypt decrypt self flag_data flag_option None
               username now w in
  ∃ csv_data : list (option string),
    length csv_data = ((length components `min` length flag_data) + 3)%nat
    ∧ length (CSVLogger.headers self) = (length components + 3)%nat
    ∧ fs (snd out) !! path
      = Some (match fs w !! path with
              | Some old => old
              | None => writerow (Some <$> CSVLogger.headers self)
              end +:+ writerow csv_data)
    ∧ ∀ e, fst out = Raise e → e = CsvError.
Proof.
  intros self path writerow out.
  pose proof (flag_append_run encrypt decrypt self flag_data flag_option
                username now w) as Hrun.
  simpl in Hrun. fold path writerow in Hrun. fold out in Hrun.
  exists ((Some <$> (CSVLogger.cell dir None
                       <$> enumerate_zip 0 components flag_data))
          ++ [Some (default EmptyString flag_option);
              Some (default EmptyString username); Some now]).
  split; [|split; [apply (headers_length self)|split]].
  - rewrite length_app, !length_fmap, enumerate_zip_length. reflexivity.
  - rewrite Hrun, line_count_world. simpl. apply lookup_insert_eq.
  - intros e. rewrite Hrun.
    erewrite line_count_found by (simpl; apply lookup_insert_eq).
    unfold rbind. destruct (csv.reader _ _) eqn:R; [done|].
    intros [= <-]. by apply reader_error in R.
Qed.

(** ** Samples that are None *)

Section NoneSamples.
Context {Sample : Type}.

Lemma call_elem dir key (components : list (Component Sample)) flag_data e :
  e ∈ omap (CSVLogger.call dir key) (enumerate_zip 0 components flag_data)
  ↔ ∃ i c s,
      components !! i = Some c ∧ flag_data !! i = Some (Some s)
      ∧ e = EvSaveFlagged c dir (Some (label_or_default i c)) (Some s) key.
Proof.
  rewrite list_elem_of_omap. split.
  - intros [[idx [c [s|]]] [Hin Hcall]]; [|done].
    injection Hcall as <-.
    apply list_elem_of_lookup in Hin as [i Hi].
    rewrite enumerate_zip_lookup in Hi.
    destruct (components !! i) as [c'|] eqn:Hc; [|done].
    destruct (flag_data !! i) as [s'|] eqn:Hs; [|done].
    simpl in Hi. injection Hi as -> -> ->. by exists idx, c, s.
  - intros (i & c & s & Hc & Hs & ->).
    exists (i, (c, Some s)). split; [|done].
    apply list_elem_of_lookup. exists i.
    by rewrite enumerate_zip_lookup, Hc, Hs.
Qed.

Lemma cell_lookup dir key (components : list (Component Sample)) flag_data i c s :
  components !! i = Some c → flag_data !! i = Some s →
  (CSVLogger.cell dir key <$> enumerate_zip 0 components flag_data) !! i
  = Some (CSVLogger.cell dir key (i, (c, s))).
Proof.
  intros Hc Hs. by rewrite list_lookup_fmap, enumerate_zip_lookup, Hc, Hs.
Qed.

End NoneSamples.

(** C10 (samples that are None in the append path of the default local
    logger).  The events a call adds are serializer calls followed by file
    events only; a serializer call is made for exactly the positions whose
    sample is not None, in order, with that sample; the cell of a position
    whose sample is None is the empty string, the cell of any other position
    is what the serializer returned; and, no key being set, these cells
    followed by label, user and time are the record written to the log. *)
Theorem C10_none_sample_gives_empty_cell {Sample : Type}
    (encrypt decrypt : string → string → string)
    (self : @CSVLogger.t Sample)
    (flag_data : list (option Sample)) (flag_option username : option string)
    (now : string) (w : World Sample) :
  let components := CSVLogger.components self in
  let dir := CSVLogger.flagging_dir self in
  let key := CSVLogger.encryption_key self in
  let path := Py.path_join dir "log.csv" in
  let out := CSVLogger.flag encrypt decrypt self flag_data flag_option None
               username now w in
  ∃ (cells : list string) (calls io : list (Event Sample)),
    trace (snd out) = trace w ++ calls ++ io
    ∧ forallb (λ e, negb (is_serializer_call e)) io = true
    ∧ calls = omap (CSVLogger.call dir key) (enumerate_zip 0 components flag_data)
    ∧ (∀ e, e ∈ calls ↔
         ∃ i c s, components !! i = Some c ∧ flag_data !! i = Some (Some s)
           ∧ e = EvSaveFlagged c dir (Some (label_or_default i c)) (Some s) key)
    ∧ length cells = (length components `min` length flag_data)%nat
    ∧ (∀ i c, components !! i = Some c → flag_data !! i = Some None →
         cells !! i = Some EmptyString)
    ∧ (∀ i c s, components !! i = Some c → flag_data !! i = Some (Some s) →
         cells !! i
         = Some (save_flagged c dir (Some (label_or_default i c)) (Some s) key))
    ∧ (Py.truthy key = false →
       ∃ head, fs (snd out) !! path
         = Some (head +:+ csv.writerow csv.nonnumeric_apostrophe
                   ((Some <$> cells)
                    ++ [Some (default EmptyString flag_option);
                        Some (default EmptyString username); Some now]))).
Proof.
  intros components dir key path out.
  pose proof (flag_append_run encrypt decrypt self flag_data flag_option
                username now w) as Hrun.
  simpl in Hrun. fold components dir key path in Hrun. fold out in Hrun.
  exists (CSVLogger.cell dir key <$> enumerate_zip 0 components flag_data),
         (omap (CSVLogger.call dir key) (enumerate_zip 0 components flag_data)).
  assert (∃ io : list (Event Sample),
            trace (snd out)
            = trace w ++ omap (CSVLogger.call dir key)
                           (enumerate_zip 0 components flag_data) ++ io
            ∧ forallb (λ e, negb (is_serializer_call e)) io = true
            ∧ (Py.truthy key = false →
               ∃ head, fs (snd out) !! path
                 = Some (head +:+ csv.writerow csv.nonnumeric_apostrophe
                     ((Some <$> (CSVLogger.cell dir key
                                   <$> enumerate_zip 0 components flag_data))
                      ++ [Some (default EmptyString flag_option);
                          Some (default EmptyString username); Some now]))))
    as (io & Htrace & Hio & Hfile).
  { destruct (Py.truthy key) eqn:K.
    - exists []. rewrite Hrun. simpl. by rewrite app_nil_r.
    - eexists. rewrite Hrun, line_count_world. simpl. split_and!; [done| |].
      + by destruct (fs w !! path).
      + intros _. eexists. apply lookup_insert_eq. }
  exists io. split_and!; try done.
  - intros e. apply call_elem.
  - by rewrite length_fmap, enumerate_zip_length.
  - intros i c Hc Hs. by rewrite (cell_lookup _ _ _ _ _ _ _ Hc Hs).
  - intros i c s Hc Hs. by rewrite (cell_lookup _ _ _ _ _ _ _ Hc Hs).
Qed.

(** ** The remote variant *)

Section Remote.
Context {Sample : Type}.
Implicit Types w : World Sample.

Lemma remote_serialize_run (self : @HuggingFaceDatasetSaver.t Sample) pairs w :
  HuggingFaceDatasetSaver.serialize self pairs w
  = (Ok (concat (HuggingFaceDatasetSaver.cells self <$> pairs)),
     {| fs := fs w;
        trace := trace w ++ (HuggingFaceDatasetSaver.call self <$> pairs) |}).
Proof.
  revert w. induction pairs as [|[c s] pairs IH]; intros w; simpl.
  - unfold ret. by rewrite app_nil_r, world_eta.
  - rewrite bind_run. unfold call_save_flagged, emit. rewrite bind_run. simpl.
    rewrite bind_run, IH. simpl. by rewrite <- app_assoc.
Qed.

Lemma line_count_ok path enc w n w' :
  line_count path enc w = (Ok n, w') →
  w' = w
  ∧ ∃ content rows,
      fs w !! path = Some content
      ∧ csv.reader csv.excel (Py.iter_lines (Py.universal_newlines content))
        = Ok rows
      ∧ n = Z.of_nat (length rows) - 1.
Proof.
  intros H. pose proof (line_count_world path enc w) as Hw.
  rewrite H in Hw. simpl in Hw. subst w'. split; [done|].
  destruct (fs w !! path) as [content|] eqn:E.
  - pose proof (line_count_found path enc w content E) as Hf.
    rewrite H in Hf. simpl in Hf. unfold rbind in Hf.
    destruct (csv.reader _ _) as [rows|] eqn:R; [|done].
    injection Hf as ->. by exists content, rows.
  - exfalso. revert H.
    unfold line_count, py_open, os_path_exists, raise, bind.
    destruct enc; simpl; by rewrite E.
Qed.

(** Computations that add local events only, the files following them. *)
Lemma local_ret {A : Type} (a : A) : local_run (Sample:=Sample) (ret a).
Proof. intros w r w' [= <- <-]. exists []. by rewrite app_nil_r. Qed.

Lemma local_raise {A : Type} e : local_run (Sample:=Sample) (A:=A) (raise e).
Proof. intros w r w' [= <- <-]. exists []. by rewrite app_nil_r. Qed.

Lemma local_lift {A : Type} (x : result A) : local_run (Sample:=Sample) (lift x).
Proof. intros w r w' [= <- <-]. exists []. by rewrite app_nil_r. Qed.

Lemma local_bind {A B : Type} (m : IO Sample A) (k : A → IO Sample B) :
  local_run m → (∀ a, local_run (k a)) → local_run (bind m k).
Proof.
  intros Hm Hk w r w' H. rewrite bind_run in H.
  destruct (m w) as [[a|e] w1] eqn:M.
  - destruct (Hm _ _ _ M) as (evs1 & T1 & L1 & F1).
    destruct (Hk a _ _ _ H) as (evs2 & T2 & L2 & F2).
    exists (evs1 ++ evs2). split_and!.
    + by rewrite T2, T1, app_assoc.
    + rewrite forallb_app, L1, L2. done.
    + unfold replay in *. by rewrite fold_left_app, <- F1.
  - injection H as <- <-. by apply Hm in M.
Qed.

Lemma local_exists path : local_run (Sample:=Sample) (os_path_exists path).
Proof. intros w r w' [= <- <-]. exists []. by rewrite app_nil_r. Qed.

Lemma local_mutate (e : Event Sample) :
  is_local_event e = true → local_run (mutate e).
Proof. intros He w r w' [= <- <-]. exists [e]. simpl. by rewrite He. Qed.

Lemma local_open path mode enc : local_run (Sample:=Sample) (py_open path mode enc).
Proof.
  unfold py_open. destruct (is_binary mode && _); [apply local_raise|].
  destruct mode; try (by apply local_mutate);
    (apply local_bind; [apply local_exists|]);
    intros [|]; auto using local_ret, local_raise.
Qed.

Lemma local_write path data : local_run (Sample:=Sample) (file_write path data).
Proof. by apply local_mutate. Qed.

Lemma local_save_flagged (c : Component Sample) dir lbl sample key :
  local_run (call_save_flagged c dir lbl sample key).
Proof.
  intros w r w' [= <- <-].
  by exists [EvSaveFlagged c dir lbl sample key].
Qed.

Lemma local_remote_serialize (self : @HuggingFaceDatasetSaver.t Sample) pairs :
  local_run (HuggingFaceDatasetSaver.serialize self pairs).
Proof.
  induction pairs as [|[c s] pairs IH]; simpl; [apply local_ret|].
  apply local_bind; [apply local_save_flagged|]. intros filepath.
  apply local_bind; [apply IH|]. intros rest. apply local_ret.
Qed.

Lemma pushes_on_return_bind {A : Type} log (m : IO Sample A)
    (k : A → IO Sample Z) :
  local_run m → (∀ a, pushes_on_return log (k a)) →
  pushes_on_return log (bind m k).
Proof.
  intros Hm Hk w r w' H. rewrite bind_run in H.
  destruct (m w) as [[a|e] w1] eqn:M.
  - destruct (Hm _ _ _ M) as (evs1 & T1 & L1 & F1).
    destruct (Hk a _ _ _ H) as (evs2 & T2 & L2 & F2 & Hn).
    exists (evs1 ++ evs2). split_and!.
    + by rewrite T2, T1, <- !app_assoc.
    + rewrite forallb_app, L1, L2. done.
    + unfold replay in *. by rewrite fold_left_app, <- F1.
    + exact Hn.
  - injection H as <- <-.
    destruct (Hm _ _ _ M) as (evs1 & T1 & L1 & F1).
    exists evs1. split_and!; [by rewrite app_nil_r|done..].
Qed.

Lemma pushes_on_return_count log :
  pushes_on_return (Sample:=Sample) log
    (line_count ← line_count log (Some "utf-8");
     emit (EvPushToHub ("Flagged sample #" +:+ Py.str_int line_count));;
     ret line_count).
Proof.
  intros w r w' H. rewrite bind_run in H.
  destruct (line_count log (Some "utf-8") w) as [[k|e] w1] eqn:C.
  - apply line_count_ok in C as (-> & content & rows & Hc & Hr & ->).
    injection H as <- <-. exists []. split_and!; [done..|].
    intros n [= <-]. by exists content, rows.
  - pose proof (line_count_world log (Some "utf-8") w) as Hw.
    rewrite C in Hw. simpl in Hw. subst w1. injection H as <- <-.
    exists []. split_and!; [by rewrite !app_nil_r|done..].
Qed.

End Remote.

(** C9 as amended: every call of flag on the remote variant adds to the
    trace one pull (with large files), before any local event; then local
    events only (serializer calls and file events, the files following
    them); and then, when it returns and only then, one push, whose commit
    message is Flagged sample # followed, in decimal, by the count n the call
    returns, the number of rows the reader finds in the log as the call
    leaves it, less one.  A call that raises has pushed nothing. *)
Theorem C9_remote_sequencing {Sample : Type}
    (json_dumps : HuggingFaceDatasetSaver.Features → string)
    (self : @HuggingFaceDatasetSaver.t Sample)
    (flag_data : list (option Sample)) (flag_option : option string)
    (flag_index : option Z) (username : option string) (w : World Sample) :
  let out := HuggingFaceDatasetSaver.flag json_dumps self flag_data flag_option
               flag_index username w in
  ∃ local : list (Event Sample),
    trace (snd out)
    = trace w ++ [EvGitPull true] ++ local
      ++ match fst out with
         | Ok n => [EvPushToHub ("Flagged sample #" +:+ Py.str_int n)]
         | Raise _ => []
         end
    ∧ forallb is_local_event local = true
    ∧ fs (snd out) = replay local (fs w)
    ∧ ∀ n, fst out = Ok n →
        ∃ (content : string) (rows : list (list string)),
          fs (snd out) !! HuggingFaceDatasetSaver.log_file self = Some content
          ∧ csv.reader csv.excel (Py.iter_lines (Py.universal_newlines content))
            = Ok rows
          ∧ n = Z.of_nat (length rows) - 1.
Proof.
  intros out. subst out.
  destruct (HuggingFaceDatasetSaver.flag json_dumps self flag_data flag_option
              flag_index username w) as [r w'] eqn:H.
  unfold HuggingFaceDatasetSaver.flag in H. rewrite bind_run in H.
  unfold emit at 1 in H.
  eapply (pushes_on_return_bind (HuggingFaceDatasetSaver.log_file self)) in H.
  - destruct H as (local & T & Hrest).
    exists local. split; [|exact Hrest].
    simpl. rewrite T. simpl. by rewrite <- app_assoc.
  - apply local_exists.
  - intros found. apply pushes_on_return_bind; [apply local_open|]. intros _.
    apply pushes_on_return_bind.
    { destruct (negb found); [|apply local_ret].
      apply local_bind; [apply local_lift|]. intros [headers features].
      apply local_bind; [apply local_write|]. intros _. apply local_ret. }
    intros infos. apply pushes_on_return_bind; [apply local_remote_serialize|].
    intros csv_data. apply pushes_on_return_bind; [apply local_write|]. intros _.
    apply pushes_on_return_bind.
    { destruct (negb found); [|apply local_ret].
      apply local_bind; [apply local_open|]. intros _. apply local_write. }
    intros _. apply pushes_on_return_count.
Qed.

Example remote_setup_gives_demo :
  fst (HuggingFaceDatasetSaver.setup (Some Demo.create_repo) Demo.remote_init
         [Demo.prompt; Demo.audio] "flagged" Demo.fresh)
  = Ok Demo.remote.
Proof. vm_compute. reflexivity. Qed.

(** On a new dataset the remote saver writes each label twice into the
    header, so the header is longer than the record under it. *)
Example remote_header_doubles_labels :
  fs (snd (Demo.remote_flag Demo.fresh)) !! "flagged/flags/data.csv"
  = Some ("prompt,prompt,clip,clip,clip file,flag" +:+ Demo.nl
          +:+ "hello,a.wav,https://hub/flags/resolve/main/a.wav,good" +:+ Demo.nl)
  ∧ fst (Demo.remote_flag Demo.fresh) = Ok 1.
Proof. split; vm_compute; reflexivity. Qed.

(** A remote call that raises has pulled and has not pushed. *)
Example remote_failure_does_not_push :
  let unlabelled : Component string :=
    {| label := None; cls := InputsImage;
       save_flagged := λ _ _ sample _, default EmptyString sample |} in
  let saver :=
    {| HuggingFaceDatasetSaver.config := Demo.remote_init;
       HuggingFaceDatasetSaver.path_to_dataset_repo := "https://hub/flags";
       HuggingFaceDatasetSaver.components := [unlabelled];
       HuggingFaceDatasetSaver.flagging_dir := "flagged";
       HuggingFaceDatasetSaver.dataset_dir := "flagged/flags";
       HuggingFaceDatasetSaver.log_file := "flagged/flags/data.csv";
       HuggingFaceDatasetSaver.infos_file := "flagged/flags/dataset_infos.json" |} in
  let out := HuggingFaceDatasetSaver.flag Demo.json_dumps saver [Some "a.png"]
               None None None Demo.fresh in
  fst out = Raise TypeError
  ∧ trace (snd out) = [EvGitPull true; EvOpen "flagged/flags/data.csv" mode_a].
Proof. split; vm_compute; reflexivity. Qed.

(** * Further properties of the three loggers *)

(** ** Runs of the simple logger and of the remote saver *)

Section SimpleRuns.
Context {Sample : Type}.

Lemma simple_serialize_trace dir (pairs : list (Component Sample * option Sample))
    (w : World Sample) :
  SimpleCSVLogger.serialize dir pairs w
  = (Ok (simple_cell dir <$> pairs),
     {| fs := fs w; trace := trace w ++ (simple_call dir <$> pairs) |}).
Proof.
  revert w. induction pairs as [|[c s] pairs IH]; intros w; simpl.
  - unfold ret. by rewrite app_nil_r, world_eta.
  - rewrite bind_run. unfold call_save_flagged, emit. rewrite bind_run. simpl.
    rewrite bind_run, IH. simpl. by rewrite <- app_assoc.
Qed.

Lemma simple_flag_run (self : @SimpleCSVLogger.t Sample)
    flag_data flag_option flag_index username (w : World Sample) :
  let dir := SimpleCSVLogger.flagging_dir self in
  let path := Py.path_join dir "log.csv" in
  let pairs := zip (SimpleCSVLogger.components self) flag_data in
  let row := csv.writerow csv.nonnumeric_apostrophe
               (Some <$> (simple_cell dir <$> pairs)) in
  SimpleCSVLogger.flag self flag_data flag_option flag_index username w
  = line_count path None
      {| fs := <[path := default EmptyString (fs w !! path) +:+ row]> (fs w);
         trace := trace w ++ (simple_call dir <$> pairs)
                  ++ [EvOpen path mode_a; EvWrite path row] |}.
Proof.
  intros dir path pairs row. unfold SimpleCSVLogger.flag. fold dir path pairs.
  rewrite bind_run, simple_serialize_trace. rewrite !bind_run. simpl.
  fold row. rewrite bind_run. unfold file_write, mutate. simpl.
  f_equal. f_equal.
  - destruct (fs w !! path) eqn:E; simpl.
    + by rewrite E.
    + by rewrite lookup_insert_eq, insert_insert_eq.
  - by rewrite <- !app_assoc.
Qed.
End SimpleRuns.

Section RemoteRuns.
Context {Sample : Type} (json_dumps : HuggingFaceDatasetSaver.Features → string).
Import HuggingFaceDatasetSaver.

Lemma remote_flag_run (self : @HuggingFaceDatasetSaver.t Sample)
    flag_data flag_option flag_index username (w : World Sample) :
  let log := log_file self in
  let infos := infos_file self in
  let pairs := zip (components self) flag_data in
  let row := csv.writerow csv.excel
               ((Some <$> concat (cells self <$> pairs))
                ++ [Some (default EmptyString flag_option)]) in
  let calls := call self <$> pairs in
  flag json_dumps self flag_data flag_option flag_index username w
  = match fs w !! log with
    | Some old =>
        count_and_push log
          {| fs := <[log := old +:+ row]> (fs w);
             trace := trace w ++ [EvGitPull true; EvOpen log mode_a]
                      ++ calls ++ [EvWrite log row] |}
    | None =>
        match generate_headers pairs [] [] with
        | Raise e =>
            (Raise e,
             {| fs := <[log := EmptyString]> (fs w);
                trace := trace w ++ [EvGitPull true; EvOpen log mode_a] |})
        | Ok (headers, features) =>
            let hdr := csv.writerow csv.excel (headers ++ [Some "flag"]) in
            let doc := json_dumps (dict_set (Some "flag") string_value features) in
            count_and_push log
              {| fs := <[infos := doc]> (<[log := hdr +:+ row]> (fs w));
                 trace := trace w
                          ++ [EvGitPull true; EvOpen log mode_a; EvWrite log hdr]
                          ++ calls
                          ++ [EvWrite log row; EvOpen infos mode_w;
                              EvWrite infos doc] |}
        end
    end.
Proof.
  intros log infos pairs row calls. unfold flag. fold log infos pairs.
  rewrite bind_run. unfold emit at 1.
  rewrite bind_run. unfold os_path_exists. simpl.
  rewrite bind_run. unfold py_open. simpl. unfold mutate at 1. simpl.
  destruct (fs w !! log) as [old|] eqn:E; simpl.
  - rewrite bind_run. unfold ret at 1.
    rewrite bind_run, remote_serialize_run. fold calls. simpl.
    fold row. rewrite bind_run. unfold file_write at 1, mutate. simpl.
    rewrite E. simpl. rewrite bind_run. unfold ret at 1.
    unfold count_and_push. by rewrite <- !app_assoc.
  - rewrite !bind_run. unfold lift at 1.
    destruct (generate_headers pairs [] []) as [[headers features]|e]; simpl.
    + rewrite !bind_run. unfold file_write at 1, mutate. simpl.
      unfold ret at 1. rewrite remote_serialize_run. fold calls. simpl.
      fold row. unfold count_and_push.
      rewrite (bind_run (λ w0, (Ok (), _))). simpl.
      rewrite (bind_run (bind _ _)), (bind_run (λ w0, (Ok (), _))). simpl.
      unfold file_write, mutate. simpl.
      repeat (rewrite ?lookup_insert_eq, ?insert_insert_eq; simpl;
              rewrite ?append_nil_l).
      by rewrite <- !app_assoc.
    + by rewrite <- !app_assoc.
Qed.
End RemoteRuns.

Section ExcelWriter.
Import csv.

Lemma bare_cons x s :
  bare (String x s) = true →
  Py.char_eqb x Py.COMMA = false ∧ Py.char_eqb x Py.DQUOTE = false
  ∧ Py.char_eqb x Py.CR = false ∧ Py.char_eqb x Py.LF = false
  ∧ bare s = true.
Proof.
  unfold bare. simpl. intros H. apply negb_true_iff in H.
  apply orb_false_elim in H as [Hx Hs]. unfold special in Hx. simpl in Hx.
  apply orb_false_elim in Hx as [Hx Hnl]. apply orb_false_elim in Hx as [Hc Hq].
  apply orb_false_elim in Hnl as [Hcr Hlf]. apply orb_false_elim in Hlf as [Hlf _].
  rewrite Hs. auto.
Qed.

Lemma bare_plain s : bare s = true → plain s = true.
Proof.
  induction s as [|x s IH]; [done|].
  intros (Hc & _ & Hcr & Hlf & Hs)%bare_cons. simpl.
  unfold plain_char. by rewrite Hc, Hcr, Hlf, IH.
Qed.

Lemma bare_copy_field s : bare s = true → copy_field excel s = s.
Proof.
  induction s as [|x s IH]; [done|].
  intros (_ & Hq & _ & _ & Hs)%bare_cons. simpl.
  change (quotechar excel) with Py.DQUOTE. by rewrite Hq, IH.
Qed.

Lemma join_append_bare n rec c :
  bare c = true →
  join_append excel n rec (Some c) false
  = rec +:+ match n with O => EmptyString | S _ => String Py.COMMA EmptyString end
        +:+ c.
Proof.
  intros Hc. unfold join_append. simpl.
  unfold bare in Hc. apply negb_true_iff in Hc. rewrite Hc.
  by rewrite bare_copy_field by (unfold bare; by rewrite Hc).
Qed.

Lemma join_fields_bare cells n rec :
  forallb bare cells = true →
  join_fields excel n rec (Some <$> cells)
  = ((n + length cells)%nat, rec +:+ bare_text n cells).
Proof.
  revert n rec. induction cells as [|c cells IH]; intros n rec; simpl.
  - intros _. by rewrite Nat.add_0_r, append_nil_r.
  - intros [Hc Hcells]%andb_prop. rewrite IH by done. f_equal; [lia|].
    change (initially_quoted excel (Some c)) with false.
    rewrite join_append_bare by done. by rewrite !append_assoc.
Qed.

Lemma bare_text_empty cells :
  bare_text 0 cells = EmptyString → cells = [] ∨ cells = [EmptyString].
Proof.
  destruct cells as [|c [|c2 cells]]; simpl; auto.
  - rewrite append_nil_l, append_nil_r. intros ->. auto.
  - rewrite append_nil_l. destruct c; simpl; [|done].
    rewrite append_nil_l, append_cons. done.
Qed.

(** One row of bare cells as the default writer writes it. *)
Lemma writerow_bare cells :
  forallb bare cells = true →
  writerow excel (Some <$> cells)
  = match cells with
    | [EmptyString] => String Py.DQUOTE (String Py.DQUOTE EmptyString)
    | _ => bare_text 0 cells
    end +:+ lineterminator excel.
Proof.
  intros H. unfold writerow. rewrite join_fields_bare by done.
  rewrite append_nil_l. simpl Nat.add.
  destruct (bare_text 0 cells) eqn:E.
  - apply bare_text_empty in E as [-> | ->]; reflexivity.
  - destruct cells as [|c [|c2 cells]]; [done| |].
    + destruct c; [done|]. done.
    + by destruct c.
Qed.

End ExcelWriter.

Section ExcelReader.
Import csv.

Lemma feed_bare_cell st acc c :
  st = START_RECORD ∨ st = START_FIELD →
  bare c = true → fits c = true →
  c ≠ EmptyString →
  feed excel (at_start st acc) c = Ok (after_cell acc c).
Proof.
  intros Hst Hb Hf Hne. destruct c as [|x c]; [done|].
  pose proof (bare_cons _ _ Hb) as (Hc & Hq & Hcr & Hlf & Hs).
  assert (feed excel (at_start st acc) (String x c)
          = feed excel (in_field acc [x]) c) as ->.
  { simpl. unfold parse_process_char, start_field.
    destruct Hst as [-> | ->]; simpl;
      change (quotechar excel) with Py.DQUOTE;
      change (delimiter excel) with Py.COMMA;
      rewrite Hlf, Hcr, Hq, Hc; reflexivity. }
  rewrite feed_in_field; [| by apply bare_plain | exact Hf].
  reflexivity.
Qed.

Lemma feed_bare_cell_field acc c :
  bare c = true → fits c = true →
  feed excel (at_start START_FIELD acc) c = Ok (after_cell acc c).
Proof.
  intros Hb Hf. destruct (decide (c = EmptyString)) as [-> | Hne]; [done|].
  apply feed_bare_cell; auto.
Qed.

Lemma after_cell_comma acc c :
  parse_process_char excel (after_cell acc c) (Ch Py.COMMA)
  = Ok (at_start START_FIELD (c :: acc)).
Proof.
  destruct c as [|x c]; [done|]. unfold after_cell.
  rewrite in_field_comma. by rewrite string_of_rev_rev.
Qed.

Lemma after_cell_line_end acc c :
  parse_line excel (after_cell acc c) (String Py.LF EmptyString)
  = Ok (at_start START_RECORD (c :: acc)).
Proof.
  destruct c as [|x c]; [done|]. unfold after_cell.
  rewrite in_field_line_end. by rewrite string_of_rev_rev.
Qed.

Lemma parse_more_bare cells n acc c :
  forallb bare cells = true → forallb fits cells = true →
  parse_line excel (after_cell acc c)
    (bare_text (S n) cells +:+ String Py.LF EmptyString)
  = Ok (at_start START_RECORD (rev cells ++ c :: acc)).
Proof.
  revert n acc c. induction cells as [|c' cells IH]; intros n acc c Hb Hf.
  - apply after_cell_line_end.
  - simpl in Hb, Hf. apply andb_prop in Hb as [Hc Hb].
    apply andb_prop in Hf as [Hcf Hf].
    simpl bare_text. rewrite append_cons, append_nil_l, append_cons.
    rewrite parse_line_cons, after_cell_comma, rbind_ok.
    rewrite append_assoc, parse_line_app, feed_bare_cell_field by done.
    rewrite rbind_ok, IH by done. simpl. by rewrite <- app_assoc.
Qed.

(** A line of bare cells the default writer wrote, read from the start of
    a record. *)
Lemma parse_bare_line cells :
  forallb bare cells = true → forallb fits cells = true →
  cells ≠ [EmptyString] →
  parse_line excel parse_reset (bare_text 0 cells +:+ String Py.LF EmptyString)
  = Ok (at_start START_RECORD (rev cells)).
Proof.
  intros Hb Hf Hne. destruct cells as [|c cells]; [reflexivity|].
  simpl in Hb, Hf. apply andb_prop in Hb as [Hc Hb].
  apply andb_prop in Hf as [Hcf Hf].
  simpl bare_text. rewrite append_nil_l, append_assoc.
  change parse_reset with (at_start START_RECORD []).
  destruct c as [|x c].
  - rewrite append_nil_l. destruct cells as [|c2 cells]; [done|].
    simpl in Hb, Hf. apply andb_prop in Hb as [Hc2 Hb].
    apply andb_prop in Hf as [Hc2f Hf].
    simpl bare_text. rewrite append_cons, append_nil_l, append_cons.
    rewrite parse_line_cons.
    change (parse_process_char excel (at_start START_RECORD []) (Ch Py.COMMA))
      with (Ok (at_start START_FIELD [EmptyString])).
    rewrite rbind_ok, append_assoc, parse_line_app, feed_bare_cell_field by done.
    rewrite rbind_ok, parse_more_bare by done.
    simpl. by rewrite <- !app_assoc.
  - rewrite parse_line_app, feed_bare_cell by auto.
    rewrite rbind_ok, parse_more_bare by done. done.
Qed.

Lemma line_plain_bare_text cells n :
  forallb bare cells = true → line_plain (bare_text n cells) = true.
Proof.
  revert n. induction cells as [|c cells IH]; intros n; [done|]. simpl.
  intros [Hc Hb]%andb_prop.
  rewrite !line_plain_app, IH by done.
  rewrite (plain_line_plain c) by (by apply bare_plain).
  by destruct n.
Qed.

(** Reading back, from a text-mode file, one row of bare cells the default
    writer wrote: the same cells. *)
Lemma reader_bare_row cells rest :
  bare_ok cells = true →
  reader excel (Py.iter_lines (Py.universal_newlines
    (writerow excel (Some <$> cells) +:+ rest)))
  = rbind (reader excel (Py.iter_lines (Py.universal_newlines rest)))
      (λ rows, Ok (cells :: rows)).
Proof.
  intros [Hb Hf]%andb_prop. rewrite writerow_bare by done.
  simpl lineterminator. rewrite append_assoc, !append_cons, append_nil_l.
  destruct (decide (cells = [EmptyString])) as [-> | Hne].
  - rewrite (universal_newlines_line
               (String Py.DQUOTE (String Py.DQUOTE EmptyString))) by done.
    rewrite iter_lines_line by done.
    unfold reader at 1. simpl read_records.
    reflexivity.
  - assert (match cells with
            | [EmptyString] => String Py.DQUOTE (String Py.DQUOTE EmptyString)
            | _ => bare_text 0 cells
            end = bare_text 0 cells) as ->.
    { destruct cells as [|[|] [|]]; done. }
    rewrite universal_newlines_line by (by apply line_plain_bare_text).
    rewrite iter_lines_line by (by apply line_plain_bare_text).
    unfold reader at 1. simpl read_records.
    rewrite parse_bare_line by done. rewrite rbind_ok. simpl.
    by rewrite rev_involutive.
Qed.

Lemma written_excel_app rows1 rows2 :
  written_excel (rows1 ++ rows2) = written_excel rows1 +:+ written_excel rows2.
Proof.
  unfold written_excel. induction rows1 as [|r rows1 IH]; [done|].
  rewrite <- app_comm_cons, !fmap_cons. simpl writerows.
  by rewrite IH, append_assoc.
Qed.

Lemma written_excel_one cells :
  written_excel [cells] = writerow excel (Some <$> cells).
Proof. unfold written_excel. simpl. by rewrite append_nil_r. Qed.

Lemma reader_written_excel rows :
  forallb bare_ok rows = true →
  reader excel (Py.iter_lines (Py.universal_newlines (written_excel rows)))
  = Ok rows.
Proof.
  induction rows as [|r rows IH]; [done|].
  simpl. intros [Hr Hrows]%andb_prop.
  unfold written_excel. rewrite fmap_cons. simpl writerows.
  fold (written_excel rows). rewrite reader_bare_row, IH by done. done.
Qed.

End ExcelReader.

Section Headers.
Context {Sample : Type}.
Import HuggingFaceDatasetSaver.
Implicit Types pairs : list (Component Sample * option Sample).

Lemma generate_headers_raise pairs headers features :
  existsb unlabelled_preview pairs = true →
  generate_headers pairs headers features = Raise TypeError.
Proof.
  revert headers features.
  induction pairs as [|[c s] pairs IH]; intros headers features; [done|].
  simpl. unfold unlabelled_preview at 1. simpl.
  destruct (is_file_preview c) eqn:P; simpl.
  - destruct (label c) as [l|] eqn:L; simpl; [|done].
    intros H. by apply IH.
  - intros H. by apply IH.
Qed.

Lemma generate_headers_ok pairs headers features :
  existsb unlabelled_preview pairs = false →
  ∃ features',
    generate_headers pairs headers features
    = Ok (headers ++ concat (header_cells <$> pairs), features').
Proof.
  revert headers features.
  induction pairs as [|[c s] pairs IH]; intros headers features.
  - intros _. exists features. simpl. by rewrite app_nil_r.
  - simpl. unfold unlabelled_preview at 1, header_cells at 1. simpl.
    destruct (is_file_preview c) eqn:P; simpl.
    + destruct (label c) as [l|] eqn:L; simpl; [|done].
      intros H. edestruct IH as [f' ->]; [done|].
      exists f'. by rewrite <- !app_assoc.
    + intros H. edestruct IH as [f' ->]; [done|].
      exists f'. by rewrite <- !app_assoc.
Qed.

Lemma header_cells_length pairs :
  length (concat (header_cells <$> pairs)) = (2 * length pairs + previews pairs)%nat.
Proof.
  unfold previews. induction pairs as [|[c s] pairs IH]; [done|].
  rewrite fmap_cons.
  change (concat (header_cells (c, s) :: (header_cells <$> pairs)))
    with (header_cells (c, s) ++ concat (header_cells <$> pairs)).
  rewrite length_app, IH.
  unfold header_cells. simpl. destruct (is_file_preview c); simpl; lia.
Qed.

Lemma cells_length (self : @t Sample) pairs :
  length (concat (cells self <$> pairs)) = (length pairs + previews pairs)%nat.
Proof.
  unfold previews. induction pairs as [|[c s] pairs IH]; [done|].
  rewrite fmap_cons.
  change (concat (cells self (c, s) :: (cells self <$> pairs)))
    with (cells self (c, s) ++ concat (cells self <$> pairs)).
  rewrite length_app, IH.
  unfold cells. simpl. destruct (is_file_preview c); simpl; lia.
Qed.

(** Keys of the features table. *)
Lemma dict_set_keys k v (d : Features) k' :
  k' ∈ (dict_set k v d).*1 ↔ k' = k ∨ k' ∈ d.*1.
Proof.
  induction d as [|[k0 v0] d IH]; simpl.
  - rewrite list_elem_of_singleton. split; [auto|].
    intros [?|H]; [done|]. by apply elem_of_nil in H.
  - destruct (decide (k0 = k)) as [-> | Hne]; simpl.
    + rewrite !elem_of_cons. tauto.
    + rewrite !elem_of_cons, IH. tauto.
Qed.

Lemma dict_set_nodup k v (d : Features) :
  NoDup d.*1 → NoDup (dict_set k v d).*1.
Proof.
  induction d as [|[k0 v0] d IH]; simpl.
  - intros _. apply NoDup_singleton.
  - rewrite NoDup_cons. intros [Hk0 Hd].
    destruct (decide (k0 = k)) as [-> | Hne]; simpl.
    + by apply NoDup_cons.
    + apply NoDup_cons. split; [|by apply IH].
      rewrite dict_set_keys. intros [?|?]; done.
Qed.

Lemma dict_set_elem k v (d : Features) : (k, v) ∈ dict_set k v d.
Proof.
  induction d as [|[k0 v0] d IH]; simpl; [apply list_elem_of_here|].
  destruct (decide (k0 = k)); [apply list_elem_of_here|].
  by apply list_elem_of_further.
Qed.

Lemma generate_headers_features pairs headers features headers' features' :
  generate_headers pairs headers features = Ok (headers', features') →
  NoDup features.*1 →
  NoDup features'.*1
  ∧ (∀ k, k ∈ features.*1 → k ∈ features'.*1)
  ∧ (∀ pair, pair ∈ pairs → label pair.1 ∈ features'.*1).
Proof.
  revert headers features.
  induction pairs as [|[c s] pairs IH]; intros headers features; simpl.
  - intros [= <- <-] Hnd. split_and!; [done..|].
    intros pair Hp. by apply elem_of_nil in Hp.
  - intros H Hnd.
    assert (∃ hs fs1,
              generate_headers pairs hs fs1 = Ok (headers', features')
              ∧ NoDup fs1.*1
              ∧ ∀ k, k = label c ∨ k ∈ features.*1 → k ∈ fs1.*1)
      as (hs & fs1 & Hrec & Hnd1 & Hk1).
    { destruct (is_file_preview c).
      - destruct (label_file (label c)) as [name|]; simpl in H; [|done].
        eexists _, _. split; [exact H|].
        destruct (preview_type c).
        + split; [by repeat apply dict_set_nodup|].
          intros k Hk. rewrite !dict_set_keys. tauto.
        + split; [by apply dict_set_nodup|].
          intros k Hk. rewrite dict_set_keys. tauto.
      - eexists _, _. split; [exact H|].
        split; [by apply dict_set_nodup|].
        intros k Hk. rewrite dict_set_keys. tauto. }
    destruct (IH _ _ Hrec Hnd1) as (Hnd' & Hkeep & Hlab).
    split_and!; [done|auto|].
    intros pair [-> | Hin]%elem_of_cons; [|by apply Hlab].
    simpl. auto.
Qed.

End Headers.

Section Misc.
Context {Sample : Type}.
Import csv.

(** The writer renders [None] as the empty string. *)
Lemma join_fields_default d n rec (row : list (option string)) :
  join_fields d n rec row
  = join_fields d n rec (Some <$> (default EmptyString <$> row)).
Proof.
  revert n rec. induction row as [|f row IH]; intros n rec; [done|].
  simpl. rewrite IH. by destruct f.
Qed.

Lemma writerow_default d (row : list (option string)) :
  writerow d row = writerow d (Some <$> (default EmptyString <$> row)).
Proof. unfold writerow. by rewrite join_fields_default. Qed.

Lemma enumerate_lookup {A : Type} (xs : list A) n i :
  CSVLogger.enumerate n xs !! i = (λ x, ((n + i)%nat, x)) <$> xs !! i.
Proof.
  revert n i. induction xs as [|x xs IH]; intros n [|i]; simpl; try done.
  - by rewrite Nat.add_0_r.
  - rewrite IH. by rewrite Nat.add_succ_r.
Qed.

Lemma headers_lookup (self : @CSVLogger.t Sample) i c :
  CSVLogger.components self !! i = Some c →
  CSVLogger.headers self !! i = Some (label_or_default i c).
Proof.
  intros Hc. unfold CSVLogger.headers.
  rewrite lookup_app_l.
  - by rewrite list_lookup_fmap, enumerate_lookup, Hc.
  - rewrite length_fmap, enumerate_length. by apply lookup_lt_Some in Hc.
Qed.

Lemma headers_tail (self : @CSVLogger.t Sample) :
  drop (length (CSVLogger.components self)) (CSVLogger.headers self)
  = ["flag"; "username"; "timestamp"].
Proof.
  unfold CSVLogger.headers.
  rewrite drop_app_length'; [done|].
  by rewrite length_fmap, enumerate_length.
Qed.

Lemma count_and_push_run log (w : World Sample) content rows :
  fs w !! log = Some content →
  reader excel (Py.iter_lines (Py.universal_newlines content)) = Ok rows →
  count_and_push log w
  = (Ok (Z.of_nat (length rows) - 1),
     {| fs := fs w;
        trace := trace w
                 ++ [EvPushToHub ("Flagged sample #"
                                  +:+ Py.str_int (Z.of_nat (length rows) - 1))] |}).
Proof.
  intros Hc Hr. unfold count_and_push. rewrite bind_run.
  pose proof (line_count_found log (Some "utf-8") w content Hc) as Hf.
  pose proof (line_count_world log (Some "utf-8") w) as Hw.
  destruct (line_count log (Some "utf-8") w) as [r w1]. simpl in *. subst w1.
  rewrite Hr in Hf. simpl in Hf. subst r. reflexivity.
Qed.

Lemma forallb_insert {A : Type} (f : A → bool) (l : list A) i x :
  forallb f l = true → f x = true → forallb f (<[i := x]> l) = true.
Proof.
  revert i. induction l as [|y l IH]; intros i; [done|]. simpl.
  intros [Hy Hl]%andb_prop Hx. destruct i; simpl.
  - by rewrite Hx, Hl.
  - by rewrite Hy, IH.
Qed.

End Misc.

Section Updates.
Context {Sample : Type} (encrypt decrypt : string → string → string).
Import csv.

Lemma getitem_in_range {A : Type} (l : list A) (i : Z) :
  - Z.of_nat (length l) <= i < Z.of_nat (length l) →
  ∃ x, l !! Z.to_nat (if i <? 0 then i + Z.of_nat (length l) else i) = Some x
       ∧ Py.getitem l i
         = Ok (Z.to_nat (if i <? 0 then i + Z.of_nat (length l) else i), x).
Proof.
  intros Hi. unfold Py.getitem. cbv zeta.
  set (j := if i <? 0 then i + Z.of_nat (length l) else i).
  assert (0 <= j < Z.of_nat (length l)) as Hj.
  { unfold j. destruct (Z.ltb_spec i 0); lia. }
  destruct (Z.ltb_spec j 0); [lia|].
  destruct (Z.leb_spec (Z.of_nat (length l)) j); [lia|]. simpl.
  destruct (lookup_lt_is_Some_2 l (Z.to_nat j)) as [x Hx]; [lia|].
  exists x. by rewrite Hx.
Qed.

Lemma getitem_lookup {A : Type} (l : list A) (i : Z) k x :
  Py.getitem l i = Ok (k, x) → l !! k = Some x.
Proof.
  unfold Py.getitem. cbv zeta. intros H.
  repeat case_match; try done; by simplify_eq.
Qed.

(** The text a successful replacement gives begins with a header line
    the apostrophe-quoting writer wrote. *)
Lemma replace_flag_gives_written_header i flag_option text new header :
  CSVLogger.replace_flag_at_index i flag_option text = Ok new →
  (∃ content, reader excel (Py.iter_lines text) = Ok (header :: content)) →
  cells_ok header = true → cells_ok [default EmptyString flag_option] = true →
  ∃ hdr rest,
    new = writerow nonnumeric_apostrophe (Some <$> hdr) +:+ rest
    ∧ cells_ok hdr = true.
Proof.
  intros Hnew [content Hread] Hh Ho.
  unfold CSVLogger.replace_flag_at_index in Hnew. rewrite Hread in Hnew.
  rewrite rbind_ok, getitem_first, rbind_ok in Hnew.
  destruct (Py.index header "flag") as [col|]; [|done].
  rewrite rbind_ok in Hnew.
  destruct (Py.getitem (header :: content) i) as [[k row]|] eqn:Hrow; [|done].
  rewrite rbind_ok in Hnew. apply getitem_lookup in Hrow.
  unfold Py.setitem in Hnew.
  destruct (col <? length (Some <$> row))%nat; [|done].
  rewrite rbind_ok in Hnew. injection Hnew as <-.
  destruct k as [|k]; simpl in *.
  - injection Hrow as <-.
    rewrite (writerow_default _ (<[col := flag_option]> (Some <$> header))).
    eexists _, _. split; [done|].
    rewrite list_fmap_insert, <- list_fmap_compose.
    change (default EmptyString ∘ Some) with (@id string).
    rewrite list_fmap_id.
    apply andb_prop in Hh as [Hp Hs]. apply andb_prop in Ho as [Hop Hos].
    simpl in Hop, Hos. rewrite andb_true_r in Hop, Hos.
    unfold cells_ok. by rewrite !forallb_insert.
  - by eexists _, _.
Qed.

End Updates.

Section RemoteFacts.
Context {Sample : Type} (json_dumps : HuggingFaceDatasetSaver.Features → string).
Import HuggingFaceDatasetSaver.
Implicit Types pairs : list (Component Sample * option Sample).

Lemma count_and_push_cases log (w : World Sample) :
  count_and_push log w
  = match fst (line_count log (Some "utf-8") w) with
    | Ok n =>
        (Ok n,
         {| fs := fs w;
            trace := trace w
                     ++ [EvPushToHub ("Flagged sample #" +:+ Py.str_int n)] |})
    | Raise e => (Raise e, w)
    end.
Proof.
  unfold count_and_push. rewrite bind_run.
  pose proof (line_count_world log (Some "utf-8") w) as Hw.
  destruct (line_count log (Some "utf-8") w) as [[n|e] w1]; simpl in *; by subst.
Qed.

Lemma count_and_push_fs log (w : World Sample) :
  fs (snd (count_and_push log w)) = fs w.
Proof.
  rewrite count_and_push_cases.
  by destruct (fst (line_count log (Some "utf-8") w)).
Qed.

Lemma count_and_push_error log (w : World Sample) content e :
  fs w !! log = Some content →
  fst (count_and_push log w) = Raise e → e = CsvError.
Proof.
  intros Hc. rewrite count_and_push_cases.
  rewrite (line_count_found log (Some "utf-8") w content Hc).
  unfold rbind. destruct (csv.reader _ _) eqn:R; [done|].
  simpl. intros [= <-]. by apply reader_error in R.
Qed.

Lemma preview_has_type (c : Component Sample) :
  is_file_preview c = true → ∃ ty, preview_type c = Some ty.
Proof.
  unfold is_file_preview, preview_type, isinstance.
  destruct (cls c); simpl; intros H; try done; by eexists.
Qed.

Lemma generate_headers_preview_keys pairs headers features headers' features' :
  generate_headers pairs headers features = Ok (headers', features') →
  NoDup features.*1 →
  ∀ pair, pair ∈ pairs → is_file_preview pair.1 = true →
    ∃ l, label pair.1 = Some l ∧ Some (l +:+ " file") ∈ features'.*1.
Proof.
  revert headers features.
  induction pairs as [|[c s] pairs IH]; intros headers features; simpl.
  - intros _ _ pair Hp. by apply elem_of_nil in Hp.
  - intros H Hnd pair Hin Hprev.
    destruct (is_file_preview c) eqn:P.
    + destruct (label c) as [l|] eqn:L; simpl in H; [|done].
      destruct (preview_has_type c P) as [ty Hty]. rewrite Hty in H.
      assert (NoDup (dict_set (Some (l +:+ " file")) {| dtype := None; _type := ty |}
                       (dict_set (Some l) string_value features)).*1) as Hnd1.
      { by repeat apply dict_set_nodup. }
      destruct (generate_headers_features _ _ _ _ _ H Hnd1) as (_ & Hkeep & _).
      apply elem_of_cons in Hin as [-> | Hin].
      * exists l. split; [done|]. apply Hkeep. rewrite dict_set_keys. auto.
      * by apply (IH _ _ H Hnd1).
    + assert (NoDup (dict_set (label c) string_value features).*1) as Hnd1.
      { by apply dict_set_nodup. }
      apply elem_of_cons in Hin as [-> | Hin].
      * simpl in Hprev. congruence.
      * by apply (IH _ _ H Hnd1).
Qed.



End RemoteFacts.

(** ** The remote variant: calls that raise *)

Section Overlong.
Context {Sample : Type} (json_dumps : HuggingFaceDatasetSaver.Features → string).
Import csv.

(** Inside an unquoted field, the character that takes the field past
    the limit raises. *)
Lemma parse_line_overflow s acc cur t :
  plain s = true →
  (N.of_nat (length cur) <= field_limit)%N →
  (field_limit < N.of_nat (length cur + String.length s))%N →
  parse_line excel (in_field acc cur) (s +:+ t) = Raise CsvError.
Proof.
  revert cur. induction s as [|c s IH]; intros cur Hp Hcur Hlen.
  - simpl in Hlen. lia.
  - simpl in Hp. apply andb_prop in Hp as [Hc Hp].
    unfold plain_char in Hc. apply negb_true_iff in Hc.
    apply orb_false_elim in Hc as [Hc Hlf].
    apply orb_false_elim in Hc as [Hcomma Hcr].
    rewrite append_cons, parse_line_cons.
    unfold parse_process_char. simpl. rewrite Hlf, Hcr. simpl.
    change (delimiter excel) with Py.COMMA. rewrite Hcomma.
    unfold parse_add_char. simpl.
    destruct (N.leb_spec field_limit (N.of_nat (length cur))); [done|].
    rewrite rbind_ok.
    replace (N.succ (N.of_nat (length cur)))
      with (N.of_nat (length (c :: cur))) by (simpl; lia).
    fold (in_field acc (c :: cur)).
    apply IH; [done|simpl; lia|simpl in *; lia].
Qed.

(** A first line that begins with a bare cell longer than the limit. *)
Lemma reader_overlong_line s rest :
  bare s = true →
  (field_limit < N.of_nat (String.length s))%N →
  reader excel (Py.iter_lines (Py.universal_newlines
    (s +:+ String Py.CR (String Py.LF rest))))
  = Raise CsvError.
Proof.
  intros Hb Hlen.
  pose proof (bare_plain s Hb) as Hp.
  rewrite universal_newlines_line by (by apply plain_line_plain).
  rewrite iter_lines_line by (by apply plain_line_plain).
  unfold reader. simpl read_records.
  destruct s as [|c s]; [simpl in Hlen; lia|].
  apply bare_cons in Hb as (Hc & Hq & Hcr & Hlf & Hs).
  rewrite append_cons, parse_line_cons.
  assert (parse_process_char excel parse_reset (Ch c) = Ok (in_field [] [c])) as ->.
  { unfold parse_process_char, start_field. simpl.
    change (quotechar excel) with Py.DQUOTE.
    change (delimiter excel) with Py.COMMA.
    by rewrite Hlf, Hcr, Hq, Hc. }
  rewrite rbind_ok, parse_line_overflow; [done|by apply bare_plain| |].
  - simpl. unfold field_limit. lia.
  - simpl in *. lia.
Qed.

Lemma iter_string_length (n : N) c :
  N.of_nat (String.length (N.iter n (String c) EmptyString)) = n.
Proof.
  induction n as [|n IH] using N.peano_ind; [done|].
  rewrite N.iter_succ. simpl. lia.
Qed.

Lemma iter_string_bare (n : N) c :
  special excel c = false → bare (N.iter n (String c) EmptyString) = true.
Proof.
  intros Hc. induction n as [|n IH] using N.peano_ind; [done|].
  rewrite N.iter_succ. unfold bare in *.
  change (has_special excel (String c ?s)) with (special excel c || has_special excel s).
  by rewrite Hc.
Qed.

(** On an existing log the reader refuses after the write, the remote
    saver has written its record and raises without a push. *)
Lemma remote_flag_unreadable (self : @HuggingFaceDatasetSaver.t Sample)
    flag_data flag_option flag_index username (w : World Sample) old e :
  let log := HuggingFaceDatasetSaver.log_file self in
  let pairs := zip (HuggingFaceDatasetSaver.components self) flag_data in
  let row := csv.writerow csv.excel
               ((Some <$> concat (HuggingFaceDatasetSaver.cells self <$> pairs))
                ++ [Some (default EmptyString flag_option)]) in
  fs w !! log = Some old →
  reader excel (Py.iter_lines (Py.universal_newlines (old +:+ row))) = Raise e →
  HuggingFaceDatasetSaver.flag json_dumps self flag_data flag_option flag_index
    username w
  = (Raise e,
     {| fs := <[log := old +:+ row]> (fs w);
        trace := trace w ++ [EvGitPull true; EvOpen log mode_a]
                 ++ (HuggingFaceDatasetSaver.call self <$> pairs)
                 ++ [EvWrite log row] |}).
Proof.
  intros log pairs row Hold Hread.
  rewrite remote_flag_run. fold log pairs row. rewrite Hold.
  rewrite count_and_push_cases.
  erewrite line_count_found by (simpl; apply lookup_insert_eq).
  by rewrite Hread.
Qed.

End Overlong.

(** C9 does not hold as the specification states it: a call that raises
    has pulled and written, and pushes nothing.  On a log whose first cell
    is longer than the reader's field limit the remote saver pulls, appends
    its record and raises the reader's error from the recount: the trace
    holds no push.  (Likewise, on a new dataset with an image component
    without a label the call raises TypeError after the pull and the
    creation of the log, without a push; the call that follows returns 0
    and pushes Flagged sample #0 with one record in the log.) *)
Lemma C9_counterexample :
  let log := "flagged/flags/data.csv" in
  let old := RemoteDemo.long_cell +:+ Demo.nl in
  let row := "hello,a.wav,https://hub/flags/resolve/main/a.wav,good" +:+ Demo.nl in
  let w := Demo.on_disk log old in
  let first := HuggingFaceDatasetSaver.flag Demo.json_dumps RemoteDemo.unlabelled
                 [Some "a.png"] None None None Demo.fresh in
  let second := HuggingFaceDatasetSaver.flag Demo.json_dumps RemoteDemo.unlabelled
                  [Some "b.png"] (Some "good") None None (snd first) in
  Demo.remote_flag w
  = (Raise CsvError,
     {| fs := <[log := old +:+ row]> (fs w);
        trace := [EvGitPull true; EvOpen log mode_a;
                  EvSaveFlagged Demo.prompt "flagged/flags" (Some "prompt")
                    (Some "hello") None;
                  EvSaveFlagged Demo.audio "flagged/flags" (Some "clip")
                    (Some "a.wav") None;
                  EvWrite log row] |})
  ∧ first
    = (Raise TypeError,
       {| fs := {[ log := EmptyString ]};
          trace := [EvGitPull true; EvOpen log mode_a] |})
  ∧ fst second = Ok 0
  ∧ fs (snd second) !! log
    = Some ("b.png,https://hub/flags/resolve/main/b.png,good" +:+ Demo.nl)
  ∧ last (trace (snd second)) = Some (EvPushToHub "Flagged sample #0").
Proof.
  split; [|split_and!; vm_compute; reflexivity].
  unfold Demo.remote_flag.
  rewrite (remote_flag_unreadable Demo.json_dumps Demo.remote _ _ _ _ _
             (RemoteDemo.long_cell +:+ Demo.nl) CsvError).
  - reflexivity.
  - apply lookup_singleton_eq.
  - unfold Demo.nl. rewrite append_assoc, !append_cons, append_nil_l.
    apply reader_overlong_line.
    + by apply iter_string_bare.
    + unfold RemoteDemo.long_cell. rewrite iter_string_length. lia.
Qed.

(** ** The default local logger: header, counts, updates *)

(** X1 (header of the default local logger).  Without a key (None or the
    empty string) an append on a store without the log writes the header
    line and then the record; on a store that holds the log it writes the
    record after the old content and no header.  The header names each
    component by its label, or by component followed by its position when
    the label is None or empty, and ends with flag, username, timestamp.
    No other file changes. *)
Theorem X1_header_written_once {Sample : Type}
    (encrypt decrypt : string → string → string)
    (self : @CSVLogger.t Sample)
    (flag_data : list (option Sample)) (flag_option username : option string)
    (now : string) (w : World Sample) :
  let path := Py.path_join (CSVLogger.flagging_dir self) "log.csv" in
  let writerow := csv.writerow csv.nonnumeric_apostrophe in
  let out := CSVLogger.flag encrypt decrypt self flag_data flag_option None
               username now w in
  Py.truthy (CSVLogger.encryption_key self) = false →
  (∃ record,
     fs (snd out) !! path
     = Some (match fs w !! path with
             | Some old => old
             | None => writerow (Some <$> CSVLogger.headers self)
             end +:+ writerow record))
  ∧ (∀ p, p ≠ path → fs (snd out) !! p = fs w !! p)
  ∧ (∀ i c, CSVLogger.components self !! i = Some c →
       CSVLogger.headers self !! i
       = Some match label c with
              | Some (String a s) => String a s
              | _ => "component " +:+ Py.str_nat i
              end)
  ∧ drop (length (CSVLogger.components self)) (CSVLogger.headers self)
    = ["flag"; "username"; "timestamp"].
Proof.
  intros path writerow out K.
  pose proof (flag_append_run encrypt decrypt self flag_data flag_option
                username now w) as Hrun.
  simpl in Hrun. rewrite K in Hrun. fold path writerow in Hrun. fold out in Hrun.
  split_and!.
  - eexists. rewrite Hrun, line_count_world. simpl. apply lookup_insert_eq.
  - intros p Hp. rewrite Hrun, line_count_world. simpl.
    by apply lookup_insert_ne.
  - intros i c Hc. by rewrite (headers_lookup self i c Hc).
  - apply headers_tail.
Qed.

Lemma X1_header_written_once_witness :
  let self := CSVLogger.setup [Demo.prompt; Demo.text_component None] "flagged"
                (Some EmptyString) in
  let path := Py.path_join (CSVLogger.flagging_dir self) "log.csv" in
  let writerow := csv.writerow csv.nonnumeric_apostrophe in
  let out := CSVLogger.flag Demo.no_cipher Demo.no_cipher self
               [Some "hello"; None] (Some "good") None (Some "alice") "t0"
               Demo.fresh in
  (∃ record,
     fs (snd out) !! path
     = Some (match fs Demo.fresh !! path with
             | Some old => old
             | None => writerow (Some <$> CSVLogger.headers self)
             end +:+ writerow record))
  ∧ (∀ p, p ≠ path → fs (snd out) !! p = fs Demo.fresh !! p)
  ∧ (∀ i c, CSVLogger.components self !! i = Some c →
       CSVLogger.headers self !! i
       = Some match label c with
              | Some (String a s) => String a s
              | _ => "component " +:+ Py.str_nat i
              end)
  ∧ drop (length (CSVLogger.components self)) (CSVLogger.headers self)
    = ["flag"; "username"; "timestamp"].
Proof.
  apply (X1_header_written_once Demo.no_cipher Demo.no_cipher
           (CSVLogger.setup [Demo.prompt; Demo.text_component None] "flagged"
              (Some EmptyString))
           [Some "hello"; None] (Some "good") (Some "alice") "t0" Demo.fresh).
  reflexivity.
Defined.

(** X2 (count returned by the default local logger).  Without a key, when
    the log is missing, or holds the header and records the logger wrote,
    and no cell holds a comma, a carriage return or a line feed, an append
    returns the number of records the log holds after it, and the log is
    the header followed by the old records and the new one: the Nth call on
    a store without a log returns N. *)
Theorem X2_append_returns_record_count {Sample : Type}
    (encrypt decrypt : string → string → string)
    (components : list (Component Sample)) (dir : string)
    (flag_data : list (option Sample)) (flag_option username : option string)
    (now : string) (w : World Sample) (rows : list (list string)) :
  let self := CSVLogger.setup components dir None in
  let path := Py.path_join dir "log.csv" in
  let record :=
    (CSVLogger.cell dir None <$> enumerate_zip 0 components flag_data)
    ++ [default EmptyString flag_option; default EmptyString username; now] in
  let out := CSVLogger.flag encrypt decrypt self flag_data flag_option None
               username now w in
  (fs w !! path = None ∧ rows = [])
  ∨ fs w !! path = Some (written (CSVLogger.headers self :: rows)) →
  cells_ok (CSVLogger.headers self) = true →
  forallb cells_ok rows = true → cells_ok record = true →
  fst out = Ok (Z.of_nat (length rows) + 1)
  ∧ fs (snd out) !! path
    = Some (written (CSVLogger.headers self :: rows ++ [record])).
Proof. apply flag_counts_records. Qed.

Lemma X2_append_returns_record_count_witness :
  let w := snd (Demo.append "r1" "b" "t1"
                  (snd (Demo.append "r0" "a" "t0" Demo.fresh))) in
  let rows := [["r0"; "a"; "alice"; "t0"]; ["r1"; "b"; "alice"; "t1"]] in
  fst (Demo.append "r2" "c" "t2" w) = Ok (Z.of_nat (length rows) + 1)
  ∧ fs (snd (Demo.append "r2" "c" "t2" w)) !! Py.path_join "flagged" "log.csv"
    = Some (written (CSVLogger.headers Demo.logger
                     :: rows ++ [["r2"; "c"; "alice"; "t2"]])).
Proof.
  apply (X2_append_returns_record_count Demo.no_cipher Demo.no_cipher
           [Demo.prompt] "flagged" [Some "r2"] (Some "c") (Some "alice") "t2"
           (snd (Demo.append "r1" "b" "t1"
                   (snd (Demo.append "r0" "a" "t0" Demo.fresh))))
           [["r0"; "a"; "alice"; "t0"]; ["r1"; "b"; "alice"; "t1"]]);
    [right|..]; vm_compute; reflexivity.
Defined.

(** ** The simple logger *)

(** X3 (what the simple logger records).  A call runs the serializer once
    for every (component, value) pair, in order, values that are None
    included, with the component's own label and no key; it then opens the
    log for appending and writes one row holding the serializers' results,
    after whatever the log held: no header, and neither the label option
    nor the user is written.  No other file changes, and the only error
    the call can raise is the reader's, from the recount. *)
Theorem X3_simple_logger_appends_one_row {Sample : Type}
    (self : @SimpleCSVLogger.t Sample)
    (flag_data : list (option Sample)) (flag_option : option string)
    (flag_index : option Z) (username : option string) (w : World Sample) :
  let dir := SimpleCSVLogger.flagging_dir self in
  let path := Py.path_join dir "log.csv" in
  let pairs := zip (SimpleCSVLogger.components self) flag_data in
  let row := csv.writerow csv.nonnumeric_apostrophe
               (Some <$> (simple_cell dir <$> pairs)) in
  let out := SimpleCSVLogger.flag self flag_data flag_option flag_index
               username w in
  trace (snd out)
  = trace w ++ (simple_call dir <$> pairs)
    ++ [EvOpen path mode_a; EvWrite path row]
  ∧ length (simple_call dir <$> pairs)
    = (length (SimpleCSVLogger.components self) `min` length flag_data)%nat
  ∧ fs (snd out) = <[path := default EmptyString (fs w !! path) +:+ row]> (fs w)
  ∧ ∀ e, fst out = Raise e → e = CsvError.
Proof.
  intros dir path pairs row out. subst out.
  rewrite simple_flag_run. fold dir path pairs row.
  rewrite line_count_world. simpl. split_and!; [done| |done|].
  - unfold pairs. by rewrite length_fmap, length_zip_with.
  - intros e. erewrite line_count_found by (simpl; apply lookup_insert_eq).
    unfold rbind. destruct (csv.reader _ _) eqn:R; [done|].
    intros [= <-]. by apply reader_error in R.
Qed.

(** X4 (count returned by the simple logger).  When the log is missing or
    holds rows the logger wrote, and no cell holds a comma, a carriage
    return or a line feed, a call returns the number of rows the log held
    before it: there is no header row to discount, so the Nth call on a
    store without a log returns N - 1. *)
Theorem X4_simple_logger_returns_previous_count {Sample : Type}
    (self : @SimpleCSVLogger.t Sample)
    (flag_data : list (option Sample)) (flag_option : option string)
    (flag_index : option Z) (username : option string) (w : World Sample)
    (rows : list (list string)) :
  let dir := SimpleCSVLogger.flagging_dir self in
  let path := Py.path_join dir "log.csv" in
  let cells := simple_cell dir <$> zip (SimpleCSVLogger.components self) flag_data in
  let out := SimpleCSVLogger.flag self flag_data flag_option flag_index
               username w in
  default EmptyString (fs w !! path) = written rows →
  forallb cells_ok rows = true → cells_ok cells = true →
  fst out = Ok (Z.of_nat (length rows))
  ∧ fs (snd out) !! path = Some (written (rows ++ [cells])).
Proof. apply simple_flag_counts_previous_rows. Qed.

Lemma X4_simple_logger_returns_previous_count_witness :
  let self := SimpleCSVLogger.setup [Demo.prompt] "flagged" in
  let out := SimpleCSVLogger.flag self [Some "r0"] (Some "a") None None
               Demo.fresh in
  fst out = Ok (Z.of_nat (length ([] : list (list string))))
  ∧ fs (snd out) !! Py.path_join "flagged" "log.csv"
    = Some (written ([] ++ [["r0"]])).
Proof.
  apply (X4_simple_logger_returns_previous_count
           (SimpleCSVLogger.setup [Demo.prompt] "flagged")
           [Some "r0"] (Some "a") None None Demo.fresh []);
    vm_compute; reflexivity.
Defined.

(** ** Updates of the default local logger *)

(** X5 (no update after the logger's own append).  Without a key and with
    labels free of commas, carriage returns and line feeds, once the logger
    has appended to a log that was missing or began with its header line,
    every update, whatever the row index and the label, raises ValueError
    (or the reader's error) and leaves the store as it was: the header read
    back holds the cell flag between apostrophes, which is not the cell the
    update looks for. *)
Theorem X5_update_after_own_append_raises {Sample : Type}
    (encrypt decrypt : string → string → string)
    (components : list (Component Sample)) (dir : string)
    (flag_data flag_data' : list (option Sample))
    (flag_option flag_option' username username' : option string)
    (now now' : string) (i : Z) (w : World Sample) :
  let self := CSVLogger.setup components dir None in
  let path := Py.path_join dir "log.csv" in
  let w1 := snd (CSVLogger.flag encrypt decrypt self flag_data flag_option None
                   username now w) in
  cells_ok (CSVLogger.headers self) = true →
  fs w !! path = None ∨ logged self w →
  ∃ e, CSVLogger.flag encrypt decrypt self flag_data' flag_option' (Some i)
         username' now' w1 = (Raise e, w1)
       ∧ (e = ValueError ∨ e = CsvError).
Proof.
  intros self path w1 [Hp Hs]%andb_prop Hw.
  apply update_on_logged_raises; [done..|].
  by apply append_gives_logged.
Qed.

Lemma X5_update_after_own_append_raises_witness :
  let w1 := snd (Demo.append "r0" "a" "t0" Demo.fresh) in
  ∃ e, Demo.update 0 "bad" w1 = (Raise e, w1)
       ∧ (e = ValueError ∨ e = CsvError).
Proof.
  apply (X5_update_after_own_append_raises Demo.no_cipher Demo.no_cipher
           [Demo.prompt] "flagged" [Some "r0"] [] (Some "a") (Some "bad")
           (Some "alice") None "t0" "t9" 0 Demo.fresh);
    [vm_compute; reflexivity|left; vm_compute; reflexivity].
Defined.

(** X6 (row index of an update).  Where the header read from the log holds
    the cell flag, the rows read being n in number (the header is one of
    them): an index below -n or not below n raises IndexError; an index from
    -n to n - 1 addresses the row at that position, counted from the end
    when negative, and the replacement succeeds when that row reaches the
    flag column and raises IndexError when the row is too short. *)
Theorem X6_update_index_range (i : Z) (flag_option : option string)
    (text : string) (content : list (list string)) (header : list string)
    (col : nat) :
  let n := Z.of_nat (length content) in
  let k := Z.to_nat (if i <? 0 then i + n else i) in
  csv.reader csv.excel (Py.iter_lines text) = Ok content →
  content !! 0%nat = Some header →
  Py.index header "flag" = Ok col →
  (i < - n ∨ n <= i →
   CSVLogger.replace_flag_at_index i flag_option text = Raise IndexError)
  ∧ (- n <= i < n →
     ∃ row, content !! k = Some row
       ∧ CSVLogger.replace_flag_at_index i flag_option text
         = if (col <? length row)%nat
           then Ok (csv.writerows csv.nonnumeric_apostrophe
                      (<[k := <[col := flag_option]> (Some <$> row)]>
                         (fmap (M:=list) Some <$> content)))
           else Raise IndexError).
Proof.
  intros n k Hread Hheader Hcol. split.
  - intros Hi. eapply replace_flag_out_of_range; eauto. fold n. lia.
  - intros Hi. destruct (getitem_in_range content i Hi) as (row & Hk & Hrow).
    fold n k in Hk, Hrow. exists row. split; [done|].
    unfold CSVLogger.replace_flag_at_index. rewrite Hread, rbind_ok.
    assert (Py.getitem content 0 = Ok (0%nat, header)) as ->.
    { destruct content as [|h content]; [done|].
      injection Hheader as ->. apply getitem_first. }
    rewrite rbind_ok, Hcol, rbind_ok, Hrow, rbind_ok.
    unfold Py.setitem. rewrite length_fmap.
    by destruct (col <? length row)%nat.
Qed.

Lemma X6_update_index_range_witness :
  let content := [["prompt"; "flag"]; ["r0"; "a"]; ["r1"; "b"]; ["r2"; "c"]] in
  let n := Z.of_nat (length content) in
  let k := Z.to_nat (if -1 <? 0 then -1 + n else -1) in
  (-1 < - n ∨ n <= -1 →
   CSVLogger.replace_flag_at_index (-1) (Some "bad") Demo.bare3
   = Raise IndexError)
  ∧ (- n <= -1 < n →
     ∃ row, content !! k = Some row
       ∧ CSVLogger.replace_flag_at_index (-1) (Some "bad") Demo.bare3
         = if (1 <? length row)%nat
           then Ok (csv.writerows csv.nonnumeric_apostrophe
                      (<[k := <[1%nat := Some "bad"]> (Some <$> row)]>
                         (fmap (M:=list) Some <$> content)))
           else Raise IndexError).
Proof.
  apply (X6_update_index_range (-1) (Some "bad") Demo.bare3
           [["prompt"; "flag"]; ["r0"; "a"]; ["r1"; "b"]; ["r2"; "c"]]
           ["prompt"; "flag"] 1);
    vm_compute; reflexivity.
Defined.

(** X7 (what the codec gives back).  For a header and records whose cells
    hold no comma, carriage return or line feed, decoding the text the
    logger encodes (as read back from the file) gives as many rows and
    cells, every cell between the apostrophes the writer put around it, its
    own apostrophes doubled; so it does not give back the header and
    records that went in, unless the header is empty. *)
Theorem X7_codec_returns_quoted_cells (header : list string)
    (rows : list (list string)) :
  cells_ok header = true → forallb cells_ok rows = true →
  CSVLogger.decodeAll (Py.universal_newlines (CSVLogger.encodeAll header rows))
  = Ok (quoted <$> header, fmap (M:=list) quoted <$> rows)
  ∧ (header ≠ [] →
     CSVLogger.decodeAll
       (Py.universal_newlines (CSVLogger.encodeAll header rows))
     ≠ Ok (header, rows)).
Proof.
  intros Hh Hrows. split; [by apply round_trip_gives_quoted|].
  intros Hne. by apply round_trip_fails.
Qed.

Lemma X7_codec_returns_quoted_cells_witness :
  CSVLogger.decodeAll
    (Py.universal_newlines
       (CSVLogger.encodeAll ["prompt"; "flag"] [["it's"; "good"]]))
  = Ok (quoted <$> ["prompt"; "flag"], fmap (M:=list) quoted <$> [["it's"; "good"]])
  ∧ (["prompt"; "flag"] ≠ [] →
     CSVLogger.decodeAll
       (Py.universal_newlines
          (CSVLogger.encodeAll ["prompt"; "flag"] [["it's"; "good"]]))
     ≠ Ok (["prompt"; "flag"], [["it's"; "good"]])).
Proof.
  apply (X7_codec_returns_quoted_cells ["prompt"; "flag"] [["it's"; "good"]]);
    vm_compute; reflexivity.
Defined.

(** X8 (an update cannot be repeated).  Without a key, when an update
    succeeds on a log whose header cells and new label hold no comma,
    carriage return or line feed, the log it leaves has every cell between
    apostrophes, the header included; every later update, whatever its row
    index and label, raises ValueError (or the reader's error) and leaves
    the store as it was. *)
Theorem X8_successful_update_blocks_later_updates {Sample : Type}
    (encrypt decrypt : string → string → string)
    (components : list (Component Sample)) (dir : string)
    (flag_data flag_data' : list (option Sample))
    (flag_option flag_option' username username' : option string)
    (now now' : string) (i i' : Z) (w w1 : World Sample) (n : Z)
    (old : string) (header : list string) (content : list (list string)) :
  let self := CSVLogger.setup components dir None in
  let path := Py.path_join dir "log.csv" in
  fs w !! path = Some old →
  csv.reader csv.excel (Py.iter_lines (Py.universal_newlines old))
  = Ok (header :: content) →
  cells_ok header = true →
  cells_ok [default EmptyString flag_option] = true →
  CSVLogger.flag encrypt decrypt self flag_data flag_option (Some i)
    username now w = (Ok n, w1) →
  ∃ e, CSVLogger.flag encrypt decrypt self flag_data' flag_option' (Some i')
         username' now' w1 = (Raise e, w1)
       ∧ (e = ValueError ∨ e = CsvError).
Proof.
  intros self path Hold Hread Hh Ho Hrun. subst self.
  rewrite flag_update_run in Hrun. fold path in Hrun. rewrite Hold in Hrun.
  destruct (CSVLogger.replace_flag_at_index i flag_option
              (Py.universal_newlines old)) as [new|] eqn:Hnew; [|done].
  destruct (replace_flag_gives_written_header i flag_option _ new header Hnew)
    as (hdr & rest & -> & [Hp Hs]%andb_prop); [by eexists|done..|].
  apply line_count_ok in Hrun as [-> _].
  rewrite flag_update_run. fold path. simpl. rewrite lookup_insert_eq.
  rewrite replace_flag_on_written_header by done.
  destruct (csv.reader csv.excel (Py.iter_lines (Py.universal_newlines rest)))
    as [rows|e] eqn:R.
  - exists ValueError. auto.
  - exists e. split; [done|]. right. by apply reader_error in R.
Qed.

Lemma X8_successful_update_blocks_later_updates_witness :
  let w1 := snd (Demo.update 1 "bad" (Demo.on_disk Demo.log_filepath Demo.bare3)) in
  ∃ e, Demo.update 2 "worse" w1 = (Raise e, w1)
       ∧ (e = ValueError ∨ e = CsvError).
Proof.
  apply (X8_successful_update_blocks_later_updates Demo.no_cipher
           Demo.no_cipher [Demo.prompt] "flagged" [] [] (Some "bad")
           (Some "worse") None None "t9" "t9" 1 2
           (Demo.on_disk Demo.log_filepath Demo.bare3)
           (snd (Demo.update 1 "bad" (Demo.on_disk Demo.log_filepath Demo.bare3)))
           3 Demo.bare3 ["prompt"; "flag"]
           [["r0"; "a"]; ["r1"; "b"]; ["r2"; "c"]]);
    vm_compute; reflexivity.
Defined.

(** X9 (serializers run before a keyed call fails).  With a non-empty key
    an append has already called the serializer, with the key, for every
    value that is not None when the open of the log raises ValueError: what
    the serializers saved stays although no record is written.  An update
    with a key raises ValueError before any call or file event. *)
Theorem X9_keyed_append_serializes_then_raises {Sample : Type}
    (encrypt decrypt : string → string → string)
    (self : @CSVLogger.t Sample)
    (flag_data : list (option Sample)) (flag_option username : option string)
    (now : string) (i : Z) (w : World Sample) :
  let dir := CSVLogger.flagging_dir self in
  let key := CSVLogger.encryption_key self in
  let items := enumerate_zip 0 (CSVLogger.components self) flag_data in
  Py.truthy key = true →
  CSVLogger.flag encrypt decrypt self flag_data flag_option None username now w
  = (Raise ValueError,
     {| fs := fs w; trace := trace w ++ omap (CSVLogger.call dir key) items |})
  ∧ CSVLogger.flag encrypt decrypt self flag_data flag_option (Some i)
      username now w
    = (Raise ValueError, w).
Proof.
  intros dir key items K. split.
  - pose proof (flag_append_run encrypt decrypt self flag_data flag_option
                  username now w) as Hrun.
    simpl in Hrun. fold dir key items in Hrun. rewrite K in Hrun. exact Hrun.
  - unfold CSVLogger.flag. fold key. rewrite K.
    rewrite bind_run. unfold os_path_exists. simpl.
    rewrite bind_run. unfold ret at 1. simpl. rewrite !bind_run.
    destruct (fs w !! _) eqn:E; simpl; by rewrite ?world_eta.
Qed.

Lemma X9_keyed_append_serializes_then_raises_witness :
  let self := CSVLogger.setup [Demo.prompt; Demo.prompt] "flagged" (Some "k") in
  let items := enumerate_zip 0 (CSVLogger.components self) [Some "hello"; None] in
  CSVLogger.flag Demo.no_cipher Demo.no_cipher self [Some "hello"; None]
    (Some "good") None None "t0" Demo.fresh
  = (Raise ValueError,
     {| fs := fs Demo.fresh;
        trace := trace Demo.fresh
                 ++ omap (CSVLogger.call "flagged" (Some "k")) items |})
  ∧ CSVLogger.flag Demo.no_cipher Demo.no_cipher self [Some "hello"; None]
      (Some "good") (Some 0) None "t0" Demo.fresh
    = (Raise ValueError, Demo.fresh).
Proof.
  apply (X9_keyed_append_serializes_then_raises Demo.no_cipher Demo.no_cipher
           (CSVLogger.setup [Demo.prompt; Demo.prompt] "flagged" (Some "k"))
           [Some "hello"; None] (Some "good") None "t0" 0 Demo.fresh).
  reflexivity.
Defined.

(** ** The remote saver *)

(** X10 (header and record of a new dataset).  When the log is missing and
    every file-preview component has a label, the remote saver writes a
    header and then the record.  The header holds each component's label
    twice, then its label followed by file when the component is an audio or
    image one, and ends with flag; the record holds one cell per pair, one
    more per file-preview component, and the label option.  With n pairs, p
    of them previews, the header has 2n + p + 1 cells and the record
    n + p + 1. *)
Theorem X10_remote_header_and_record {Sample : Type}
    (json_dumps : HuggingFaceDatasetSaver.Features → string)
    (self : @HuggingFaceDatasetSaver.t Sample)
    (flag_data : list (option Sample)) (flag_option : option string)
    (flag_index : option Z) (username : option string) (w : World Sample) :
  let log := HuggingFaceDatasetSaver.log_file self in
  let pairs := zip (HuggingFaceDatasetSaver.components self) flag_data in
  let headers := concat (header_cells <$> pairs) ++ [Some "flag"] in
  let record :=
    (Some <$> concat (HuggingFaceDatasetSaver.cells self <$> pairs))
    ++ [Some (default EmptyString flag_option)] in
  let out := HuggingFaceDatasetSaver.flag json_dumps self flag_data flag_option
               flag_index username w in
  fs w !! log = None →
  existsb unlabelled_preview pairs = false →
  log ≠ HuggingFaceDatasetSaver.infos_file self →
  fs (snd out) !! log
  = Some (csv.writerow csv.excel headers +:+ csv.writerow csv.excel record)
  ∧ length headers = (2 * length pairs + previews pairs + 1)%nat
  ∧ length record = (length pairs + previews pairs + 1)%nat
  ∧ length pairs
    = (length (HuggingFaceDatasetSaver.components self) `min` length flag_data)%nat.
Proof.
  intros log pairs headers record out Hnew Hlab Hne. subst out.
  rewrite remote_flag_run. fold log pairs. rewrite Hnew.
  destruct (generate_headers_ok pairs [] [] Hlab) as [features ->].
  cbv zeta. rewrite count_and_push_fs. simpl.
  split_and!.
  - rewrite lookup_insert_ne by done. apply lookup_insert_eq.
  - unfold headers. rewrite length_app, header_cells_length. simpl. lia.
  - unfold record. rewrite length_app, length_fmap, cells_length. simpl. lia.
  - unfold pairs. apply length_zip_with.
Qed.

Lemma X10_remote_header_and_record_witness :
  let self := Demo.remote in
  let log := HuggingFaceDatasetSaver.log_file self in
  let pairs := zip (HuggingFaceDatasetSaver.components self)
                 [Some "hello"; Some "a.wav"] in
  let headers := concat (header_cells <$> pairs) ++ [Some "flag"] in
  let record :=
    (Some <$> concat (HuggingFaceDatasetSaver.cells self <$> pairs))
    ++ [Some (default EmptyString (Some "good"))] in
  let out := Demo.remote_flag Demo.fresh in
  fs (snd out) !! log
  = Some (csv.writerow csv.excel headers +:+ csv.writerow csv.excel record)
  ∧ length headers = (2 * length pairs + previews pairs + 1)%nat
  ∧ length record = (length pairs + previews pairs + 1)%nat
  ∧ length pairs
    = (length (HuggingFaceDatasetSaver.components self)
       `min` length [Some "hello"; Some "a.wav"])%nat.
Proof.
  apply (X10_remote_header_and_record Demo.json_dumps Demo.remote
           [Some "hello"; Some "a.wav"] (Some "good") None None Demo.fresh);
    [reflexivity|reflexivity|discriminate].
Defined.

(** X11 (a file-preview component without a label).  On a store without
    the log, when some audio or image component among the pairs has the
    label None, the call raises TypeError after the pull and after the open
    that created the log: the log is left empty, no serializer has run, no
    metadata is written and nothing is pushed.  Every later call then finds
    the log present: it appends its record and writes neither the header
    nor the metadata. *)
Theorem X11_remote_unlabelled_preview {Sample : Type}
    (json_dumps : HuggingFaceDatasetSaver.Features → string)
    (self : @HuggingFaceDatasetSaver.t Sample)
    (flag_data flag_data' : list (option Sample))
    (flag_option flag_option' : option string)
    (flag_index flag_index' : option Z) (username username' : option string)
    (w : World Sample) :
  let log := HuggingFaceDatasetSaver.log_file self in
  let pairs := zip (HuggingFaceDatasetSaver.components self) flag_data in
  let w1 := {| fs := <[log := EmptyString]> (fs w);
               trace := trace w ++ [EvGitPull true; EvOpen log mode_a] |} in
  let record' :=
    (Some <$> concat (HuggingFaceDatasetSaver.cells self
                        <$> zip (HuggingFaceDatasetSaver.components self)
                              flag_data'))
    ++ [Some (default EmptyString flag_option')] in
  fs w !! log = None →
  existsb unlabelled_preview pairs = true →
  HuggingFaceDatasetSaver.flag json_dumps self flag_data flag_option
    flag_index username w = (Raise TypeError, w1)
  ∧ fs (snd (HuggingFaceDatasetSaver.flag json_dumps self flag_data'
               flag_option' flag_index' username' w1))
    = <[log := csv.writerow csv.excel record']> (fs w).
Proof.
  intros log pairs w1 record' Hnew Hlab. split.
  - rewrite remote_flag_run. fold log pairs. rewrite Hnew.
    by rewrite (generate_headers_raise pairs [] [] Hlab).
  - rewrite remote_flag_run. fold log. simpl. rewrite lookup_insert_eq.
    rewrite count_and_push_fs. simpl.
    by rewrite append_nil_l, insert_insert_eq.
Qed.

Lemma X11_remote_unlabelled_preview_witness :
  let self := RemoteDemo.unlabelled in
  let log := HuggingFaceDatasetSaver.log_file self in
  let w1 := {| fs := <[log := EmptyString]> (fs Demo.fresh);
               trace := trace Demo.fresh ++ [EvGitPull true; EvOpen log mode_a] |} in
  let record' :=
    (Some <$> concat (HuggingFaceDatasetSaver.cells self
                        <$> zip (HuggingFaceDatasetSaver.components self)
                              [Some "b.png"]))
    ++ [Some (default EmptyString (Some "good"))] in
  HuggingFaceDatasetSaver.flag Demo.json_dumps self [Some "a.png"] None None
    None Demo.fresh = (Raise TypeError, w1)
  ∧ fs (snd (HuggingFaceDatasetSaver.flag Demo.json_dumps self [Some "b.png"]
               (Some "good") None None w1))
    = <[log := csv.writerow csv.excel record']> (fs Demo.fresh).
Proof.
  apply (X11_remote_unlabelled_preview Demo.json_dumps RemoteDemo.unlabelled
           [Some "a.png"] [Some "b.png"] None (Some "good") None None None None
           Demo.fresh);
    reflexivity.
Defined.

(** X12 (the remote saver on an existing log).  When the log is present
    the call pulls, opens the log for appending, runs the serializer once
    for every pair (values that are None included) and writes the record
    after the old content: no header is written, the labels are not looked
    at, and no other file changes, the metadata included.  It pushes only
    when the recount succeeds; the only error it can raise is the
    reader's. *)
Theorem X12_remote_existing_log_appends {Sample : Type}
    (json_dumps : HuggingFaceDatasetSaver.Features → string)
    (self : @HuggingFaceDatasetSaver.t Sample)
    (flag_data : list (option Sample)) (flag_option : option string)
    (flag_index : option Z) (username : option string) (w : World Sample)
    (old : string) :
  let log := HuggingFaceDatasetSaver.log_file self in
  let pairs := zip (HuggingFaceDatasetSaver.components self) flag_data in
  let record :=
    (Some <$> concat (HuggingFaceDatasetSaver.cells self <$> pairs))
    ++ [Some (default EmptyString flag_option)] in
  let row := csv.writerow csv.excel record in
  let out := HuggingFaceDatasetSaver.flag json_dumps self flag_data flag_option
               flag_index username w in
  fs w !! log = Some old →
  fs (snd out) = <[log := old +:+ row]> (fs w)
  ∧ trace (snd out)
    = trace w ++ [EvGitPull true; EvOpen log mode_a]
      ++ (HuggingFaceDatasetSaver.call self <$> pairs) ++ [EvWrite log row]
      ++ match fst out with
         | Ok n => [EvPushToHub ("Flagged sample #" +:+ Py.str_int n)]
         | Raise _ => []
         end
  ∧ (∀ e, fst out = Raise e → e = CsvError).
Proof.
  intros log pairs record row out Hold. subst out.
  rewrite remote_flag_run. fold log pairs. rewrite Hold. fold record row.
  split_and!.
  - by rewrite count_and_push_fs.
  - rewrite count_and_push_cases.
    destruct (fst (line_count log _ _)); simpl; [|done].
    rewrite <- app_assoc. simpl. by rewrite <- app_assoc.
  - intros e. eapply count_and_push_error. simpl. apply lookup_insert_eq.
Qed.

Lemma X12_remote_existing_log_appends_witness :
  let self := RemoteDemo.unlabelled in
  let w := Demo.on_disk "flagged/flags/data.csv" "image,flag" in
  let log := HuggingFaceDatasetSaver.log_file self in
  let pairs := zip (HuggingFaceDatasetSaver.components self) [Some "a.png"] in
  let record :=
    (Some <$> concat (HuggingFaceDatasetSaver.cells self <$> pairs))
    ++ [Some (default EmptyString (Some "good"))] in
  let row := csv.writerow csv.excel record in
  let out := HuggingFaceDatasetSaver.flag Demo.json_dumps self [Some "a.png"]
               (Some "good") None None w in
  fs (snd out) = <[log := "image,flag" +:+ row]> (fs w)
  ∧ trace (snd out)
    = trace w ++ [EvGitPull true; EvOpen log mode_a]
      ++ (HuggingFaceDatasetSaver.call self <$> pairs) ++ [EvWrite log row]
      ++ match fst out with
         | Ok n => [EvPushToHub ("Flagged sample #" +:+ Py.str_int n)]
         | Raise _ => []
         end
  ∧ (∀ e, fst out = Raise e → e = CsvError).
Proof.
  apply (X12_remote_existing_log_appends Demo.json_dumps RemoteDemo.unlabelled
           [Some "a.png"] (Some "good") None None
           (Demo.on_disk "flagged/flags/data.csv" "image,flag") "image,flag").
  reflexivity.
Defined.

(** X13 (metadata of a new dataset).  When the log is missing and every
    file-preview component has a label, the call writes to the metadata
    file the document of a features table in which no key occurs twice,
    flag is a string Value, the label of every pair is a key, and for every
    audio or image component the label followed by file is a key. *)
Theorem X13_remote_metadata_of_new_dataset {Sample : Type}
    (json_dumps : HuggingFaceDatasetSaver.Features → string)
    (self : @HuggingFaceDatasetSaver.t Sample)
    (flag_data : list (option Sample)) (flag_option : option string)
    (flag_index : option Z) (username : option string) (w : World Sample) :
  let log := HuggingFaceDatasetSaver.log_file self in
  let infos := HuggingFaceDatasetSaver.infos_file self in
  let pairs := zip (HuggingFaceDatasetSaver.components self) flag_data in
  let out := HuggingFaceDatasetSaver.flag json_dumps self flag_data flag_option
               flag_index username w in
  fs w !! log = None →
  existsb unlabelled_preview pairs = false →
  ∃ features : HuggingFaceDatasetSaver.Features,
    fs (snd out) !! infos = Some (json_dumps features)
    ∧ NoDup features.*1
    ∧ (Some "flag", HuggingFaceDatasetSaver.string_value) ∈ features
    ∧ (∀ pair, pair ∈ pairs → label pair.1 ∈ features.*1)
    ∧ (∀ pair, pair ∈ pairs →
         HuggingFaceDatasetSaver.is_file_preview pair.1 = true →
         ∃ l, label pair.1 = Some l ∧ Some (l +:+ " file") ∈ features.*1).
Proof.
  intros log infos pairs out Hnew Hlab. subst out.
  rewrite remote_flag_run. fold log infos pairs. rewrite Hnew.
  destruct (generate_headers_ok pairs [] [] Hlab) as [features Hgen].
  rewrite Hgen. cbv zeta. rewrite count_and_push_fs. simpl.
  destruct (generate_headers_features pairs [] [] _ _ Hgen) as (Hnd & _ & Hkeys);
    [apply NoDup_nil_2|].
  pose proof (generate_headers_preview_keys pairs [] [] _ _ Hgen
                (NoDup_nil_2 : NoDup ([] : HuggingFaceDatasetSaver.Features).*1))
    as Hprev.
  eexists. split_and!.
  - apply lookup_insert_eq.
  - by apply dict_set_nodup.
  - apply dict_set_elem.
  - intros pair Hin. rewrite dict_set_keys. auto.
  - intros pair Hin Hp. destruct (Hprev pair Hin Hp) as (l & Hl & Hk).
    exists l. split; [done|]. rewrite dict_set_keys. auto.
Qed.

Lemma X13_remote_metadata_of_new_dataset_witness :
  let self := Demo.remote in
  let infos := HuggingFaceDatasetSaver.infos_file self in
  let pairs := zip (HuggingFaceDatasetSaver.components self)
                 [Some "hello"; Some "a.wav"] in
  let out := Demo.remote_flag Demo.fresh in
  ∃ features : HuggingFaceDatasetSaver.Features,
    fs (snd out) !! infos = Some (Demo.json_dumps features)
    ∧ NoDup features.*1
    ∧ (Some "flag", HuggingFaceDatasetSaver.string_value) ∈ features
    ∧ (∀ pair, pair ∈ pairs → label pair.1 ∈ features.*1)
    ∧ (∀ pair, pair ∈ pairs →
         HuggingFaceDatasetSaver.is_file_preview pair.1 = true →
         ∃ l, label pair.1 = Some l ∧ Some (l +:+ " file") ∈ features.*1).
Proof.
  apply (X13_remote_metadata_of_new_dataset Demo.json_dumps Demo.remote
           [Some "hello"; Some "a.wav"] (Some "good") None None Demo.fresh);
    reflexivity.
Defined.

(** X14 (count returned by the remote saver).  When the log holds rows the
    default writer wrote (the header among them) and no cell, old or new,
    holds a comma, a double quote, a carriage return or a line feed, the
    call returns the number of rows the log held before it, which is the
    number of records it holds after; the log is the old rows followed by
    the record, and the push carries that number. *)
Theorem X14_remote_returns_record_count {Sample : Type}
    (json_dumps : HuggingFaceDatasetSaver.Features → string)
    (self : @HuggingFaceDatasetSaver.t Sample)
    (flag_data : list (option Sample)) (flag_option : option string)
    (flag_index : option Z) (username : option string) (w : World Sample)
    (rows : list (list string)) :
  let log := HuggingFaceDatasetSaver.log_file self in
  let pairs := zip (HuggingFaceDatasetSaver.components self) flag_data in
  let record :=
    concat (HuggingFaceDatasetSaver.cells self <$> pairs)
    ++ [default EmptyString flag_option] in
  let out := HuggingFaceDatasetSaver.flag json_dumps self flag_data flag_option
               flag_index username w in
  fs w !! log = Some (written_excel rows) →
  forallb bare_ok rows = true → bare_ok record = true →
  fst out = Ok (Z.of_nat (length rows))
  ∧ fs (snd out) !! log = Some (written_excel (rows ++ [record]))
  ∧ last (trace (snd out))
    = Some (EvPushToHub ("Flagged sample #"
                         +:+ Py.str_int (Z.of_nat (length rows)))).
Proof.
  intros log pairs record out Hold Hrows Hrec. subst out.
  rewrite remote_flag_run. fold log pairs. rewrite Hold.
  assert ((Some <$> concat (HuggingFaceDatasetSaver.cells self <$> pairs))
          ++ [Some (default EmptyString flag_option)] = Some <$> record) as ->.
  { unfold record. by rewrite fmap_app. }
  rewrite <- written_excel_one, <- written_excel_app.
  erewrite (count_and_push_run log _ _ (rows ++ [record]));
    [|simpl; apply lookup_insert_eq|].
  - rewrite length_app. simpl length.
    replace (Z.of_nat (length rows + 1) - 1) with (Z.of_nat (length rows)) by lia.
    simpl. split_and!; [done|apply lookup_insert_eq|].
    apply last_snoc.
  - apply reader_written_excel. rewrite forallb_app. simpl.
    by rewrite Hrows, Hrec.
Qed.

Lemma X14_remote_returns_record_count_witness :
  let self := Demo.remote in
  let w := snd (Demo.remote_flag Demo.fresh) in
  let rows := [["prompt"; "prompt"; "clip"; "clip"; "clip file"; "flag"];
               ["hello"; "a.wav"; "https://hub/flags/resolve/main/a.wav"; "good"]] in
  let log := HuggingFaceDatasetSaver.log_file self in
  let pairs := zip (HuggingFaceDatasetSaver.components self)
                 [Some "bye"; Some "b.wav"] in
  let record :=
    concat (HuggingFaceDatasetSaver.cells self <$> pairs)
    ++ [default EmptyString (Some "bad")] in
  let out := HuggingFaceDatasetSaver.flag Demo.json_dumps self
               [Some "bye"; Some "b.wav"] (Some "bad") None None w in
  fst out = Ok (Z.of_nat (length rows))
  ∧ fs (snd out) !! log = Some (written_excel (rows ++ [record]))
  ∧ last (trace (snd out))
    = Some (EvPushToHub ("Flagged sample #"
                         +:+ Py.str_int (Z.of_nat (length rows)))).
Proof.
  apply (X14_remote_returns_record_count Demo.json_dumps Demo.remote
           [Some "bye"; Some "b.wav"] (Some "bad") None None
           (snd (Demo.remote_flag Demo.fresh))
           [["prompt"; "prompt"; "clip"; "clip"; "clip file"; "flag"];
            ["hello"; "a.wav"; "https://hub/flags/resolve/main/a.wav"; "good"]]);
    vm_compute; reflexivity.
Defined.

(** X15 (first call on a new dataset).  When the log is missing, every
    file-preview component has a label, and no label or cell holds a
    comma, a double quote, a carriage return or a line feed (a label None
    counting as the empty string), the call leaves a log of two rows, the
    header and the record, returns 1 and pushes with the message Flagged
    sample #1. *)
Theorem X15_remote_first_call_returns_1 {Sample : Type}
    (json_dumps : HuggingFaceDatasetSaver.Features → string)
    (self : @HuggingFaceDatasetSaver.t Sample)
    (flag_data : list (option Sample)) (flag_option : option string)
    (flag_index : option Z) (username : option string) (w : World Sample) :
  let log := HuggingFaceDatasetSaver.log_file self in
  let pairs := zip (HuggingFaceDatasetSaver.components self) flag_data in
  let header :=
    default EmptyString <$> (concat (header_cells <$> pairs) ++ [Some "flag"]) in
  let record :=
    concat (HuggingFaceDatasetSaver.cells self <$> pairs)
    ++ [default EmptyString flag_option] in
  let out := HuggingFaceDatasetSaver.flag json_dumps self flag_data flag_option
               flag_index username w in
  fs w !! log = None →
  existsb unlabelled_preview pairs = false →
  log ≠ HuggingFaceDatasetSaver.infos_file self →
  bare_ok header = true → bare_ok record = true →
  fst out = Ok 1
  ∧ fs (snd out) !! log = Some (written_excel [header; record])
  ∧ last (trace (snd out)) = Some (EvPushToHub "Flagged sample #1").
Proof.
  intros log pairs header record out Hnew Hlab Hne Hh Hrec. subst out.
  rewrite remote_flag_run. fold log pairs. rewrite Hnew.
  destruct (generate_headers_ok pairs [] [] Hlab) as [features ->].
  cbv zeta. rewrite app_nil_l.
  set (W := {| fs := _; trace := _ |}).
  assert (fs W !! log = Some (written_excel [header; record])) as HW.
  { unfold W. simpl. rewrite lookup_insert_ne by done.
    rewrite lookup_insert_eq. f_equal.
    unfold written_excel. simpl. rewrite append_nil_r.
    rewrite writerow_default. fold header. f_equal.
    unfold record. by rewrite fmap_app. }
  rewrite (count_and_push_run log W _ [header; record] HW)
    by (apply reader_written_excel; simpl; by rewrite Hh, Hrec).
  cbn [fst snd fs trace length]. split_and!; [done|exact HW|apply last_snoc].
Qed.

Lemma X15_remote_first_call_returns_1_witness :
  let out := Demo.remote_flag Demo.fresh in
  fst out = Ok 1
  ∧ fs (snd out) !! HuggingFaceDatasetSaver.log_file Demo.remote
    = Some (written_excel
              [default EmptyString
                 <$> (concat (header_cells
                                <$> zip (HuggingFaceDatasetSaver.components
                                           Demo.remote)
                                      [Some "hello"; Some "a.wav"])
                      ++ [Some "flag"]);
               concat (HuggingFaceDatasetSaver.cells Demo.remote
                         <$> zip (HuggingFaceDatasetSaver.components Demo.remote)
                               [Some "hello"; Some "a.wav"])
               ++ [default EmptyString (Some "good")]])
  ∧ last (trace (snd out)) = Some (EvPushToHub "Flagged sample #1").
Proof.
  apply (X15_remote_first_call_returns_1 Demo.json_dumps Demo.remote
           [Some "hello"; Some "a.wav"] (Some "good") None None Demo.fresh);
    [reflexivity|reflexivity|discriminate|vm_compute; reflexivity..].
Defined.

(** X16 (the remote saver reads back what it wrote).  Rows whose cells
    hold no comma, double quote, carriage return or line feed, written by
    the default writer as the remote saver writes them and read back from
    the text-mode file by the default reader as its recount reads them,
    come back as the same rows, cell by cell. *)
Theorem X16_default_writer_reader_round_trip (rows : list (list string)) :
  forallb bare_ok rows = true →
  csv.reader csv.excel
    (Py.iter_lines (Py.universal_newlines (written_excel rows)))
  = Ok rows.
Proof. apply reader_written_excel. Qed.

Lemma X16_default_writer_reader_round_trip_witness :
  csv.reader csv.excel
    (Py.iter_lines (Py.universal_newlines
       (written_excel [["prompt"; "flag"]; ["it's"; EmptyString]; [EmptyString]])))
  = Ok [["prompt"; "flag"]; ["it's"; EmptyString]; [EmptyString]].
Proof.
  apply (X16_default_writer_reader_round_trip
           [["prompt"; "flag"]; ["it's"; EmptyString]; [EmptyString]]).
  vm_compute. reflexivity.
Defined.


